(** * OTT trend dashboard: ingestion and filtering (dashboard.py)

    A shallow embedding of [load_all_data] and [filter_data] of
    [dashboard.py], together with the part of pandas they rely on:
    data frames as a column list plus labelled rows, scalar date
    conversion, [concat], boolean indexing and [dropna].

    - A frame is its column labels and its rows; a row carries its index
      label and maps column labels to cells. A column is the list of its
      cells: dtypes are not modelled.
    - What lies outside the script is a parameter of the ingestion: the
      directory of the script, [glob.glob], [pd.read_csv] (the frame
      read from a path or the exception raised) and the conversion
      [pd.to_datetime] applies to the values of a column when it is
      given no format. The format [%Y%m%d] is given a definition of its
      own, after the regular expression of [strptime]. The decorator
      [st.cache_data] memoizes the result and is left out.
    - Code that can raise lives in a result type; the loops of
      [load_all_data], which print, and the loop of [filter_data], which
      creates frame objects, live in a state and exception monad. The
      filter runs on an object store, so that a table in the result can
      be the same object as a table of the input.

    The file has three parts: the embedding, the vocabulary in which the
    properties are stated (with the concrete inputs they are tried on),
    and the lemmas and theorems. *)

From stdpp Require Import gmap strings list fin_maps pretty.
From Stdlib Require Import ZArith Ascii Sorted.

Local Open Scope string_scope.
Local Open Scope Z_scope.

(** ** Exceptions and results *)

Module Py.

(** The exception classes the modelled code can meet. *)
Inductive Exn : Type :=
| KeyError (key : string)
| ValueError (msg : string)
| TypeError (msg : string)
| AttributeError (msg : string)
| OSError (msg : string).

Inductive result (A : Type) : Type :=
| Ok (a : A)
| Raise (e : Exn).
Arguments Ok {A} a.
Arguments Raise {A} e.

Definition rbind {A B} (x : result A) (k : A → result B) : result B :=
  match x with
  | Ok a => k a
  | Raise e => Raise e
  end.

(** [str.split(sep)] for a one-character separator: the pieces between
    the separators, empty pieces included, so the result has one more
    element than the string has separators. *)
Fixpoint split (sep : ascii) (s : string) : list string :=
  match s with
  | EmptyString => [EmptyString]
  | String c s' =>
      if Ascii.eqb c sep then EmptyString :: split sep s'
      else match split sep s' with
           | h :: t => String c h :: t
           | [] => [String c EmptyString]
           end
  end.

(** [os.path.basename]: what follows the last slash. *)
Definition basename (p : string) : string :=
  List.last (split "/"%char p) EmptyString.

(** The last character of a string is a slash. *)
Fixpoint ends_with_slash (s : string) : bool :=
  match s with
  | EmptyString => false
  | String c EmptyString => Ascii.eqb c "/"
  | String _ s' => ends_with_slash s'
  end.

(** [os.path.join] of a directory and one component: a component that
    starts with a slash replaces the directory; no slash is put after
    an empty directory or after one that ends with a slash. *)
Definition path_join (d f : string) : string :=
  match f with
  | String "/" _ => f
  | _ =>
      match d with
      | EmptyString => f
      | _ => if ends_with_slash d then d +:+ f else d +:+ "/" +:+ f
      end
  end.

(** A [dict] with string keys, in insertion order. *)
Definition dict (V : Type) : Type := list (string * V).

Fixpoint dict_set {V} (d : dict V) (k : string) (v : V) : dict V :=
  match d with
  | [] => [(k, v)]
  | (k', v') :: d' =>
      if String.eqb k' k then (k', v) :: d' else (k', v') :: dict_set d' k v
  end.

Fixpoint dict_get {V} (d : dict V) (k : string) : option V :=
  match d with
  | [] => None
  | (k', v') :: d' => if String.eqb k' k then Some v' else dict_get d' k
  end.

End Py.

Export Py.

Global Instance result_ret : MRet result := @Ok.
Global Instance result_bind : MBind result := λ A B k x, rbind x k.

(** ** The pandas fragment *)

Module Pd.

(** A calendar date, as [datetime.date]. *)
Record Date : Type := mkDate { year : Z; month : Z; day : Z }.

(** [pandas.Timestamp]: a wall-clock date, the nanoseconds elapsed since
    midnight, and the UTC offset in minutes when the value is
    timezone-aware ([None] for a naive one). *)
Record Timestamp : Type := mkTs { ts_date : Date; ts_nanos : Z; ts_tz : option Z }.

(** [pd.Timestamp(d)] for a [datetime.date]: naive midnight of that day. *)
Definition Timestamp_of_date (d : Date) : Timestamp :=
  {| ts_date := d; ts_nanos := 0; ts_tz := None |}.

Definition date_compare (a b : Date) : comparison :=
  match year a ?= year b with
  | Eq => match month a ?= month b with
          | Eq => day a ?= day b
          | c => c
          end
  | c => c
  end.

(** Order of two naive timestamps: by date, then by time of day. *)
Definition ts_compare (a b : Timestamp) : comparison :=
  match date_compare (ts_date a) (ts_date b) with
  | Eq => ts_nanos a ?= ts_nanos b
  | c => c
  end.

Definition ts_leb (a b : Timestamp) : bool :=
  match ts_compare a b with Gt => false | _ => true end.

(** One value of a frame. [CNull] stands for NaN, None and NaT alike;
    numbers are integers (no property below looks into a number). *)
Inductive cell : Type :=
| CNull
| CStr (s : string)
| CInt (n : Z)
| CTs (t : Timestamp).

Definition is_null (c : cell) : bool :=
  match c with CNull => true | _ => false end.

Abbreviation row := (gmap string cell).

(** A data frame: the column labels in order and the rows, each with its
    index label. A column missing from a row reads as null. *)
Record DataFrame : Type := mkDF { columns : list string; rows : list (nat * row) }.

(** [pd.DataFrame()] *)
Definition DataFrame_new : DataFrame := {| columns := []; rows := [] |}.

(** [df.empty]: some axis has length zero. *)
Definition empty (df : DataFrame) : bool :=
  match columns df, rows df with
  | [], _ | _, [] => true
  | _, _ => false
  end.

(** [c in df.columns] *)
Definition has_column (c : string) (df : DataFrame) : bool :=
  existsb (String.eqb c) (columns df).

Definition get (c : string) (r : nat * row) : cell := default CNull (r.2 !! c).

(** [df[c]]: the values of a column, [KeyError] when there is none. *)
Definition column (c : string) (df : DataFrame) : result (list cell) :=
  if has_column c df then Ok (get c <$> rows df) else Raise (KeyError c).

Definition add_label (c : string) (cols : list string) : list string :=
  if existsb (String.eqb c) cols then cols else cols ++ [c].

(** [df[c] = v] for a scalar [v]: every row gets [v]; a new label goes
    last, an existing column is overwritten in place. *)
Definition set_scalar (c : string) (v : cell) (df : DataFrame) : DataFrame :=
  {| columns := add_label c (columns df);
     rows := (λ r, (r.1, <[c := v]> r.2)) <$> rows df |}.

(** [df[c] = vs] for a series [vs] computed from a column of [df] itself
    (same index, so the assignment is positional). *)
Definition set_series (c : string) (vs : list cell) (df : DataFrame) : DataFrame :=
  {| columns := add_label c (columns df);
     rows := zip_with (λ r v, (r.1, <[c := v]> r.2)) (rows df) vs |}.

(** [df[mask]]: the rows whose mask entry is true, labels kept. A new
    frame: [df] itself is left as it is. *)
Fixpoint select_rows {A} (mask : list bool) (l : list A) : list A :=
  match mask, l with
  | b :: mask', x :: l' => if b then x :: select_rows mask' l' else select_rows mask' l'
  | _, _ => []
  end.

Definition select (mask : list bool) (df : DataFrame) : DataFrame :=
  {| columns := columns df; rows := select_rows mask (rows df) |}.

(** [df.dropna(subset=[c])] *)
Definition dropna (c : string) (df : DataFrame) : DataFrame :=
  select ((λ r, negb (is_null (get c r))) <$> rows df) df.

(** [series.isin(values)] for a list of strings. *)
Definition isin (values : list string) (c : cell) : bool :=
  match c with
  | CStr s => existsb (String.eqb s) values
  | _ => false
  end.

(** [series >= ts] and [series <= ts] against a naive timestamp, value
    by value, as pandas compares a column of dtype object and a column
    of naive timestamps: a null compares false; any other value that is
    no naive timestamp (a string, a number, a timezone-aware timestamp)
    makes the comparison raise. The dtype of a column is not modelled:
    a column of numbers or of timezone-aware timestamps raises in
    pandas by its dtype, also when it holds nothing but nulls or no
    value at all, where nothing raises here. *)
Definition cmp_cell (op : Timestamp → Timestamp → bool) (ts : Timestamp)
    (c : cell) : result bool :=
  match c with
  | CNull => Ok false
  | CTs t =>
      match ts_tz t with
      | None => Ok (op t ts)
      | Some _ => Raise (TypeError "Cannot compare tz-naive and tz-aware timestamps")
      end
  | _ => Raise (TypeError "Invalid comparison with Timestamp")
  end.

(** An elementwise operation on a series that raises at the first value
    it cannot handle. *)
Fixpoint series_map {A B} (f : A → result B) (l : list A) : result (list B) :=
  match l with
  | [] => Ok []
  | x :: l' => y ← f x; ys ← series_map f l'; Ok (y :: ys)
  end.

Definition series_ge (ts : Timestamp) (s : list cell) : result (list bool) :=
  series_map (cmp_cell (λ t b, ts_leb b t) ts) s.

Definition series_le (ts : Timestamp) (s : list cell) : result (list bool) :=
  series_map (cmp_cell ts_leb ts) s.

(** [m1 & m2] on boolean series of one index. *)
Definition mask_and (m1 m2 : list bool) : list bool := zip_with andb m1 m2.

(** Labels of all frames, each once, in order of first appearance. *)
Definition union_columns (dfs : list DataFrame) : list string :=
  foldl (λ acc df, foldl (λ a c, add_label c a) acc (columns df)) [] dfs.

(** A row widened to [cols]: the columns it lacks are filled with null. *)
Definition reindex (cols : list string) (r : row) : row :=
  foldr (λ c m, match m !! c with Some _ => m | None => <[c := CNull]> m end) r cols.

(** [pd.concat(dfs, ignore_index=True)]: outer union of the columns,
    rows in order, index renumbered from 0. No frame at all is an error. *)
Definition concat (dfs : list DataFrame) : result DataFrame :=
  match dfs with
  | [] => Raise (ValueError "No objects to concatenate")
  | _ =>
      let cols := union_columns dfs in
      let rs := flat_map (λ df, (λ r, reindex cols r.2) <$> rows df) dfs in
      Ok {| columns := cols; rows := zip (seq 0 (length rs)) rs |}
  end.

End Pd.

Export Pd.

(** ** Date conversion ([pd.to_datetime]) *)

Module ToDatetime.

(** What converting one scalar gives: a timestamp, NaT, or a failure
    (the [ValueError] that [errors='raise'] lets through and
    [errors='coerce'] turns into NaT). *)
Inductive conv : Type :=
| Conv (t : Timestamp)
| ConvNaT
| ConvFail.

Inductive errors_mode : Type := ErrorsRaise | ErrorsCoerce.

Definition digit (c : ascii) : option Z :=
  let n := Z.of_N (N_of_ascii c) in
  if (48 <=? n) && (n <=? 57) then Some (n - 48) else None.

Definition is_leap (y : Z) : bool :=
  ((y mod 4 =? 0) && negb (y mod 100 =? 0)) || (y mod 400 =? 0).

Definition days_in_month (y m : Z) : Z :=
  if m =? 2 then (if is_leap y then 29 else 28)
  else if (m =? 4) || (m =? 6) || (m =? 9) || (m =? 11) then 30
  else 31.

(** *** The format [%Y%m%d]

    [strptime] turns the format into the regular expression
    [(?P<Y>\d\d\d\d)(?P<m>1[0-2]|0[1-9]|[1-9])(?P<d>3[0-1]|[1-2]\d|0[1-9]|[1-9]| [1-9])]
    and matches it at the head of the value. Below, a directive reads a
    token at the head of a text: it gives its readings in the order in
    which the alternatives are tried, each with the rest of the text.
    (Digits are the ASCII digits.) *)

Abbreviation reading := (Z * list ascii)%type.

(** Two digits, the first in [lo1..hi1], the second in [lo2..hi2]. *)
Definition two_digits (lo1 hi1 lo2 hi2 : Z) (l : list ascii) : list reading :=
  match l with
  | a :: b :: r =>
      match digit a, digit b with
      | Some x, Some y =>
          if (lo1 <=? x) && (x <=? hi1) && (lo2 <=? y) && (y <=? hi2)
          then [(10 * x + y, r)] else []
      | _, _ => []
      end
  | _ => []
  end.

(** One digit in [lo..hi]. *)
Definition one_digit (lo hi : Z) (l : list ascii) : list reading :=
  match l with
  | a :: r =>
      match digit a with
      | Some x => if (lo <=? x) && (x <=? hi) then [(x, r)] else []
      | None => []
      end
  | [] => []
  end.

(** A space and a digit in [1..9]. *)
Definition space_digit (l : list ascii) : list reading :=
  match l with
  | a :: r => if Ascii.eqb a " " then one_digit 1 9 r else []
  | [] => []
  end.

(** [%Y]: four digits. *)
Definition read_Y (l : list ascii) : list reading :=
  match l with
  | a :: b :: c :: d :: r =>
      match digit a, digit b, digit c, digit d with
      | Some y1, Some y2, Some y3, Some y4 =>
          [(1000 * y1 + 100 * y2 + 10 * y3 + y4, r)]
      | _, _, _, _ => []
      end
  | _ => []
  end.

(** [%m]: [1[0-2]|0[1-9]|[1-9]]. *)
Definition read_m (l : list ascii) : list reading :=
  (two_digits 1 1 0 2 l ++ two_digits 0 0 1 9 l ++ one_digit 1 9 l)%list.

(** [%d]: [3[0-1]|[1-2]\d|0[1-9]|[1-9]| [1-9]]. *)
Definition read_d (l : list ascii) : list reading :=
  (two_digits 3 3 0 1 l ++ two_digits 1 2 0 9 l ++ two_digits 0 0 1 9 l
   ++ one_digit 1 9 l ++ space_digit l)%list.

(** [re.match]: the first way, in the order of the alternatives, to
    read year, month and day one after the other; a later alternative
    of the month is taken only where no day can be read after an
    earlier one. The rest of the text is what the match leaves. *)
Definition match_Ymd (l : list ascii) : option (Z * Z * Z * list ascii) :=
  head ('(y, l1) ← read_Y l;
        '(m, l2) ← read_m l1;
        '(d, l3) ← read_d l2;
        [(y, m, d, l3)]).

(** The format [%Y%m%d] on a string: the expression has to match and to
    leave nothing ("unconverted data remains"), and the day has to
    exist. So the eight digits YYYYMMDD are read, and so are values of
    seven or six characters with a month or a day of one digit. (The
    limits of the 64-bit nanosecond range are not modelled.) *)
Definition strptime_Ymd (s : string) : option Date :=
  match match_Ymd (String.list_ascii_of_string s) with
  | Some (y, m, d, []) =>
      if (1 <=? y) && (d <=? days_in_month y m) then Some (mkDate y m d) else None
  | _ => None
  end.

(** A scalar under [format='%Y%m%d']: strings are matched against the
    format, integers through their decimal writing. *)
Definition parse_Ymd (c : cell) : conv :=
  match c with
  | CStr s =>
      match strptime_Ymd s with
      | Some d => Conv (Timestamp_of_date d)
      | None => ConvFail
      end
  | CInt n =>
      match strptime_Ymd (pretty n) with
      | Some d => Conv (Timestamp_of_date d)
      | None => ConvFail
      end
  | _ => ConvFail
  end.

(** Nulls stay null and timestamps stay as they are, whatever the
    parser; everything else goes through the parser. *)
Definition convert (parse : cell → conv) (c : cell) : conv :=
  match c with
  | CNull => ConvNaT
  | CTs t => Conv t
  | _ => parse c
  end.

(** One scalar under [errors]; the text of the error is abridged. *)
Definition to_datetime_cell (parse : cell → conv) (errors : errors_mode)
    (c : cell) : result cell :=
  match convert parse c with
  | Conv t => Ok (CTs t)
  | ConvNaT => Ok CNull
  | ConvFail =>
      match errors with
      | ErrorsRaise => Raise (ValueError "time data could not be parsed")
      | ErrorsCoerce => Ok CNull
      end
  end.

(** [pd.to_datetime(series, errors=...)], where [parse] is the
    conversion the values of the series go through. *)
Definition to_datetime (parse : cell → conv) (errors : errors_mode)
    (s : list cell) : result (list cell) :=
  series_map (to_datetime_cell parse errors) s.

Definition tz_of (c : cell) : option (option Z) :=
  match c with
  | CTs t => Some (ts_tz t)
  | _ => None
  end.

(** The series has a datetime dtype: its timestamps are all naive or all
    of one UTC offset. *)
Definition datetimelike (s : list cell) : bool :=
  match omap tz_of s with
  | [] => true
  | z :: zs => forallb (λ z', bool_decide (z' = z)) zs
  end.

Definition strip_tz (c : cell) : cell :=
  match c with
  | CTs t => CTs {| ts_date := ts_date t; ts_nanos := ts_nanos t; ts_tz := None |}
  | _ => c
  end.

(** [series.dt.tz_localize(None)]: wall-clock times kept, offset dropped;
    the [.dt] accessor raises on a series that is not datetimelike. *)
Definition dt_tz_localize_None (s : list cell) : result (list cell) :=
  if datetimelike s then Ok (strip_tz <$> s)
  else Raise (AttributeError "Can only use .dt accessor with datetimelike values").

End ToDatetime.

Export ToDatetime.

(** ** A state and exception monad for the statements of the script *)

Module Stmt.

Definition M (S A : Type) : Type := S → result A * S.

Definition ret {S A} (a : A) : M S A := λ s, (Ok a, s).

Definition bind {S A B} (m : M S A) (k : A → M S B) : M S B :=
  λ s, match m s with
       | (Ok a, s') => k a s'
       | (Raise e, s') => (Raise e, s')
       end.

(** A computation without effect on the state. *)
Definition lift {S A} (r : result A) : M S A := λ s, (r, s).

(** [try: m except Exception as e: handler e] *)
Definition try_except {S A} (m : M S A) (handler : Exn → M S A) : M S A :=
  λ s, match m s with
       | (Ok a, s') => (Ok a, s')
       | (Raise e, s') => handler e s'
       end.

(** [for x in xs: body], threading the locals the body updates. *)
Fixpoint for_each {S A X} (xs : list X) (body : X → A → M S A) (acc : A) : M S A :=
  match xs with
  | [] => ret acc
  | x :: xs' => bind (body x acc) (for_each xs' body)
  end.

End Stmt.

Global Instance M_ret {S} : MRet (Stmt.M S) := @Stmt.ret S.
Global Instance M_bind {S} : MBind (Stmt.M S) := λ A B k m, Stmt.bind m k.

(** ** dashboard.py: ingestion *)

Module Dashboard.

(** [str(e)] of an exception, as the f-strings print it. *)
Definition exn_str (e : Exn) : string :=
  match e with
  | KeyError k => "'" +:+ k +:+ "'"
  | ValueError m | TypeError m | AttributeError m | OSError m => m
  end.

(** Standard output: the lines printed so far, oldest first. *)
Abbreviation stdout := (list string).

Definition print (line : string) : Stmt.M stdout () :=
  λ out, (Ok (), (out ++ [line])%list).

Section Ingestion.

(** The directory of the script, [os.path.dirname(__file__)]. *)
Variable script_dir : string.
(** [glob.glob]: the paths matching a pattern. *)
Variable glob : string → list string.
(** [pd.read_csv]: the frame read from a path, or the exception raised. *)
Variable read_csv : string → result DataFrame.
(** The scalar conversion [pd.to_datetime] applies to the values of a
    column when it is given no format. It is fixed for the column:
    pandas 2 guesses one format from the first value that is not null
    and reads every value by it, and reads each value on its own only
    where it can guess none (as pandas 1 always does). *)
Variable parse_any : list cell → cell → conv.

Definition DATA_DIR : string := path_join script_dir "data".
Definition TREND_DIR : string := path_join DATA_DIR "datalab".
Definition BLOG_DIR : string := path_join DATA_DIR "blog".
Definition NEWS_DIR : string := path_join DATA_DIR "news".

(** The statements under [try:] in the trend loop. [Some df] is the
    frame appended to [trend_dfs]; [None] means nothing was appended. *)
Definition trend_body (f : string) : result (option DataFrame) :=
  let filename := basename f in
  let parts := split "_" filename in
  if (3 <=? length parts)%nat then
    let keyword := nth 1 parts "" in
    df ← read_csv f;
    let df := set_scalar "keyword" (CStr keyword) df in
    df ← (if has_column "period" df then
            period ← column "period" df;
            date ← to_datetime (parse_any period) ErrorsRaise period;
            Ok (set_series "date" date df)
          else Ok df);
    Ok (Some df)
  else Ok None.

(** The statements under [try:] in the blog loop. *)
Definition blog_body (f : string) : result (option DataFrame) :=
  let filename := basename f in
  let parts := split "_" filename in
  if (3 <=? length parts)%nat then
    let keyword := nth 2 parts "" in
    df ← read_csv f;
    let df := set_scalar "keyword" (CStr keyword) df in
    df ← (if has_column "postdate" df then
            postdate ← column "postdate" df;
            date ← to_datetime parse_Ymd ErrorsCoerce postdate;
            Ok (set_series "date" date df)
          else Ok df);
    Ok (Some df)
  else Ok None.

(** The statements under [try:] in the news loop. *)
Definition news_body (f : string) : result (option DataFrame) :=
  let filename := basename f in
  let parts := split "_" filename in
  if (3 <=? length parts)%nat then
    let keyword := nth 2 parts "" in
    df ← read_csv f;
    let df := set_scalar "keyword" (CStr keyword) df in
    df ← (if has_column "pubDate" df then
            pubDate ← column "pubDate" df;
            parsed ← to_datetime (parse_any pubDate) ErrorsCoerce pubDate;
            date ← dt_tz_localize_None parsed;
            Ok (set_series "date" date df)
          else Ok df);
    Ok (Some df)
  else Ok None.

(** One loop [for f in files: try: ... except Exception as e: print(...)],
    with the list of frames it builds. *)
Definition load_loop (body : string → result (option DataFrame))
    (files : list string) : Stmt.M stdout (list DataFrame) :=
  Stmt.for_each files
    (λ f dfs,
       Stmt.try_except
         (df ← Stmt.lift (body f);
          mret (dfs ++ option_list df)%list)
         (λ e, _ ← print ("Error loading " +:+ f +:+ ": " +:+ exn_str e);
               mret dfs))
    [].

(** [if dfs: data[key] = pd.concat(dfs, ignore_index=True)] *)
Definition merge_into (data : dict DataFrame) (key : string)
    (dfs : list DataFrame) : Stmt.M stdout (dict DataFrame) :=
  match dfs with
  | [] => mret data
  | _ => df ← Stmt.lift (concat dfs); mret (dict_set data key df)
  end.

Definition load_all_data : Stmt.M stdout (dict DataFrame) :=
  let data := [("trend", DataFrame_new); ("blog", DataFrame_new); ("news", DataFrame_new)] in
  let trend_files := glob (path_join TREND_DIR "*.csv") in
  trend_dfs ← load_loop trend_body trend_files;
  data ← merge_into data "trend" trend_dfs;
  let blog_files := glob (path_join BLOG_DIR "*.csv") in
  blog_dfs ← load_loop blog_body blog_files;
  data ← merge_into data "blog" blog_dfs;
  let news_files := glob (path_join NEWS_DIR "*.csv") in
  news_dfs ← load_loop news_body news_files;
  data ← merge_into data "news" news_dfs;
  mret data.

End Ingestion.

(** ** dashboard.py: filtering *)

(** The object store: frames are objects, and the variables and dict
    entries of the script hold references to them. Indexing with a mask,
    [copy] and [dropna] each make a new object. *)
Abbreviation ref := positive.
Abbreviation store := (gmap positive DataFrame).

(** A new object. *)
Definition new (v : DataFrame) : Stmt.M store ref :=
  λ h, let l := fresh (dom h) in (Ok l, <[l := v]> h).

(** The frame behind a reference. References the script holds are always
    live; an unallocated one reads as [pd.DataFrame()]. *)
Definition deref (l : ref) : Stmt.M store DataFrame :=
  λ h, (Ok (default DataFrame_new (h !! l)), h).

(** [df.copy()] *)
Definition copy (l : ref) : Stmt.M store ref :=
  v ← deref l; new v.

(** [df[mask]] *)
Definition getitem_mask (l : ref) (mask : list bool) : Stmt.M store ref :=
  v ← deref l; new (select mask v).

(** [df[c]] for a column label. *)
Definition getitem_col (l : ref) (c : string) : Stmt.M store (list cell) :=
  v ← deref l; Stmt.lift (column c v).

(** The statements under [# Filter by keyword]: the reference bound to
    [df_sub]. *)
Definition keyword_stage (keywords : list string) (df : ref) : Stmt.M store ref :=
  match keywords with
  | [] => copy df
  | _ =>
      kw ← getitem_col df "keyword";
      let mask_kw := isin keywords <$> kw in
      sel ← getitem_mask df mask_kw;
      copy sel
  end.

(** The statements under [# Filter by date]: the reference [df_sub] is
    bound to in the end. *)
Definition date_stage (start_ts end_ts : Timestamp) (df_sub : ref) : Stmt.M store ref :=
  v_sub ← deref df_sub;
  if has_column "date" v_sub then
    df_sub ← (w ← deref df_sub; new (dropna "date" w));
    d1 ← getitem_col df_sub "date";
    ge ← Stmt.lift (series_ge start_ts d1);
    d2 ← getitem_col df_sub "date";
    le ← Stmt.lift (series_le end_ts d2);
    let mask_date := mask_and ge le in
    getitem_mask df_sub mask_date
  else mret df_sub.

(** The body of the loop of [filter_data] for one [key, df] of [data];
    the result is what [filtered[key]] is set to. *)
Definition filter_entry (keywords : list string) (start_ts end_ts : Timestamp)
    (df : ref) : Stmt.M store ref :=
  v ← deref df;
  if empty v then mret df
  else
    df_sub ← keyword_stage keywords df;
    date_stage start_ts end_ts df_sub.

Definition filter_data (data : dict ref) (keywords : list string)
    (start_date end_date : Date) : Stmt.M store (dict ref) :=
  let start_ts := Timestamp_of_date start_date in
  let end_ts := Timestamp_of_date end_date in
  Stmt.for_each data
    (λ '(key, df) filtered,
       df_sub ← filter_entry keywords start_ts end_ts df;
       mret (dict_set filtered key df_sub))
    [].

(** What [filter_entry] computes, read as a function on frames. *)
Definition keyword_filter (keywords : list string) (df : DataFrame) : result DataFrame :=
  match keywords with
  | [] => Ok df
  | _ => kw ← column "keyword" df; Ok (select (isin keywords <$> kw) df)
  end.

Definition date_filter (start_ts end_ts : Timestamp) (df_sub : DataFrame) : result DataFrame :=
  if has_column "date" df_sub then
    let df_sub := dropna "date" df_sub in
    d1 ← column "date" df_sub;
    ge ← series_ge start_ts d1;
    d2 ← column "date" df_sub;
    le ← series_le end_ts d2;
    Ok (select (mask_and ge le) df_sub)
  else Ok df_sub.

Definition filter_table (keywords : list string) (start_date end_date : Date)
    (df : DataFrame) : result DataFrame :=
  if empty df then Ok df
  else
    df_sub ← keyword_filter keywords df;
    date_filter (Timestamp_of_date start_date) (Timestamp_of_date end_date) df_sub.

End Dashboard.

Export Dashboard.

(** * Vocabulary of the properties *)

(** ** The filter as a predicate on rows *)

(** The keyword test of one row. *)
Definition kw_pass (K : list string) (r : nat * row) : bool :=
  match K with
  | [] => true
  | _ => isin K (get "keyword" r)
  end.

(** A date cell the comparison with a naive timestamp accepts. *)
Definition comparable (c : cell) : bool :=
  match c with
  | CNull => true
  | CTs t => match ts_tz t with None => true | Some _ => false end
  | _ => false
  end.

(** The date test of one cell: a timestamp between the two bounds. *)
Definition in_range (lo hi : Timestamp) (c : cell) : bool :=
  match c with
  | CTs t => ts_leb lo t && ts_leb t hi
  | _ => false
  end.

Definition row_pass (K : list string) (lo hi : Timestamp) (dated : bool)
    (r : nat * row) : bool :=
  kw_pass K r && (if dated then in_range lo hi (get "date" r) else true).

(** Rows whose dates the comparison accepts: null or a naive timestamp. *)
Definition dates_comparable (l : list (nat * row)) : Prop :=
  Forall (λ r, comparable (get "date" r) = true) l.

(** A frame on which [filter_table] does not raise: the keyword column is
    there when keywords are given, and the dates of the rows that pass
    the keyword test are null or naive timestamps. *)
Definition filterable (K : list string) (T : DataFrame) : Prop :=
  (K ≠ [] → has_column "keyword" T = true)
  ∧ (has_column "date" T = true →
     dates_comparable (List.filter (kw_pass K) (rows T))).

(** Order of calendar dates. *)
Definition date_leb (a b : Date) : bool :=
  match date_compare a b with Gt => false | _ => true end.

(** ** The loops of the loader, file by file *)

(** What one file adds to the list of frames. *)
Definition appended (body : string → result (option DataFrame)) (f : string) :
    list DataFrame :=
  match body f with
  | Ok (Some df) => [df]
  | _ => []
  end.

(** What one file makes the loop print. *)
Definition printed (body : string → result (option DataFrame)) (f : string) :
    list string :=
  match body f with
  | Raise e => ["Error loading " +:+ f +:+ ": " +:+ exn_str e]
  | _ => []
  end.

(** The three kinds of file, to speak of the three loops at once. *)
Inductive category : Type := Trend | Blog | News.

(** Position of the keyword among the tokens of the file name. *)
Definition keyword_index (c : category) : nat :=
  match c with
  | Trend => 1
  | Blog | News => 2
  end.

(** The column the date is converted from. *)
Definition date_source (c : category) : string :=
  match c with
  | Trend => "period"
  | Blog => "postdate"
  | News => "pubDate"
  end.

(** The body of the loop of a category. *)
Definition body_of (read_csv : string → result DataFrame) (parse_any : list cell → cell → conv)
    (c : category) : string → result (option DataFrame) :=
  match c with
  | Trend => trend_body read_csv parse_any
  | Blog => blog_body read_csv
  | News => news_body read_csv parse_any
  end.

(** The underscore-delimited tokens of the name of a file. *)
Definition tokens (f : string) : list string := split "_" (basename f).

Definition keyword_of (c : category) (f : string) : string :=
  nth (keyword_index c) (tokens f) "".

(** The frame read from a file, with its keyword column set. *)
Definition tagged (c : category) (f : string) (df0 : DataFrame) : DataFrame :=
  set_scalar "keyword" (CStr (keyword_of c f)) df0.

(** The table [merge_into] stores for a list of frames; with no frame the
    entry keeps its initial [pd.DataFrame()]. *)
Definition merged (dfs : list DataFrame) : DataFrame :=
  match concat dfs with
  | Ok T => T
  | Raise _ => DataFrame_new
  end.

(** The files of a category, as the loader lists them. *)
Definition files_of (script_dir : string) (glob : string → list string)
    (c : category) : list string :=
  match c with
  | Trend => glob (path_join (TREND_DIR script_dir) "*.csv")
  | Blog => glob (path_join (BLOG_DIR script_dir) "*.csv")
  | News => glob (path_join (NEWS_DIR script_dir) "*.csv")
  end.

(** The frames of a category, one for each file that yields one. *)
Definition frames_of (script_dir : string) (glob : string → list string)
    (read_csv : string → result DataFrame) (parse_any : list cell → cell → conv)
    (c : category) : list DataFrame :=
  flat_map (appended (body_of read_csv parse_any c)) (files_of script_dir glob c).

Definition errors_of (script_dir : string) (glob : string → list string)
    (read_csv : string → result DataFrame) (parse_any : list cell → cell → conv)
    (c : category) : list string :=
  flat_map (printed (body_of read_csv parse_any c)) (files_of script_dir glob c).

(** The cell [errors='coerce'] leaves for a scalar. *)
Definition coerced (parse : cell → conv) (c : cell) : cell :=
  match convert parse c with
  | Conv t => CTs t
  | _ => CNull
  end.

(** ** The filter on the object store *)

(** What a stage does to the store, next to the function on frames it
    computes: the store only grows, the outcome is that of the function,
    and on success the result is a live reference to the computed frame,
    unallocated before (or, where [allow_same] is set, the argument
    itself with the store untouched). *)
Definition stage_refines (stage : ref → Stmt.M store ref)
    (fn : DataFrame → result DataFrame) (allow_same : bool) : Prop :=
  ∀ h l v, h !! l = Some v →
    ∃ res h', stage l h = (res, h') ∧ h ⊆ h' ∧
      match fn v with
      | Ok T' => ∃ l', res = Ok l' ∧ h' !! l' = Some T'
                       ∧ (h !! l' = None ∨ (allow_same = true ∧ l' = l ∧ h' = h))
      | Raise ex => res = Raise ex
      end.

(** How an entry [key ↦ l'] of the result relates to the input [data] in
    the store [h0] it was given, [hf] being the store afterwards. *)
Definition derived (K : list string) (s e : Date) (h0 : store) (data : dict ref)
    (hf : store) (key : string) (l' : ref) : Prop :=
  ∃ l v, (key, l) ∈ data ∧ h0 !! l = Some v
         ∧ if empty v then l' = l
           else h0 !! l' = None
                ∧ ∃ T', filter_table K s e v = Ok T' ∧ hf !! l' = Some T'.

(** ** Concrete frames used as inputs below *)

Module Examples.

(** A frame with the given labels and rows, indexed from 0. *)
Definition frame (cols : list string) (rs : list (list (string * cell))) : DataFrame :=
  {| columns := cols; rows := imap (λ i r, (i, list_to_map r)) rs |}.

Definition jan01 : Date := mkDate 2024 1 1.
Definition jan15 : Date := mkDate 2024 1 15.
Definition jan29 : Date := mkDate 2024 1 29.

(** 10:30:00 on 29 January 2024, naive. *)
Definition jan29_1030 : Timestamp :=
  {| ts_date := jan29; ts_nanos := 37800000000000; ts_tz := None |}.

(** A news table as ingestion leaves it: one article of 29 January. *)
Definition news_table : DataFrame :=
  frame ["pubDate"; "title"; "keyword"; "date"]
    [[("pubDate", CStr "Mon, 29 Jan 2024 10:30:00 +0900");
      ("title", CStr "headline");
      ("keyword", CStr "netflix");
      ("date", CTs jan29_1030)]].

(** A blog table: one post of 29 January, dated at midnight as the
    format YYYYMMDD gives it. *)
Definition blog_table : DataFrame :=
  frame ["postdate"; "title"; "keyword"; "date"]
    [[("postdate", CStr "20240129");
      ("title", CStr "review");
      ("keyword", CStr "netflix");
      ("date", CTs (Timestamp_of_date jan29))]].

(** A trend table built from a file without a [period] column. *)
Definition undated_table : DataFrame :=
  frame ["ratio"; "keyword"]
    [[("ratio", CInt 42); ("keyword", CStr "netflix")]].

(** A trend table of two keywords, one row without a date. *)
Definition trend_table : DataFrame :=
  frame ["period"; "ratio"; "keyword"; "date"]
    [[("period", CStr "2024-01-01"); ("ratio", CInt 10); ("keyword", CStr "A");
      ("date", CTs (Timestamp_of_date jan01))];
     [("period", CStr "2024-01-15"); ("ratio", CInt 20); ("keyword", CStr "B");
      ("date", CTs (Timestamp_of_date jan15))];
     [("period", CNull); ("ratio", CInt 30); ("keyword", CStr "A"); ("date", CNull)]].

End Examples.

(** ** Files on disk used as inputs below *)

Module Disk.

Import Examples.

(** A scalar parser that knows the form YYYY-MM-DD only. On the strings
    of the files below it gives what pandas gives. *)
Definition parse_iso_date (c : cell) : conv :=
  match c with
  | CStr s =>
      match String.list_ascii_of_string s with
      | [y1; y2; y3; y4; "-"%char; m1; m2; "-"%char; d1; d2] =>
          match strptime_Ymd (String.string_of_list_ascii [y1; y2; y3; y4; m1; m2; d1; d2]) with
          | Some d => Conv (Timestamp_of_date d)
          | None => ConvFail
          end
      | _ => ConvFail
      end
  | _ => ConvFail
  end.

(** The conversion of a column: every value by [parse_iso_date]. *)
Definition parse_column (column : list cell) : cell → conv := parse_iso_date.

Definition script_dir : string := "/app".

Definition trend_netflix : string := "/app/data/datalab/trend_netflix_20240101.csv".
Definition trend_disney : string := "/app/data/datalab/trend_disney_20240101.csv".
Definition trend_short : string := "/app/data/datalab/trend.csv".
Definition trend_wavve : string := "/app/data/datalab/trend_wavve_20240101.csv".
Definition blog_netflix : string := "/app/data/blog/blog_review_netflix_20240101.csv".
Definition blog_gone : string := "/app/data/blog/blog_review_tving_20240101.csv".

Definition glob (pattern : string) : list string :=
  if String.eqb pattern "/app/data/datalab/*.csv"
  then [trend_netflix; trend_disney; trend_short; trend_wavve]
  else if String.eqb pattern "/app/data/blog/*.csv"
  then [blog_netflix; blog_gone]
  else [].

(** [trend_netflix]: a good row and a row whose period is no date. *)
Definition trend_netflix_csv : DataFrame :=
  frame ["period"; "ratio"]
    [[("period", CStr "2024-01-01"); ("ratio", CInt 10)];
     [("period", CStr "not a date"); ("ratio", CInt 20)]].

(** [trend_disney]: no [period] column. *)
Definition trend_disney_csv : DataFrame :=
  frame ["ratio"] [[("ratio", CInt 42)]].

(** [trend_wavve]: two good rows. *)
Definition trend_wavve_csv : DataFrame :=
  frame ["period"; "ratio"]
    [[("period", CStr "2024-01-01"); ("ratio", CInt 5)];
     [("period", CStr "2024-01-15"); ("ratio", CInt 7)]].

(** [blog_netflix]: a post date in the format and one that is not. *)
Definition blog_netflix_csv : DataFrame :=
  frame ["postdate"; "title"]
    [[("postdate", CStr "20240115"); ("title", CStr "first")];
     [("postdate", CStr "invalid"); ("title", CStr "second")]].

Definition read_csv (path : string) : result DataFrame :=
  if String.eqb path trend_netflix then Ok trend_netflix_csv
  else if String.eqb path trend_disney then Ok trend_disney_csv
  else if String.eqb path trend_short then Ok trend_wavve_csv
  else if String.eqb path trend_wavve then Ok trend_wavve_csv
  else if String.eqb path blog_netflix then Ok blog_netflix_csv
  else Raise (OSError "No such file or directory").

End Disk.


(** ** dashboard.py: the keyword selector of the sidebar *)

Global Instance Date_eq_dec : EqDecision Date.
Proof. solve_decision. Defined.
Global Instance Timestamp_eq_dec : EqDecision Timestamp.
Proof. solve_decision. Defined.
Global Instance cell_eq_dec : EqDecision cell.
Proof. solve_decision. Defined.

Module Sidebar.

(** [d[k]]: [KeyError] for a key that is not there. *)
Definition dict_getitem {V} (d : dict V) (k : string) : result V :=
  match dict_get d k with
  | Some v => Ok v
  | None => Raise (KeyError k)
  end.

(** [series.unique()]: the distinct values, in order of first appearance. *)
Fixpoint unique (l : list cell) : list cell :=
  match l with
  | [] => []
  | x :: l' => x :: List.filter (λ y, negb (bool_decide (y = x))) (unique l')
  end.

Section Sorted.

(** The order of two timezone-aware timestamps (by instant). *)
Variable aware_lt : Timestamp → Timestamp → bool.

(** [sorted] on a list that holds a null beside other values. NaN
    compares false with every number and NaT with every timestamp: [<]
    is then no total order, and what [sorted] returns depends on the
    steps of its algorithm, which are not modelled. *)
Variable sorted_with_null : list cell → result (list cell).

(** [a < b] as [sorted] asks it: strings by code point (the order of
    their UTF-8 bytes), numbers by value, timestamps by time; two
    values of different kinds raise [TypeError] (its message, which
    names the two types, is not modelled). A null is not compared
    here, see [py_sorted]. *)
Definition cell_lt (a b : cell) : result bool :=
  match a, b with
  | CStr x, CStr y => Ok (String.ltb x y)
  | CInt x, CInt y => Ok (x <? y)
  | CTs x, CTs y =>
      match ts_tz x, ts_tz y with
      | None, None => Ok (match ts_compare x y with Lt => true | _ => false end)
      | Some _, Some _ => Ok (aware_lt x y)
      | _, _ => Raise (TypeError "can't compare offset-naive and offset-aware datetimes")
      end
  | _, _ => Raise (TypeError "'<' not supported between these instances")
  end.

(** [x] put into a sorted list, after the elements that are not greater
    (the sort is stable). *)
Fixpoint insert_sorted (x : cell) (l : list cell) : result (list cell) :=
  match l with
  | [] => Ok [x]
  | y :: l' =>
      b ← cell_lt x y;
      if (b : bool) then Ok (x :: y :: l')
      else (l'' ← insert_sorted x l'; Ok (y :: l''))
  end.

(** [sorted(l)]: the values in ascending order, equal ones in their
    order in [l]; it raises where [<] raises between two of the values
    (a list of one value is compared with nothing). *)
Fixpoint sort_into (acc l : list cell) : result (list cell) :=
  match l with
  | [] => Ok acc
  | x :: l' => acc' ← insert_sorted x acc; sort_into acc' l'
  end.

Definition py_sorted (l : list cell) : result (list cell) :=
  if existsb is_null l && (1 <? length l)%nat then sorted_with_null l
  else sort_into [] l.

(** The options of the keyword selector: the keywords of the trend
    table or, when it is empty, those of the blog table. *)
Definition available_keywords (data_all : dict DataFrame) : result (list cell) :=
  trend ← dict_getitem data_all "trend";
  if negb (empty trend) then
    kw ← column "keyword" trend;
    py_sorted (unique kw)
  else
    blog ← dict_getitem data_all "blog";
    if negb (empty blog) then
      kw ← column "keyword" blog;
      py_sorted (unique kw)
    else Ok [].

(** [default=available_keywords[:2] if available_keywords else None] *)
Definition default_selection (available : list cell) : option (list cell) :=
  match available with
  | [] => None
  | _ => Some (take 2 available)
  end.

End Sorted.

End Sidebar.

Export Sidebar.

(** ** Vocabulary of the further properties *)

(** A date cell that is null or a naive timestamp at midnight. *)
Definition midnight_or_null (c : cell) : bool :=
  match c with
  | CNull => true
  | CTs t => match ts_tz t with None => ts_nanos t =? 0 | Some _ => false end
  | _ => false
  end.

(** The date test by calendar date: the day of the timestamp lies
    between the two days, both included. *)
Definition date_in (s e : Date) (c : cell) : bool :=
  match c with
  | CTs t => date_leb s (ts_date t) && date_leb (ts_date t) e
  | _ => false
  end.

(** Strict order of calendar dates, field by field. *)
Definition date_lt (a b : Date) : Prop :=
  year a < year b
  ∨ (year a = year b
     ∧ (month a < month b ∨ (month a = month b ∧ day a < day b))).

Definition date_same (a b : Date) : Prop :=
  year a = year b ∧ month a = month b ∧ day a = day b.

(** The key of a category in the dict [load_all_data] returns. *)
Definition key_of (c : category) : string :=
  match c with
  | Trend => "trend"
  | Blog => "blog"
  | News => "news"
  end.

(** The character occurs in the string. *)
Fixpoint has_char (a : ascii) (s : string) : bool :=
  match s with
  | EmptyString => false
  | String b s' => Ascii.eqb b a || has_char a s'
  end.

(** A frame as [pd.read_csv] delivers it when the file has no column
    named [date]: no row has a value under that label, and no cell is a
    timestamp (dates are not parsed on reading). *)
Definition raw_frame (df : DataFrame) : Prop :=
  ∀ r, r ∈ rows df →
       r.2 !! "date" = None ∧ ∀ c t, r.2 !! c ≠ Some (CTs t).

(** Insertion sort on strings, the function [py_sorted] computes on a
    list of strings. *)
Fixpoint insert_string (x : string) (l : list string) : list string :=
  match l with
  | [] => [x]
  | y :: l' => if String.ltb x y then x :: y :: l' else y :: insert_string x l'
  end.

Definition sort_strings_into (acc l : list string) : list string :=
  foldl (λ a x, insert_string x a) acc l.

(** Order of strings by code point. *)
Definition string_le (a b : string) : Prop := String.leb a b = true.

(** ** More files on disk: a name of three tokens, a news file *)

Module Archive.

Import Examples.

Definition script_dir : string := "/srv".

(** A blog file saved without its date stamp. *)
Definition blog_undated : string := "/srv/data/blog/blog_review_netflix.csv".
Definition news_netflix : string := "/srv/data/news/news_sim_netflix_20240129.csv".

(** A blog file with post dates of seven and of six characters. *)
Definition blog_short_dates : string := "/srv/data/blog/blog_review_disney_20241105.csv".
Definition trend_tving : string := "/srv/data/datalab/trend_tving_20240101.csv".

Definition glob (pattern : string) : list string :=
  if String.eqb pattern "/srv/data/datalab/*.csv" then [trend_tving]
  else if String.eqb pattern "/srv/data/blog/*.csv" then [blog_undated; blog_short_dates]
  else if String.eqb pattern "/srv/data/news/*.csv" then [news_netflix]
  else [].

(** 10:30:00 on 29 January 2024 at UTC+9. *)
Definition jan29_1030_kst : Timestamp :=
  {| ts_date := jan29; ts_nanos := 37800000000000; ts_tz := Some 540 |}.

(** A scalar parser that knows one publication date. On the strings of
    the files below it gives what pandas gives. *)
Definition parse_pub_date (c : cell) : conv :=
  match c with
  | CStr s =>
      if String.eqb s "Mon, 29 Jan 2024 10:30:00 +0900" then Conv jan29_1030_kst
      else ConvFail
  | _ => ConvFail
  end.

(** The conversion of a column: days as [Disk.parse_iso_date] reads
    them, publication dates as [parse_pub_date] does. *)
Definition parse_column (column : list cell) (c : cell) : conv :=
  match Disk.parse_iso_date c with
  | ConvFail => parse_pub_date c
  | r => r
  end.

Definition trend_tving_csv : DataFrame :=
  frame ["period"; "ratio"]
    [[("period", CStr "2024-01-01"); ("ratio", CInt 12)];
     [("period", CStr "2024-01-15"); ("ratio", CInt 18)]].

Definition blog_short_dates_csv : DataFrame :=
  frame ["postdate"; "title"]
    [[("postdate", CStr "2024115"); ("title", CStr "seven")];
     [("postdate", CStr "202415"); ("title", CStr "six")]].

Definition blog_undated_csv : DataFrame :=
  frame ["postdate"; "title"]
    [[("postdate", CStr "20240129"); ("title", CStr "review")]].

(** [news_netflix]: a publication date and one that is no date. *)
Definition news_netflix_csv : DataFrame :=
  frame ["pubDate"; "title"]
    [[("pubDate", CStr "Mon, 29 Jan 2024 10:30:00 +0900"); ("title", CStr "headline")];
     [("pubDate", CStr "yesterday"); ("title", CStr "rumour")]].

Definition read_csv (path : string) : result DataFrame :=
  if String.eqb path trend_tving then Ok trend_tving_csv
  else if String.eqb path blog_undated then Ok blog_undated_csv
  else if String.eqb path blog_short_dates then Ok blog_short_dates_csv
  else if String.eqb path news_netflix then Ok news_netflix_csv
  else Raise (OSError "No such file or directory").

(** The tables of a session, as a dict of frames and as a dict of
    references into a store. *)
Definition tables : dict DataFrame :=
  [("trend", trend_table); ("blog", blog_table); ("news", news_table)].

Definition data : dict positive :=
  [("trend", 1%positive); ("blog", 2%positive); ("news", 3%positive)].

Definition heap : gmap positive DataFrame :=
  {[1%positive := trend_table; 2%positive := blog_table; 3%positive := news_table]}.

End Archive.

(** ** Vocabulary of the format [%Y%m%d] *)

(** A character a token of the format can hold: a digit or a space. *)
Definition token_char (c : ascii) : bool :=
  bool_decide (is_Some (digit c)) || Ascii.eqb c " ".

(** The character of a digit. *)
Definition digit_char (n : Z) : ascii := ascii_of_N (Z.to_N (48 + n)).

(** A date written with eight digits, YYYYMMDD. *)
Definition yyyymmdd (d : Date) : string :=
  String.string_of_list_ascii
    [digit_char (year d / 1000); digit_char (year d / 100 mod 10);
     digit_char (year d / 10 mod 10); digit_char (year d mod 10);
     digit_char (month d / 10); digit_char (month d mod 10);
     digit_char (day d / 10); digit_char (day d mod 10)].

(** A day that exists. *)
Definition calendar_date (d : Date) : Prop :=
  1 ≤ year d ∧ 1 ≤ month d ≤ 12 ∧ 1 ≤ day d ≤ days_in_month (year d) (month d).

(** What a directive takes from the head of the text. *)
Definition takes (lo hi : nat) (a b : Z) (f : list ascii → list reading) : Prop :=
  ∀ (l : list ascii) (x : Z) (r : list ascii), (x, r) ∈ f l →
    ∃ pre, l = (pre ++ r)%list ∧ (lo ≤ length pre ≤ hi)%nat
           ∧ Forall (λ c, token_char c = true) pre ∧ a ≤ x ≤ b.

(** * Properties *)

(** ** Basic facts about results and series *)

Ltac unfold_result :=
  unfold mbind, mret, result_bind, result_ret, rbind in *.

Section SeriesFacts.
Context {A B : Type}.
Implicit Types (f : A → result B) (l : list A).

Lemma series_map_Ok f l m :
  series_map f l = Ok m ↔ Forall2 (λ x y, f x = Ok y) l m.
Proof.
  revert m. induction l as [|x l IH]; intros m; simpl.
  - split.
    + intros [= <-]. constructor.
    + intros H. inversion H. reflexivity.
  - unfold_result. split.
    + destruct (f x) as [y|] eqn:Hx; [|discriminate].
      destruct (series_map f l) as [ys|] eqn:Hl; [|discriminate].
      intros [= <-]. constructor; [assumption|]. apply IH. reflexivity.
    + intros H. inversion H as [|? y ? ys Hx Hl]; subst.
      rewrite Hx. apply IH in Hl. rewrite Hl. reflexivity.
Qed.

Lemma series_map_total f (g : A → B) l :
  Forall (λ x, f x = Ok (g x)) l → series_map f l = Ok (g <$> l).
Proof.
  intros H. apply series_map_Ok. induction H; constructor; auto.
Qed.

Lemma select_rows_fmap (p : A → bool) l :
  select_rows (p <$> l) l = List.filter p l.
Proof.
  induction l as [|x l IH]; simpl; [reflexivity|].
  destruct (p x); [f_equal|]; exact IH.
Qed.

Lemma filter_keep_all (p : A → bool) l :
  Forall (λ x, p x = true) l → List.filter p l = l.
Proof.
  induction 1 as [|x l Hx _ IH]; simpl; [reflexivity|].
  rewrite Hx, IH. reflexivity.
Qed.

Lemma filter_twice (p : A → bool) l :
  List.filter p (List.filter p l) = List.filter p l.
Proof.
  apply filter_keep_all, Forall_forall. intros x Hx.
  apply list_elem_of_In, filter_In in Hx. tauto.
Qed.

End SeriesFacts.

Lemma frame_eta (df : DataFrame) :
  {| columns := columns df; rows := rows df |} = df.
Proof. destruct df; reflexivity. Qed.

(** ** The filter as a predicate on rows *)

Section FilterFacts.

Implicit Types (K : list string) (T : DataFrame) (r : nat * row).

Lemma cmp_cell_Ok op ts c b :
  cmp_cell op ts c = Ok b → comparable c = true.
Proof.
  unfold cmp_cell. destruct c as [| | |t]; try discriminate; [done|].
  simpl. by destruct (ts_tz t).
Qed.

Lemma cmp_cell_comparable op ts c :
  comparable c = true →
  cmp_cell op ts c = Ok (match c with CTs t => op t ts | _ => false end).
Proof.
  destruct c as [| | |t]; simpl; try discriminate; [done|].
  destruct (ts_tz t); [discriminate|reflexivity].
Qed.

Lemma keyword_filter_Ok K T T' :
  keyword_filter K T = Ok T' →
  T' = {| columns := columns T; rows := List.filter (kw_pass K) (rows T) |}
  ∧ (K ≠ [] → has_column "keyword" T = true).
Proof.
  unfold keyword_filter, column. destruct K as [|k K].
  - intros [= <-]. split; [|congruence].
    simpl. rewrite filter_keep_all; [symmetry; apply frame_eta|].
    apply Forall_forall; reflexivity.
  - destruct (has_column "keyword" T); [|discriminate].
    unfold_result. intros [= <-]. split; [|reflexivity].
    unfold select. f_equal.
    rewrite <- list_fmap_compose. apply select_rows_fmap.
Qed.

Lemma keyword_filter_total K T :
  (K ≠ [] → has_column "keyword" T = true) →
  keyword_filter K T
  = Ok {| columns := columns T; rows := List.filter (kw_pass K) (rows T) |}.
Proof.
  intros HK. unfold keyword_filter, column. destruct K as [|k K].
  - simpl. rewrite filter_keep_all; [by rewrite frame_eta|].
    apply Forall_forall; reflexivity.
  - rewrite HK by discriminate. unfold_result.
    unfold select. do 2 f_equal.
    rewrite <- list_fmap_compose. apply select_rows_fmap.
Qed.

Lemma series_cmp_comparable op ts cs m :
  series_map (cmp_cell op ts) cs = Ok m → Forall (λ c, comparable c = true) cs.
Proof.
  intros H. apply series_map_Ok in H.
  induction H as [|c b cs m Hc _ IH]; constructor; [|exact IH].
  by eapply cmp_cell_Ok.
Qed.

Lemma series_ge_total lo cs :
  Forall (λ c, comparable c = true) cs →
  series_ge lo cs = Ok ((λ c, match c with CTs t => ts_leb lo t | _ => false end) <$> cs).
Proof.
  intros H. apply series_map_total. eapply Forall_impl; [exact H|].
  intros c Hc. simpl. by rewrite cmp_cell_comparable.
Qed.

Lemma series_le_total hi cs :
  Forall (λ c, comparable c = true) cs →
  series_le hi cs = Ok ((λ c, match c with CTs t => ts_leb t hi | _ => false end) <$> cs).
Proof.
  intros H. apply series_map_total. eapply Forall_impl; [exact H|].
  intros c Hc. simpl. by rewrite cmp_cell_comparable.
Qed.

Lemma select_mask_and {X} (p q : X → bool) (l : list X) :
  select_rows (mask_and (p <$> l) (q <$> l)) l = List.filter (λ x, p x && q x) l.
Proof.
  induction l as [|x l IH]; simpl; [reflexivity|].
  destruct (p x), (q x); simpl; [f_equal| | |]; exact IH.
Qed.

Lemma filter_in_range_nonnull lo hi (l : list (nat * row)) :
  List.filter (λ r, in_range lo hi (get "date" r))
    (List.filter (λ r, negb (is_null (get "date" r))) l)
  = List.filter (λ r, in_range lo hi (get "date" r)) l.
Proof.
  induction l as [|r l IH]; simpl; [reflexivity|].
  destruct (get "date" r) eqn:Hd; simpl; rewrite ?Hd; simpl; rewrite IH; reflexivity.
Qed.

Lemma dates_comparable_dropna l :
  dates_comparable l ↔
  Forall (λ c, comparable c = true)
    (get "date" <$> List.filter (λ r, negb (is_null (get "date" r))) l).
Proof.
  unfold dates_comparable. induction l as [|r l IH]; simpl.
  - split; constructor.
  - rewrite Forall_cons, IH.
    destruct (get "date" r) eqn:Hd; simpl; rewrite ?Forall_cons, ?Hd; simpl;
      intuition congruence.
Qed.

Lemma column_dropna c T :
  has_column c T = true →
  column c (dropna c T)
  = Ok (get c <$> List.filter (λ r, negb (is_null (get c r))) (rows T)).
Proof.
  intros Hc. unfold column, dropna, select.
  change (has_column c {| columns := columns T; rows := _ |}) with (has_column c T).
  rewrite Hc. cbn [rows]. by rewrite select_rows_fmap.
Qed.

Lemma date_filter_undated lo hi T :
  has_column "date" T = false → date_filter lo hi T = Ok T.
Proof. unfold date_filter. intros ->. reflexivity. Qed.

Lemma date_filter_total lo hi T :
  has_column "date" T = true →
  dates_comparable (rows T) →
  date_filter lo hi T
  = Ok {| columns := columns T;
          rows := List.filter (λ r, in_range lo hi (get "date" r)) (rows T) |}.
Proof.
  intros Hd Hc. unfold date_filter. rewrite Hd, (column_dropna _ _ Hd).
  apply dates_comparable_dropna in Hc.
  unfold_result. rewrite (series_ge_total _ _ Hc), (series_le_total _ _ Hc).
  unfold dropna, select. cbn [rows columns]. do 2 f_equal.
  rewrite select_rows_fmap, <- !list_fmap_compose, select_mask_and.
  rewrite <- (filter_in_range_nonnull lo hi (rows T)).
  apply filter_ext. intros r. unfold in_range. simpl.
  destruct (get "date" r); reflexivity.
Qed.

Lemma date_filter_Ok lo hi T T' :
  has_column "date" T = true →
  date_filter lo hi T = Ok T' →
  dates_comparable (rows T)
  ∧ T' = {| columns := columns T;
            rows := List.filter (λ r, in_range lo hi (get "date" r)) (rows T) |}.
Proof.
  intros Hd H.
  assert (dates_comparable (rows T)) as Hc.
  { apply dates_comparable_dropna.
    unfold date_filter in H. rewrite Hd, (column_dropna _ _ Hd) in H.
    unfold_result.
    destruct (series_ge _ _) as [ge|] eqn:Hge; [|discriminate].
    by apply series_cmp_comparable in Hge. }
  split; [exact Hc|].
  rewrite (date_filter_total _ _ _ Hd Hc) in H. congruence.
Qed.

Lemma filter_filter_and {X} (p q : X → bool) (l : list X) :
  List.filter q (List.filter p l) = List.filter (λ x, p x && q x) l.
Proof.
  induction l as [|x l IH]; simpl; [reflexivity|].
  destruct (p x); simpl; [destruct (q x)|]; rewrite IH; reflexivity.
Qed.

Lemma filter_table_empty K s e T :
  empty T = true → filter_table K s e T = Ok T.
Proof. unfold filter_table. intros ->. reflexivity. Qed.

Lemma filter_table_undated K s e T :
  empty T = false → has_column "date" T = false →
  filter_table K s e T = keyword_filter K T.
Proof.
  intros HT Hd. unfold filter_table. rewrite HT. unfold_result.
  destruct (keyword_filter K T) as [T1|] eqn:H1; [|reflexivity].
  apply keyword_filter_Ok in H1 as [-> _]. by apply date_filter_undated.
Qed.

Lemma filter_table_total K s e T :
  empty T = false → filterable K T →
  filter_table K s e T
  = Ok {| columns := columns T;
          rows := List.filter
                    (row_pass K (Timestamp_of_date s) (Timestamp_of_date e)
                       (has_column "date" T))
                    (rows T) |}.
Proof.
  intros HT [HK Hc]. unfold filter_table. rewrite HT.
  rewrite (keyword_filter_total _ _ HK). unfold_result.
  destruct (has_column "date" T) eqn:Hd.
  - rewrite date_filter_total; [|exact Hd|exact (Hc eq_refl)].
    cbn [rows columns]. by rewrite filter_filter_and.
  - rewrite date_filter_undated by exact Hd. do 2 f_equal.
    apply filter_ext. intros r. unfold row_pass. by rewrite andb_true_r.
Qed.

Lemma filter_table_Ok K s e T T' :
  empty T = false → filter_table K s e T = Ok T' →
  filterable K T
  ∧ T' = {| columns := columns T;
            rows := List.filter
                      (row_pass K (Timestamp_of_date s) (Timestamp_of_date e)
                         (has_column "date" T))
                      (rows T) |}.
Proof.
  intros HT H.
  assert (filterable K T) as HF.
  { unfold filter_table in H. rewrite HT in H. unfold_result.
    destruct (keyword_filter K T) as [T1|] eqn:H1; [|discriminate].
    apply keyword_filter_Ok in H1 as [-> HK]. split; [exact HK|].
    intros Hd. by apply date_filter_Ok in H as [Hc _]. }
  split; [exact HF|].
  rewrite (filter_table_total _ _ _ _ HT HF) in H. congruence.
Qed.

Lemma row_pass_kw K lo hi dated r :
  row_pass K lo hi dated r = true → kw_pass K r = true.
Proof. unfold row_pass. intros H%andb_true_iff. tauto. Qed.

Lemma kw_pass_isin K r :
  K ≠ [] → kw_pass K r = true → ∃ k, get "keyword" r = CStr k ∧ k ∈ K.
Proof.
  intros HK. destruct K as [|k0 K]; [done|]. unfold kw_pass, isin.
  destruct (get "keyword" r) as [|k| |]; try discriminate.
  intros (k' & Hin & Heq)%existsb_exists.
  apply String.eqb_eq in Heq as ->. exists k'. split; [done|].
  by apply list_elem_of_In.
Qed.

Lemma in_range_inv lo hi c :
  in_range lo hi c = true →
  ∃ t, c = CTs t ∧ ts_leb lo t = true ∧ ts_leb t hi = true.
Proof.
  destruct c as [| | |t]; simpl; try discriminate.
  intros [? ?]%andb_true_iff. eauto.
Qed.

End FilterFacts.

(** ** The filter engine *)

Section FilterTheorems.

Implicit Types (K : list string) (T : DataFrame) (r : nat * row) (s e : Date).

Lemma midnight_leb_date s t :
  ts_leb (Timestamp_of_date s) t = true → date_leb s (ts_date t) = true.
Proof.
  unfold ts_leb, ts_compare, date_leb. simpl.
  destruct (date_compare s (ts_date t)); done.
Qed.

Lemma leb_midnight_date t e :
  ts_leb t (Timestamp_of_date e) = true → date_leb (ts_date t) e = true.
Proof.
  unfold ts_leb, ts_compare, date_leb. simpl.
  destruct (date_compare (ts_date t) e); done.
Qed.

Lemma filterable_filtered K lo hi dated T :
  filterable K T →
  filterable K {| columns := columns T;
                  rows := List.filter (row_pass K lo hi dated) (rows T) |}.
Proof.
  intros [HK Hc]. split; [exact HK|].
  intros Hd. specialize (Hc Hd). unfold dates_comparable in *. cbn [rows].
  rewrite Forall_forall in Hc. apply Forall_forall. intros r Hr.
  apply Hc. apply list_elem_of_In, filter_In in Hr as [Hr Hkw].
  apply filter_In in Hr as [Hr _]. apply list_elem_of_In, filter_In. done.
Qed.

(** C9. Filtering is idempotent: filtering the result of [filter_table]
    again with the same keywords and dates gives that result again (and
    where the first filtering raises, so does the composition). *)
Theorem filter_table_idempotent K s e T :
  filter_table K s e T ≫= filter_table K s e = filter_table K s e T.
Proof.
  destruct (filter_table K s e T) as [T'|ex] eqn:H; [|reflexivity].
  unfold_result. destruct (empty T) eqn:HT.
  - rewrite filter_table_empty in H by exact HT.
    injection H as <-. by apply filter_table_empty.
  - apply filter_table_Ok in H as [HF ->]; [|exact HT].
    match goal with |- filter_table _ _ _ ?X = _ => destruct (empty X) eqn:HT' end.
    + by apply filter_table_empty.
    + rewrite filter_table_total; [|exact HT'|by apply filterable_filtered].
      cbn [rows columns].
      change (has_column "date" {| columns := columns T; rows := _ |})
        with (has_column "date" T).
      by rewrite filter_twice.
Qed.

Lemma empty_with_column c T :
  empty T = true → has_column c T = true → rows T = [].
Proof.
  unfold empty, has_column. destruct (columns T), (rows T); simpl; done.
Qed.

Lemma filtered_row_dated K s e T T' r :
  has_column "date" T = true →
  filter_table K s e T = Ok T' →
  r ∈ rows T' →
  kw_pass K r = true
  ∧ ∃ t, get "date" r = CTs t ∧ ts_tz t = None
         ∧ ts_leb (Timestamp_of_date s) t = true
         ∧ ts_leb t (Timestamp_of_date e) = true.
Proof.
  intros Hd H Hr. destruct (empty T) eqn:HT.
  { rewrite filter_table_empty in H by exact HT. injection H as <-.
    rewrite (empty_with_column _ _ HT Hd) in Hr. by apply elem_of_nil in Hr. }
  apply filter_table_Ok in H as [[HK Hc] ->]; [|exact HT].
  cbn [rows] in Hr. rewrite Hd in Hr.
  apply list_elem_of_In, filter_In in Hr as [Hr Hp].
  unfold row_pass in Hp. apply andb_true_iff in Hp as [Hkw Hin].
  split; [exact Hkw|].
  apply in_range_inv in Hin as (t & Ht & Hlo & Hhi).
  exists t. repeat split; try done.
  specialize (Hc Hd). unfold dates_comparable in Hc.
  rewrite Forall_forall in Hc.
  assert (r ∈ List.filter (kw_pass K) (rows T)) as Hr'
    by (apply list_elem_of_In, filter_In; done).
  specialize (Hc r Hr'). rewrite Ht in Hc. simpl in Hc.
  destruct (ts_tz t); [discriminate Hc|done].
Qed.

(** C3, as amended. For a table with a [date] column, every row of the
    filtered table has a non-null date, a naive timestamp between
    midnight of the start date and midnight of the end date (so its
    calendar date lies between the two), and when keywords are selected
    its keyword is one of them. *)
Theorem filter_rows_in_range K s e T T' r :
  has_column "date" T = true →
  filter_table K s e T = Ok T' →
  r ∈ rows T' →
  (∃ t, get "date" r = CTs t ∧ ts_tz t = None
        ∧ ts_leb (Timestamp_of_date s) t = true
        ∧ ts_leb t (Timestamp_of_date e) = true
        ∧ date_leb s (ts_date t) = true ∧ date_leb (ts_date t) e = true)
  ∧ (K ≠ [] → ∃ k, get "keyword" r = CStr k ∧ k ∈ K).
Proof.
  intros Hd H Hr.
  destruct (filtered_row_dated K s e T T' r Hd H Hr) as (Hkw & t & Ht & Htz & Hlo & Hhi).
  split; [|intros HK; by apply kw_pass_isin].
  exists t. repeat split; try done.
  - by apply midnight_leb_date.
  - by apply leb_midnight_date.
Qed.

(** C5. With no keyword selected the keyword stage lets every row
    through, so every row that passes the keyword stage under a
    selection [K] passes it under the empty selection; and whatever
    [filter_table] keeps under [K] it also keeps under the empty
    selection (which returns whenever the dates of the table are null
    or naive timestamps). *)
Theorem empty_keywords_most_permissive K s e T :
  keyword_filter [] T = Ok T
  ∧ (∀ T1, keyword_filter K T = Ok T1 → ∀ r, r ∈ rows T1 → r ∈ rows T)
  ∧ (∀ T' T0, filter_table K s e T = Ok T' → filter_table [] s e T = Ok T0 →
       ∀ r, r ∈ rows T' → r ∈ rows T0)
  ∧ (∀ T', filter_table K s e T = Ok T' → dates_comparable (rows T) →
       ∃ T0, filter_table [] s e T = Ok T0).
Proof.
  split; [reflexivity|]. split.
  { intros T1 [-> _]%keyword_filter_Ok r. cbn [rows].
    rewrite !list_elem_of_In, filter_In. tauto. }
  destruct (empty T) eqn:HT.
  { rewrite !filter_table_empty by exact HT. split; [|eauto].
    intros T' T0 H H0. injection H as <-. by injection H0 as <-. }
  split.
  - intros T' T0 H H0.
    apply filter_table_Ok in H as [_ ->]; [|exact HT].
    apply filter_table_Ok in H0 as [_ ->]; [|exact HT].
    cbn [rows]. intros r. rewrite !list_elem_of_In, !filter_In.
    unfold row_pass. intros [Hr [_ Hp]%andb_true_iff]. done.
  - intros T' _ Hc. eexists. apply filter_table_total; [exact HT|].
    split; [done|]. intros _. cbn [kw_pass].
    rewrite filter_keep_all; [done|]. by apply Forall_forall.
Qed.

Lemma date_compare_refl d : date_compare d d = Eq.
Proof. unfold date_compare. by rewrite !Z.compare_refl. Qed.

Lemma after_midnight_not_leb t e :
  ts_date t = e → 0 < ts_nanos t → ts_leb t (Timestamp_of_date e) = false.
Proof.
  intros <- Hn. unfold ts_leb, ts_compare. simpl.
  rewrite date_compare_refl. by apply Z.compare_gt_iff in Hn as ->.
Qed.

(** C2, where the code departs from it. An article dated 29 January
    2024, 10:30, lies on the end date of the interval 1 to 29 January,
    and [filter_table] drops it: the end bound is midnight of the end
    date, and the time of day of the row is compared as it is. A blog
    post of the same day, dated at midnight, is kept. In general no row
    of the end date with a time after midnight is in the result. *)
Theorem end_date_row_dropped :
  Forall (λ r, ∃ t, get "date" r = CTs t ∧ ts_date t = Examples.jan29)
    (rows Examples.news_table)
  ∧ rows Examples.news_table ≠ []
  ∧ filter_table [] Examples.jan01 Examples.jan29 Examples.news_table
    = Ok {| columns := columns Examples.news_table; rows := [] |}
  ∧ filter_table [] Examples.jan01 Examples.jan29 Examples.blog_table
    = Ok Examples.blog_table
  ∧ (∀ K s e T T' r t,
       has_column "date" T = true → filter_table K s e T = Ok T' →
       get "date" r = CTs t → ts_date t = e → 0 < ts_nanos t →
       r ∉ rows T').
Proof.
  split; [|split; [|split; [|split]]].
  - repeat constructor. by exists Examples.jan29_1030.
  - discriminate.
  - vm_compute. reflexivity.
  - vm_compute. reflexivity.
  - intros K s e T T' r t Hd HT Ht He Hn Hr.
    destruct (filtered_row_dated K s e T T' r Hd HT Hr) as (_ & t' & Ht' & _ & _ & Hhi).
    rewrite Ht in Ht'. injection Ht' as <-.
    by rewrite (after_midnight_not_leb t e He Hn) in Hhi.
Qed.

End FilterTheorems.

(** C3 as stated fails on a table without a [date] column: the row
    comes back and has no date. *)
Lemma undated_row_survives :
  ¬ (∀ K s e T T' r,
       filter_table K s e T = Ok T' → r ∈ rows T' →
       ∃ t, get "date" r = CTs t
            ∧ date_leb s (ts_date t) = true ∧ date_leb (ts_date t) e = true).
Proof.
  intros H.
  destruct (H [] Examples.jan01 Examples.jan29 Examples.undated_table
              Examples.undated_table
              (0%nat, list_to_map [("ratio", CInt 42); ("keyword", CStr "netflix")]))
    as (t & Ht & _).
  - vm_compute. reflexivity.
  - apply list_elem_of_In. left. reflexivity.
  - vm_compute in Ht. discriminate Ht.
Qed.

Lemma end_date_row_dropped_witness :
  let r := (0%nat, list_to_map [("pubDate", CStr "Mon, 29 Jan 2024 10:30:00 +0900");
                                ("title", CStr "headline");
                                ("keyword", CStr "netflix");
                                ("date", CTs Examples.jan29_1030)]) in
  r ∈ rows Examples.news_table
  ∧ has_column "date" Examples.news_table = true
  ∧ filter_table [] Examples.jan01 Examples.jan29 Examples.news_table
    = Ok {| columns := columns Examples.news_table; rows := [] |}
  ∧ get "date" r = CTs Examples.jan29_1030
  ∧ ts_date Examples.jan29_1030 = Examples.jan29
  ∧ 0 < ts_nanos Examples.jan29_1030
  ∧ r ∉ @nil (nat * row).
Proof.
  intros r.
  assert (filter_table [] Examples.jan01 Examples.jan29 Examples.news_table
          = Ok {| columns := columns Examples.news_table; rows := [] |}) as H
    by (vm_compute; reflexivity).
  assert (get "date" r = CTs Examples.jan29_1030) as Hd by (vm_compute; reflexivity).
  assert (0 < ts_nanos Examples.jan29_1030) as Hn by (simpl; lia).
  split; [apply list_elem_of_In; left; reflexivity|].
  split; [reflexivity|]. split; [exact H|]. split; [exact Hd|].
  split; [reflexivity|]. split; [exact Hn|].
  destruct end_date_row_dropped as (_ & _ & _ & _ & Hgen).
  exact (Hgen [] Examples.jan01 Examples.jan29 Examples.news_table _ r
           Examples.jan29_1030 eq_refl H Hd eq_refl Hn).
Defined.

Lemma filter_rows_in_range_witness :
  let r := (0%nat, list_to_map [("period", CStr "2024-01-01"); ("ratio", CInt 10);
                                ("keyword", CStr "A");
                                ("date", CTs (Timestamp_of_date Examples.jan01))]) in
  has_column "date" Examples.trend_table = true
  ∧ filter_table ["A"] Examples.jan01 Examples.jan29 Examples.trend_table
    = Ok {| columns := columns Examples.trend_table; rows := [r] |}
  ∧ (∃ t, get "date" r = CTs t ∧ ts_tz t = None
          ∧ ts_leb (Timestamp_of_date Examples.jan01) t = true
          ∧ ts_leb t (Timestamp_of_date Examples.jan29) = true
          ∧ date_leb Examples.jan01 (ts_date t) = true
          ∧ date_leb (ts_date t) Examples.jan29 = true)
  ∧ (["A"] ≠ [] → ∃ k, get "keyword" r = CStr k ∧ k ∈ ["A"]).
Proof.
  intros r.
  assert (filter_table ["A"] Examples.jan01 Examples.jan29 Examples.trend_table
          = Ok {| columns := columns Examples.trend_table; rows := [r] |}) as H
    by (vm_compute; reflexivity).
  split; [reflexivity|]. split; [exact H|].
  apply (filter_rows_in_range ["A"] Examples.jan01 Examples.jan29
           Examples.trend_table _ r eq_refl H).
  apply list_elem_of_In. left. reflexivity.
Defined.

Lemma empty_keywords_most_permissive_witness :
  let kept := [(0%nat, list_to_map [("period", CStr "2024-01-01"); ("ratio", CInt 10);
                                    ("keyword", CStr "A");
                                    ("date", CTs (Timestamp_of_date Examples.jan01))])] in
  filter_table ["A"] Examples.jan01 Examples.jan29 Examples.trend_table
  = Ok {| columns := columns Examples.trend_table; rows := kept |}
  ∧ dates_comparable (rows Examples.trend_table)
  ∧ keyword_filter [] Examples.trend_table = Ok Examples.trend_table
  ∧ (∃ T0, filter_table [] Examples.jan01 Examples.jan29 Examples.trend_table = Ok T0
           ∧ ∀ r, r ∈ kept → r ∈ rows T0).
Proof.
  intros kept.
  assert (filter_table ["A"] Examples.jan01 Examples.jan29 Examples.trend_table
          = Ok {| columns := columns Examples.trend_table; rows := kept |}) as H
    by (vm_compute; reflexivity).
  assert (dates_comparable (rows Examples.trend_table)) as Hc
    by (repeat constructor).
  destruct (empty_keywords_most_permissive ["A"] Examples.jan01 Examples.jan29
              Examples.trend_table) as (H1 & _ & H3 & H4).
  split; [exact H|]. split; [exact Hc|]. split; [exact H1|].
  destruct (H4 _ H Hc) as [T0 H0]. exists T0. split; [exact H0|].
  exact (H3 _ _ H H0).
Defined.


(** ** Ingestion *)

Section LoopFacts.

Variable body : string → result (option DataFrame).

Lemma load_loop_from (files : list string) (dfs : list DataFrame) (out : stdout) :
  Stmt.for_each files
    (λ f dfs,
       Stmt.try_except
         (df ← Stmt.lift (body f);
          mret (dfs ++ option_list df)%list)
         (λ e, _ ← print ("Error loading " +:+ f +:+ ": " +:+ exn_str e);
               mret dfs))
    dfs out
  = (Ok (dfs ++ flat_map (appended body) files)%list,
     (out ++ flat_map (printed body) files)%list).
Proof.
  revert dfs out. induction files as [|f files IH]; intros dfs out.
  - simpl. unfold Stmt.ret. by rewrite !app_nil_r.
  - cbn [Stmt.for_each flat_map]. unfold Stmt.bind at 1.
    unfold Stmt.try_except, mbind, M_bind, Stmt.bind, Stmt.lift, mret, M_ret,
      Stmt.ret, print, appended, printed at 1.
    destruct (body f) as [[df|]|ex]; rewrite IH; cbn [option_list];
      by rewrite <- ?app_assoc, ?app_nil_r.
Qed.

Lemma load_loop_spec (files : list string) (out : stdout) :
  load_loop body files out
  = (Ok (flat_map (appended body) files), (out ++ flat_map (printed body) files)%list).
Proof. unfold load_loop. by rewrite load_loop_from. Qed.

(** A file on which the body raises, or appends nothing, leaves the
    frames of the other files as they are. *)
Lemma load_loop_skip (f : string) (fs1 fs2 : list string) (out : stdout) :
  appended body f = [] →
  (load_loop body (fs1 ++ f :: fs2) out).1 = (load_loop body (fs1 ++ fs2) out).1.
Proof.
  intros Hf. rewrite !load_loop_spec. cbn [fst].
  by rewrite !flat_map_app; cbn [flat_map]; rewrite Hf.
Qed.

End LoopFacts.

Section FrameFacts.

Implicit Types (df : DataFrame) (r : nat * row) (c : string).

Lemma has_column_add_label c c' cols :
  existsb (String.eqb c) (add_label c' cols)
  = existsb (String.eqb c) cols || String.eqb c c'.
Proof.
  unfold add_label. destruct (existsb (String.eqb c') cols) eqn:H.
  - destruct (String.eqb_spec c c') as [->|]; [|by rewrite orb_false_r].
    by rewrite H.
  - rewrite existsb_app. simpl. by rewrite orb_false_r.
Qed.

Lemma has_column_set_scalar c c' v df :
  has_column c (set_scalar c' v df) = has_column c df || String.eqb c c'.
Proof. apply has_column_add_label. Qed.

Lemma has_column_set_series c c' vs df :
  has_column c (set_series c' vs df) = has_column c df || String.eqb c c'.
Proof. apply has_column_add_label. Qed.

Lemma get_insert_eq c v (i : nat) (m : row) : get c (i, <[c := v]> m) = v.
Proof. unfold get. simpl. by rewrite lookup_insert_eq. Qed.

Lemma get_insert_ne c c' v (i j : nat) (m : row) :
  c ≠ c' → get c (i, <[c' := v]> m) = get c (j, m).
Proof. intros H. unfold get. simpl. by rewrite lookup_insert_ne. Qed.

Lemma column_values_set_scalar c c' v df :
  c ≠ c' → get c <$> rows (set_scalar c' v df) = get c <$> rows df.
Proof.
  intros H. unfold set_scalar. cbn [rows]. rewrite <- list_fmap_compose.
  apply list_fmap_ext. intros _ [i m] _. simpl. by apply get_insert_ne.
Qed.

Lemma rows_set_scalar c v df r :
  r ∈ rows (set_scalar c v df) → ∃ r0, r0 ∈ rows df ∧ r = (r0.1, <[c := v]> r0.2).
Proof.
  unfold set_scalar. cbn [rows]. intros (r0 & -> & Hr0)%list_elem_of_fmap. eauto.
Qed.

Lemma rows_set_series c vs df r :
  r ∈ rows (set_series c vs df) →
  ∃ r0 v, r0 ∈ rows df ∧ v ∈ vs ∧ r = (r0.1, <[c := v]> r0.2).
Proof.
  unfold set_series. cbn [rows]. generalize (rows df). intros l. revert vs.
  induction l as [|r0 l IH]; intros [|v vs]; simpl; try (by intros ?%elem_of_nil).
  intros [->|H]%elem_of_cons.
  - exists r0, v. repeat split; apply elem_of_cons; by left.
  - apply IH in H as (r1 & v1 & ? & ? & ->).
    exists r1, v1. repeat split; apply elem_of_cons; by right.
Qed.

End FrameFacts.

Section BodyFacts.

Variable read_csv : string → result DataFrame.
Variable parse_any : list cell → cell → conv.

Lemma body_short c f :
  (length (tokens f) < 3)%nat → body_of read_csv parse_any c f = Ok None.
Proof.
  intros H. apply Nat.leb_gt in H. unfold tokens in H.
  destruct c; unfold body_of, trend_body, blog_body, news_body; by rewrite H.
Qed.

Lemma body_unreadable c f ex :
  (3 ≤ length (tokens f))%nat → read_csv f = Raise ex →
  body_of read_csv parse_any c f = Raise ex.
Proof.
  intros H Hr. apply Nat.leb_le in H. unfold tokens in H.
  destruct c; unfold body_of, trend_body, blog_body, news_body;
    by rewrite H, Hr.
Qed.

Lemma has_source_tagged c f df0 :
  has_column (date_source c) (tagged c f df0) = has_column (date_source c) df0.
Proof.
  unfold tagged. rewrite has_column_set_scalar.
  destruct c; simpl; by rewrite orb_false_r.
Qed.

Lemma body_undated c f df0 :
  (3 ≤ length (tokens f))%nat → read_csv f = Ok df0 →
  has_column (date_source c) df0 = false →
  body_of read_csv parse_any c f = Ok (Some (tagged c f df0)).
Proof.
  intros H Hr Hd. apply Nat.leb_le in H. unfold tokens in H.
  rewrite <- (has_source_tagged c f) in Hd.
  destruct c; unfold body_of, trend_body, blog_body, news_body;
    rewrite H, Hr; unfold_result;
    unfold tagged, keyword_of, tokens, keyword_index, date_source in Hd;
    by rewrite Hd.
Qed.

Lemma body_Some c f df :
  body_of read_csv parse_any c f = Ok (Some df) →
  ∃ df0, (3 ≤ length (tokens f))%nat ∧ read_csv f = Ok df0
         ∧ (df = tagged c f df0 ∨ ∃ vs, df = set_series "date" vs (tagged c f df0)).
Proof.
  intros H.
  destruct (3 <=? length (tokens f))%nat eqn:Hlen.
  2:{ apply Nat.leb_gt in Hlen. rewrite body_short in H by exact Hlen. discriminate. }
  apply Nat.leb_le in Hlen.
  destruct (read_csv f) as [df0|ex] eqn:Hr.
  2:{ rewrite (body_unreadable _ _ _ Hlen Hr) in H. discriminate. }
  exists df0. split; [exact Hlen|]. split; [reflexivity|].
  destruct (has_column (date_source c) df0) eqn:Hd.
  2:{ rewrite (body_undated _ _ _ Hlen Hr Hd) in H. left. congruence. }
  right. apply Nat.leb_le in Hlen. unfold tokens in Hlen.
  rewrite <- (has_source_tagged c f) in Hd.
  destruct c; unfold body_of, trend_body, blog_body, news_body in H;
    rewrite Hlen, Hr in H; unfold_result; unfold column in H;
    unfold tagged, keyword_of, tokens, keyword_index, date_source in Hd |- *;
    rewrite !Hd in H;
    repeat match type of H with
           | context [to_datetime ?p ?m ?s] =>
               destruct (to_datetime p m s); [|discriminate H]
           | context [dt_tz_localize_None ?s] =>
               destruct (dt_tz_localize_None s); [|discriminate H]
           end;
    injection H as <-; eauto.
Qed.

End BodyFacts.

Section MergeFacts.

Implicit Types (dfs : list DataFrame) (T df : DataFrame) (m : row).

Lemma reindex_lookup_Some cols m c v :
  m !! c = Some v → reindex cols m !! c = Some v.
Proof.
  intros H. induction cols as [|c' cols IH]; simpl; [exact H|].
  destruct (reindex cols m !! c') eqn:Hc'; [exact IH|].
  rewrite lookup_insert_ne; [exact IH|]. intros ->. congruence.
Qed.

Lemma concat_Ok dfs :
  dfs ≠ [] →
  concat dfs
  = Ok {| columns := union_columns dfs;
          rows := let rs := flat_map
                              (λ df, (λ r, reindex (union_columns dfs) r.2) <$> rows df)
                              dfs in
                  zip (seq 0 (length rs)) rs |}.
Proof. destruct dfs; [done|reflexivity]. Qed.

Lemma concat_rows dfs T r :
  concat dfs = Ok T → r ∈ rows T →
  ∃ df r0, df ∈ dfs ∧ r0 ∈ rows df ∧ r.2 = reindex (columns T) r0.2.
Proof.
  intros H Hr. destruct dfs as [|df0 dfs0] eqn:E; [discriminate|].
  rewrite <- E in *. rewrite concat_Ok in H by (subst; discriminate).
  injection H as <-. cbn [rows columns] in *. destruct r as [i m].
  apply elem_of_zip_r in Hr. cbn [snd].
  apply list_elem_of_In, in_flat_map in Hr as (df & Hdf & Hm).
  apply list_elem_of_In, list_elem_of_fmap in Hm as (r0 & -> & Hr0).
  exists df, r0. split; [by apply list_elem_of_In|done].
Qed.

Lemma foldl_add_label_mono c (ls acc : list string) :
  existsb (String.eqb c) acc = true →
  existsb (String.eqb c) (foldl (λ a c', add_label c' a) acc ls) = true.
Proof.
  revert acc. induction ls as [|l ls IH]; intros acc H; simpl; [exact H|].
  apply IH. rewrite has_column_add_label, H. reflexivity.
Qed.

Lemma foldl_add_label_in c (ls acc : list string) :
  existsb (String.eqb c) ls = true →
  existsb (String.eqb c) (foldl (λ a c', add_label c' a) acc ls) = true.
Proof.
  revert acc. induction ls as [|l ls IH]; intros acc H; simpl in *; [discriminate|].
  apply orb_true_iff in H as [H|H].
  - apply foldl_add_label_mono. rewrite has_column_add_label, H.
    by rewrite orb_true_r.
  - by apply IH.
Qed.

Lemma union_columns_has c dfs df :
  df ∈ dfs → has_column c df = true →
  existsb (String.eqb c) (union_columns dfs) = true.
Proof.
  unfold union_columns, has_column. generalize (@nil string).
  induction dfs as [|d dfs IH]; intros acc Hin Hc; [by apply elem_of_nil in Hin|].
  simpl. apply elem_of_cons in Hin as [->|Hin].
  - generalize (foldl_add_label_in c (columns d) acc Hc).
    generalize (foldl (λ a c', add_label c' a) acc (columns d)).
    clear. induction dfs as [|d' dfs IH]; intros acc H; simpl; [exact H|].
    apply IH. by apply foldl_add_label_mono.
  - by apply IH.
Qed.

Lemma merge_into_spec (data : dict DataFrame) key dfs (out : stdout) :
  merge_into data key dfs out
  = (Ok (match dfs with [] => data | _ => dict_set data key (merged dfs) end), out).
Proof. destruct dfs; reflexivity. Qed.

End MergeFacts.

Section LoadFacts.

Variable script_dir : string.
Variable glob : string → list string.
Variable read_csv : string → result DataFrame.
Variable parse_any : list cell → cell → conv.

Lemma load_all_data_spec (out : stdout) :
  load_all_data script_dir glob read_csv parse_any out
  = (Ok [("trend", merged (frames_of script_dir glob read_csv parse_any Trend));
         ("blog", merged (frames_of script_dir glob read_csv parse_any Blog));
         ("news", merged (frames_of script_dir glob read_csv parse_any News))],
     (out ++ errors_of script_dir glob read_csv parse_any Trend
          ++ errors_of script_dir glob read_csv parse_any Blog
          ++ errors_of script_dir glob read_csv parse_any News)%list).
Proof.
  unfold load_all_data, mbind, M_bind, Stmt.bind.
  rewrite (load_loop_spec (trend_body read_csv parse_any)), merge_into_spec.
  rewrite (load_loop_spec (blog_body read_csv)), merge_into_spec.
  rewrite (load_loop_spec (news_body read_csv parse_any)), merge_into_spec.
  unfold mret, M_ret, Stmt.ret.
  change (flat_map (appended (trend_body read_csv parse_any)) _)
    with (frames_of script_dir glob read_csv parse_any Trend).
  change (flat_map (appended (blog_body read_csv)) _)
    with (frames_of script_dir glob read_csv parse_any Blog).
  change (flat_map (appended (news_body read_csv parse_any)) _)
    with (frames_of script_dir glob read_csv parse_any News).
  rewrite <- !app_assoc. f_equal.
  destruct (frames_of _ _ _ _ Trend), (frames_of _ _ _ _ Blog), (frames_of _ _ _ _ News);
    reflexivity.
Qed.

End LoadFacts.

Section KeywordFacts.

Variable read_csv : string → result DataFrame.
Variable parse_any : list cell → cell → conv.

Lemma appended_inv (body : string → result (option DataFrame)) f df :
  df ∈ appended body f → body f = Ok (Some df).
Proof.
  unfold appended. destruct (body f) as [[df'|]|]; try (by intros ?%elem_of_nil).
  intros ->%list_elem_of_singleton. reflexivity.
Qed.

Lemma tagged_rows_keyword c f df0 r :
  r ∈ rows (tagged c f df0) → r.2 !! "keyword" = Some (CStr (keyword_of c f)).
Proof.
  intros (r0 & _ & ->)%rows_set_scalar. simpl. apply lookup_insert_eq.
Qed.

Lemma body_rows_keyword c f df r :
  body_of read_csv parse_any c f = Ok (Some df) → r ∈ rows df →
  r.2 !! "keyword" = Some (CStr (keyword_of c f)).
Proof.
  intros (df0 & _ & _ & [->|[vs ->]])%body_Some Hr.
  - by eapply tagged_rows_keyword.
  - apply rows_set_series in Hr as (r0 & v & Hr0 & _ & ->). simpl.
    rewrite lookup_insert_ne by discriminate.
    by eapply tagged_rows_keyword.
Qed.

Lemma body_has_keyword c f df :
  body_of read_csv parse_any c f = Ok (Some df) → has_column "keyword" df = true.
Proof.
  intros (df0 & _ & _ & [->|[vs ->]])%body_Some.
  - unfold tagged. rewrite has_column_set_scalar. apply orb_true_r.
  - unfold tagged. rewrite has_column_set_series, has_column_set_scalar.
    by rewrite orb_true_r.
Qed.


Lemma merged_rows_keyword dfs r :
  (∀ df r0, df ∈ dfs → r0 ∈ rows df → ∃ k, r0.2 !! "keyword" = Some (CStr k)) →
  r ∈ rows (merged dfs) → ∃ k, r.2 !! "keyword" = Some (CStr k).
Proof.
  intros H Hr. unfold merged in Hr.
  destruct (concat dfs) as [T|] eqn:HT; [|by apply elem_of_nil in Hr].
  destruct (concat_rows _ _ _ HT Hr) as (df & r0 & Hdf & Hr0 & ->).
  destruct (H df r0 Hdf Hr0) as [k Hk]. exists k.
  by apply reindex_lookup_Some.
Qed.

Lemma merged_has_column c dfs :
  (∀ df, df ∈ dfs → has_column c df = true) →
  dfs ≠ [] → has_column c (merged dfs) = true.
Proof.
  intros H Hne. unfold merged. rewrite concat_Ok by exact Hne.
  destruct dfs as [|df dfs]; [done|].
  apply (union_columns_has c _ df); [apply elem_of_cons; by left|].
  apply H. apply elem_of_cons; by left.
Qed.

Lemma merged_has_column_one c dfs df :
  df ∈ dfs → has_column c df = true → has_column c (merged dfs) = true.
Proof.
  intros Hdf Hc. unfold merged.
  rewrite concat_Ok by (by intros ->; apply elem_of_nil in Hdf).
  by apply (union_columns_has c _ df).
Qed.

Lemma has_column_add_label_self c cols :
  existsb (String.eqb c) (add_label c cols) = true.
Proof. rewrite has_column_add_label, String.eqb_refl. apply orb_true_r. Qed.

Lemma merged_nil_rows dfs : rows (merged dfs) ≠ [] → dfs ≠ [].
Proof. intros H ->. by apply H. Qed.

End KeywordFacts.

(** ** The format [%Y%m%d] *)

Section FormatYmd.

Implicit Types (l r pre : list ascii) (x : Z).

Lemma digit_range c x : digit c = Some x → 0 ≤ x ≤ 9.
Proof.
  unfold digit. destruct (_ && _) eqn:E; [|discriminate].
  intros [= <-]. apply andb_prop in E as [?%Z.leb_le ?%Z.leb_le]. lia.
Qed.

Lemma digit_token c x : digit c = Some x → token_char c = true.
Proof. unfold token_char. intros ->. reflexivity. Qed.

Lemma digit_digit_char n : 0 ≤ n ≤ 9 → digit (digit_char n) = Some n.
Proof.
  intros H.
  assert (n = 0 ∨ n = 1 ∨ n = 2 ∨ n = 3 ∨ n = 4 ∨ n = 5 ∨ n = 6 ∨ n = 7 ∨ n = 8 ∨ n = 9)
    as Hn by lia.
  repeat (destruct Hn as [->|Hn]; [reflexivity|]). by subst.
Qed.

Lemma takes_app lo hi a b f g :
  takes lo hi a b f → takes lo hi a b g → takes lo hi a b (λ l, f l ++ g l)%list.
Proof. intros Hf Hg l x r [H|H]%elem_of_app; eauto. Qed.

Lemma takes_weaken lo hi a b lo' hi' a' b' f :
  takes lo hi a b f →
  (lo' ≤ lo)%nat → (hi ≤ hi')%nat → a' ≤ a → b ≤ b' →
  takes lo' hi' a' b' f.
Proof.
  intros Hf ???? l x r H. destruct (Hf l x r H) as (pre & ? & ? & ? & ?).
  exists pre. repeat split; try done; lia.
Qed.

Lemma one_digit_takes lo hi : takes 1 1 lo hi (one_digit lo hi).
Proof.
  intros [|c l] x r H; simpl in H; [by apply elem_of_nil in H|].
  destruct (digit c) as [y|] eqn:Hc; [|by apply elem_of_nil in H].
  destruct (_ && _) eqn:E; [|by apply elem_of_nil in H].
  apply list_elem_of_singleton in H as [= -> ->].
  apply andb_prop in E as [?%Z.leb_le ?%Z.leb_le].
  exists [c]. repeat split; try done; try (simpl; lia).
  constructor; [by eapply digit_token|constructor].
Qed.

Lemma two_digits_takes lo1 hi1 lo2 hi2 :
  takes 2 2 (10 * lo1 + lo2) (10 * hi1 + hi2) (two_digits lo1 hi1 lo2 hi2).
Proof.
  intros [|c [|c' l]] x r H; simpl in H; try by apply elem_of_nil in H.
  destruct (digit c) as [y|] eqn:Hc; [|by apply elem_of_nil in H].
  destruct (digit c') as [y'|] eqn:Hc'; [|by apply elem_of_nil in H].
  destruct (_ && _) eqn:E; [|by apply elem_of_nil in H].
  apply list_elem_of_singleton in H as [= -> ->].
  apply andb_prop in E as [E ?%Z.leb_le].
  apply andb_prop in E as [E ?%Z.leb_le].
  apply andb_prop in E as [?%Z.leb_le ?%Z.leb_le].
  exists [c; c']. repeat split; try done; try (simpl; lia).
  repeat constructor; by eapply digit_token.
Qed.

Lemma space_digit_takes : takes 2 2 1 9 space_digit.
Proof.
  intros [|c l] x r H; simpl in H; [by apply elem_of_nil in H|].
  destruct (Ascii.eqb c " ") eqn:Hc; [|by apply elem_of_nil in H].
  destruct (one_digit_takes 1 9 l x r H) as (pre & -> & Hlen & Hpre & Hx).
  exists (c :: pre). repeat split; try done; try (simpl; lia).
  constructor; [|exact Hpre]. unfold token_char. rewrite Hc. apply orb_true_r.
Qed.

Lemma read_Y_takes : takes 4 4 0 9999 read_Y.
Proof.
  intros [|a [|b [|c [|d l]]]] x r H; simpl in H; try by apply elem_of_nil in H.
  destruct (digit a) as [y1|] eqn:Ha; [|by apply elem_of_nil in H].
  destruct (digit b) as [y2|] eqn:Hb; [|by apply elem_of_nil in H].
  destruct (digit c) as [y3|] eqn:Hc; [|by apply elem_of_nil in H].
  destruct (digit d) as [y4|] eqn:Hd; [|by apply elem_of_nil in H].
  apply list_elem_of_singleton in H as [= -> ->].
  apply digit_range in Ha as ?, Hb as ?, Hc as ?, Hd as ?.
  exists [a; b; c; d]. repeat split; try done; try (simpl; lia).
  repeat constructor; by eapply digit_token.
Qed.

Lemma read_m_takes : takes 1 2 1 12 read_m.
Proof.
  unfold read_m. repeat apply takes_app.
  - eapply takes_weaken; [apply two_digits_takes|lia..].
  - eapply takes_weaken; [apply two_digits_takes|lia..].
  - eapply takes_weaken; [apply one_digit_takes|lia..].
Qed.

Lemma read_d_takes : takes 1 2 1 31 read_d.
Proof.
  unfold read_d. repeat apply takes_app.
  - eapply takes_weaken; [apply two_digits_takes|lia..].
  - eapply takes_weaken; [apply two_digits_takes|lia..].
  - eapply takes_weaken; [apply two_digits_takes|lia..].
  - eapply takes_weaken; [apply one_digit_takes|lia..].
  - eapply takes_weaken; [apply space_digit_takes|lia..].
Qed.

(** A match takes six to eight characters, digits or spaces, and reads
    a month and a day in their ranges. *)
Lemma match_Ymd_Some l y m d r :
  match_Ymd l = Some (y, m, d, r) →
  ∃ pre, l = (pre ++ r)%list ∧ (6 ≤ length pre ≤ 8)%nat
         ∧ Forall (λ c, token_char c = true) pre
         ∧ 0 ≤ y ≤ 9999 ∧ 1 ≤ m ≤ 12 ∧ 1 ≤ d ≤ 31.
Proof.
  unfold match_Ymd. intros H%head_Some_elem_of.
  apply list_elem_of_bind in H as ([y' l1] & H & HY).
  apply list_elem_of_bind in H as ([m' l2] & H & Hm).
  apply list_elem_of_bind in H as ([d' l3] & H & Hd).
  apply list_elem_of_singleton in H as [= -> -> -> ->].
  destruct (read_Y_takes _ _ _ HY) as (p1 & -> & ? & ? & ?).
  destruct (read_m_takes _ _ _ Hm) as (p2 & -> & ? & ? & ?).
  destruct (read_d_takes _ _ _ Hd) as (p3 & -> & ? & ? & ?).
  exists (p1 ++ p2 ++ p3)%list. rewrite <- !app_assoc.
  repeat split; try done; rewrite ?length_app; try lia.
  by repeat apply Forall_app_2.
Qed.

Lemma length_list_ascii s : length (String.list_ascii_of_string s) = String.length s.
Proof. induction s as [|c s IH]; simpl; [reflexivity|by rewrite IH]. Qed.

(** What the format reads is a day that exists, written with six to
    eight characters, all of them digits or spaces. *)
Lemma strptime_Ymd_Some s dt :
  strptime_Ymd s = Some dt →
  (6 ≤ String.length s ≤ 8)%nat
  ∧ Forall (λ c, token_char c = true) (String.list_ascii_of_string s)
  ∧ calendar_date dt.
Proof.
  unfold strptime_Ymd.
  destruct (match_Ymd _) as [[[[y m] d] r]|] eqn:H; [|discriminate].
  destruct r; [|discriminate].
  destruct (_ && _) eqn:E; [|discriminate]. intros [= <-].
  apply match_Ymd_Some in H as (pre & Hl & ? & ? & ? & ? & ?).
  rewrite app_nil_r in Hl. rewrite <- length_list_ascii, Hl.
  apply andb_prop in E as [?%Z.leb_le ?%Z.leb_le].
  unfold calendar_date. simpl. repeat split; try done; lia.
Qed.

Lemma read_m_padded m r :
  1 ≤ m ≤ 12 →
  ∃ rest, read_m (digit_char (m / 10) :: digit_char (m mod 10) :: r) = (m, r) :: rest.
Proof.
  intros H.
  assert (m = 1 ∨ m = 2 ∨ m = 3 ∨ m = 4 ∨ m = 5 ∨ m = 6 ∨ m = 7 ∨ m = 8 ∨ m = 9
          ∨ m = 10 ∨ m = 11 ∨ m = 12) as Hm by lia.
  repeat (destruct Hm as [->|Hm]; [eexists; reflexivity|]).
  subst. eexists; reflexivity.
Qed.

Lemma read_d_padded d :
  1 ≤ d ≤ 31 →
  ∃ rest, read_d [digit_char (d / 10); digit_char (d mod 10)] = (d, []) :: rest.
Proof.
  intros H.
  assert (∃ n : nat, d = Z.of_nat n ∧ (n < 32)%nat) as (n & -> & Hn)
    by (exists (Z.to_nat d); lia).
  do 32 (destruct n as [|n]; [try lia; eexists; reflexivity|]). lia.
Qed.

Lemma read_Y_padded y r :
  0 ≤ y ≤ 9999 →
  read_Y (digit_char (y / 1000) :: digit_char (y / 100 mod 10)
          :: digit_char (y / 10 mod 10) :: digit_char (y mod 10) :: r)
  = [(y, r)].
Proof.
  intros H. unfold read_Y.
  rewrite !digit_digit_char by (Z.div_mod_to_equations; lia).
  do 2 f_equal. Z.div_mod_to_equations. lia.
Qed.

(** The eight digits YYYYMMDD of a day that exists are read as that day. *)
Lemma strptime_Ymd_yyyymmdd dt :
  calendar_date dt → year dt ≤ 9999 → strptime_Ymd (yyyymmdd dt) = Some dt.
Proof.
  intros (Hy & Hm & Hd) Hy'. unfold strptime_Ymd, yyyymmdd, match_Ymd.
  rewrite String.list_ascii_of_string_of_list_ascii.
  rewrite read_Y_padded by lia.
  destruct (read_m_padded (month dt)
              [digit_char (day dt / 10); digit_char (day dt mod 10)]) as [rm Em]; [lia|].
  destruct (read_d_padded (day dt)) as [rd Ed].
  { pose proof Hd. unfold days_in_month in Hd.
    repeat match type of Hd with context [if ?b then _ else _] => destruct b end; lia. }
  cbn [mbind list_bind app]. rewrite Em. cbn [mbind list_bind app]. rewrite Ed.
  cbn [mbind list_bind app head].
  destruct Hd as [_ Hd]. apply Z.leb_le in Hd, Hy. rewrite Hy, Hd. simpl.
  by destruct dt.
Qed.

End FormatYmd.

Section IngestionTheorems.

Variable script_dir : string.
Variable glob : string → list string.
Variable read_csv : string → result DataFrame.
Variable parse_any : list cell → cell → conv.



(** C10. [load_all_data] returns, and in each of its three tables every
    row has a string in its [keyword] column; a table with rows has the
    [keyword] column, so that the keyword stage of the filter does not
    raise on it. *)
Theorem ingested_rows_have_keyword (out : stdout) :
  ∃ data out',
    load_all_data script_dir glob read_csv parse_any out = (Ok data, out')
    ∧ ∀ key T, (key, T) ∈ data →
        (∀ r, r ∈ rows T → ∃ k, r.2 !! "keyword" = Some (CStr k))
        ∧ (rows T ≠ [] → has_column "keyword" T = true)
        ∧ (∀ K, empty T = false → ∃ T1, keyword_filter K T = Ok T1).
Proof.
  eexists _, _. split; [apply load_all_data_spec|].
  intros key T HT.
  assert (∃ c, T = merged (frames_of script_dir glob read_csv parse_any c)) as [c ->].
  { repeat (apply elem_of_cons in HT as [HT|HT]; [injection HT as -> ->; eauto|]).
    by apply elem_of_nil in HT. }
  set (dfs := frames_of _ _ _ _ c).
  assert (∀ df, df ∈ dfs → ∃ f, body_of read_csv parse_any c f = Ok (Some df)) as Hdfs.
  { intros df Hdf. unfold dfs, frames_of in Hdf.
    apply list_elem_of_In, in_flat_map in Hdf as (f & _ & Hf).
    exists f. by apply appended_inv, list_elem_of_In. }
  assert (rows (merged dfs) ≠ [] → has_column "keyword" (merged dfs) = true) as Hcol.
  { intros Hne. apply merged_has_column; [|by apply merged_nil_rows].
    intros df [f Hf]%Hdfs. by eapply body_has_keyword. }
  split; [|split; [exact Hcol|]].
  - intros r Hr. apply (merged_rows_keyword dfs r); [|exact Hr].
    intros df r0 [f Hf]%Hdfs Hr0. eexists. by eapply body_rows_keyword.
  - intros K HE. eexists. apply keyword_filter_total. intros _. apply Hcol.
    unfold empty in HE. destruct (columns (merged dfs)), (rows (merged dfs)); done.
Qed.

Lemma to_datetime_coerce parse cs :
  to_datetime parse ErrorsCoerce cs = Ok (coerced parse <$> cs).
Proof.
  apply series_map_total, Forall_forall. intros c _.
  unfold to_datetime_cell, coerced. by destruct (convert parse c).
Qed.

Lemma series_map_Raise {A B} (f : A → result B) (l : list A) x ex :
  x ∈ l → f x = Raise ex → ∃ ex', series_map f l = Raise ex'.
Proof.
  intros Hx Hf. induction l as [|y l IH]; [by apply elem_of_nil in Hx|].
  simpl. unfold_result. destruct (f y) as [b|ey] eqn:Hy; [|eauto].
  apply elem_of_cons in Hx as [->|Hx]; [congruence|].
  destruct (IH Hx) as [ex' ->]. eauto.
Qed.

Lemma zip_with_fmap_self {A B C} (g : A → B → C) (h : A → B) (l : list A) :
  zip_with g l (h <$> l) = (λ x, g x (h x)) <$> l.
Proof. induction l as [|x l IH]; simpl; [reflexivity|]. f_equal. exact IH. Qed.

Lemma blog_body_dated f df0 :
  (3 ≤ length (tokens f))%nat → read_csv f = Ok df0 →
  has_column "postdate" df0 = true →
  blog_body read_csv f
  = Ok (Some {| columns := add_label "date" (columns (tagged Blog f df0));
                rows := (λ r, (r.1, <["date" := coerced parse_Ymd (get "postdate" r)]> r.2))
                          <$> rows (tagged Blog f df0) |}).
Proof.
  intros Hlen Hr Hd. apply Nat.leb_le in Hlen. unfold tokens in Hlen.
  rewrite <- (has_source_tagged Blog f) in Hd.
  unfold blog_body. rewrite Hlen, Hr. unfold_result. unfold column.
  unfold tagged, keyword_of, tokens, keyword_index, date_source in Hd |- *.
  rewrite !Hd, to_datetime_coerce. unfold set_series.
  by rewrite <- list_fmap_compose, zip_with_fmap_self.
Qed.

Lemma trend_body_unparseable f df0 r :
  (3 ≤ length (tokens f))%nat → read_csv f = Ok df0 →
  has_column "period" df0 = true →
  r ∈ rows df0 →
  convert (parse_any (get "period" <$> rows df0)) (get "period" r) = ConvFail →
  ∃ ex, trend_body read_csv parse_any f = Raise ex.
Proof.
  intros Hlen Hr Hd Hin Hfail. apply Nat.leb_le in Hlen. unfold tokens in Hlen.
  rewrite <- (has_source_tagged Trend f) in Hd.
  unfold trend_body. rewrite Hlen, Hr. unfold_result. unfold column.
  unfold tagged, keyword_of, tokens, keyword_index, date_source in Hd.
  rewrite !Hd, column_values_set_scalar by discriminate.
  destruct (series_map_Raise
              (to_datetime_cell (parse_any (get "period" <$> rows df0)) ErrorsRaise)
              (get "period" <$> rows df0) (get "period" r)
              (ValueError "time data could not be parsed")) as [ex Hex].
  - apply list_elem_of_fmap. eauto.
  - unfold to_datetime_cell. by rewrite Hfail.
  - unfold to_datetime. rewrite Hex. eauto.
Qed.

Lemma get_reindex cols (m : row) (i j : nat) c :
  get c (i, reindex cols m) = get c (j, m).
Proof.
  unfold get. cbn [snd]. induction cols as [|c' cols IH]; simpl; [reflexivity|].
  destruct (reindex cols m !! c') eqn:Hc'; [exact IH|].
  destruct (decide (c = c')) as [->|Hne].
  - rewrite lookup_insert_eq. rewrite <- IH, Hc'. reflexivity.
  - by rewrite lookup_insert_ne.
Qed.

Lemma elem_of_enumerate {A} (l : list A) x :
  x ∈ l → ∃ i, (i, x) ∈ zip (seq 0 (length l)) l.
Proof.
  intros (i & Hi)%list_elem_of_lookup. exists i.
  apply list_elem_of_lookup. exists i.
  rewrite lookup_zip_with, lookup_seq_lt by (by eapply lookup_lt_Some).
  simpl. by rewrite Hi.
Qed.

Lemma merged_keeps_rows dfs df r0 :
  df ∈ dfs → r0 ∈ rows df →
  ∃ r, r ∈ rows (merged dfs) ∧ ∀ c, get c r = get c r0.
Proof.
  intros Hdf Hr0. unfold merged. rewrite concat_Ok by (by intros ->; apply elem_of_nil in Hdf).
  cbn [rows].
  set (rs := flat_map _ dfs).
  assert (reindex (union_columns dfs) r0.2 ∈ rs) as Hin.
  { apply list_elem_of_In, in_flat_map. exists df. split; [by apply list_elem_of_In|].
    apply list_elem_of_In, list_elem_of_fmap. eauto. }
  apply elem_of_enumerate in Hin as [i Hi]. eexists. split; [exact Hi|].
  intros c. destruct r0 as [j m]. apply get_reindex.
Qed.

Lemma appended_in_frames c f df :
  f ∈ files_of script_dir glob c →
  body_of read_csv parse_any c f = Ok (Some df) →
  df ∈ frames_of script_dir glob read_csv parse_any c.
Proof.
  intros Hf Hb. unfold frames_of. apply list_elem_of_In, in_flat_map.
  exists f. split; [by apply list_elem_of_In|].
  unfold appended. rewrite Hb. by left.
Qed.

(** C8, amended. In a blog file the [date] of a row is its [postdate]
    read by the format [%Y%m%d] as [strptime] reads it. The eight
    digits YYYYMMDD of a day give that day ("20240115" gives 15 January
    2024), but the format is not strict about the width: a month or a
    day of one digit is read too, so "2024115" gives 5 November 2024
    and "202415" gives 5 January 2024. What is read is always a day
    that exists, at midnight, from a value of six to eight characters,
    each a digit or a space; every other value ("invalid") gives a null
    date, and no value raises. Either way the row is in the blog table
    [load_all_data] returns, and a row with a null date is in no table
    [filter_table] returns. *)
Theorem blog_postdate_format (f : string) (df0 : DataFrame) :
  f ∈ files_of script_dir glob Blog →
  (3 ≤ length (tokens f))%nat →
  read_csv f = Ok df0 →
  has_column "postdate" df0 = true →
  coerced parse_Ymd (CStr "20240115") = CTs (Timestamp_of_date (mkDate 2024 1 15))
  ∧ coerced parse_Ymd (CStr "invalid") = CNull
  ∧ (∀ d, calendar_date d → 1678 ≤ year d ≤ 2261 →
          coerced parse_Ymd (CStr (yyyymmdd d)) = CTs (Timestamp_of_date d))
  ∧ coerced parse_Ymd (CStr "2024115") = CTs (Timestamp_of_date (mkDate 2024 11 5))
  ∧ coerced parse_Ymd (CStr "202415") = CTs (Timestamp_of_date (mkDate 2024 1 5))
  ∧ (∀ v, coerced parse_Ymd (CStr v) = CNull
          ∨ ∃ d, coerced parse_Ymd (CStr v) = CTs (Timestamp_of_date d)
                 ∧ calendar_date d
                 ∧ (6 ≤ String.length v ≤ 8)%nat
                 ∧ Forall (λ c, token_char c = true) (String.list_ascii_of_string v))
  ∧ (∀ col, to_datetime parse_Ymd ErrorsCoerce col = Ok (coerced parse_Ymd <$> col))
  ∧ (∀ out, ∃ data out' T,
       load_all_data script_dir glob read_csv parse_any out = (Ok data, out')
       ∧ dict_get data "blog" = Some T
       ∧ has_column "date" T = true
       ∧ ∀ r0, r0 ∈ rows df0 →
           ∃ r, r ∈ rows T
                ∧ get "postdate" r = get "postdate" r0
                ∧ get "date" r = coerced parse_Ymd (get "postdate" r0))
  ∧ (∀ K s e T T' r,
       has_column "date" T = true → filter_table K s e T = Ok T' →
       r ∈ rows T' → get "date" r ≠ CNull).
Proof.
  intros Hf Hlen Hr Hd. split; [reflexivity|]. split; [reflexivity|].
  split.
  { intros d Hd' Hy. unfold coerced. cbn [convert parse_Ymd].
    by rewrite strptime_Ymd_yyyymmdd by (done || lia). }
  split; [reflexivity|]. split; [reflexivity|]. split.
  { intros v. unfold coerced. cbn [convert parse_Ymd].
    destruct (strptime_Ymd v) as [d|] eqn:Hv; [right|by left].
    destruct (strptime_Ymd_Some v d Hv) as (? & ? & ?). by exists d. }
  split; [apply to_datetime_coerce|]. split.
  - intros out. eexists _, _, _. split; [apply load_all_data_spec|].
    split; [reflexivity|].
    pose proof (blog_body_dated f df0 Hlen Hr Hd) as Hb.
    pose proof (appended_in_frames Blog f _ Hf Hb) as Hin.
    split.
    { apply (merged_has_column_one _ _ _ Hin). apply has_column_add_label_self. }
    intros r0 Hr0.
    set (r1 := (r0.1, <["date" := coerced parse_Ymd (get "postdate" r0)]>
                        (<["keyword" := CStr (keyword_of Blog f)]> r0.2))).
    destruct (merged_keeps_rows _ _ r1 Hin) as (r & Hr' & Hget).
    { cbn [rows]. apply list_elem_of_fmap.
      exists (r0.1, <["keyword" := CStr (keyword_of Blog f)]> r0.2). split.
      - unfold r1. cbn [fst snd].
        by rewrite (get_insert_ne "postdate" "keyword" _ _ r0.1 r0.2), <- surjective_pairing.
      - unfold tagged, set_scalar. cbn [rows]. apply list_elem_of_fmap. eauto. }
    exists r. split; [exact Hr'|]. rewrite !Hget. unfold r1. split.
    + rewrite (get_insert_ne "postdate" "date" _ _ r0.1) by discriminate.
      rewrite (get_insert_ne "postdate" "keyword" _ _ r0.1) by discriminate.
      by rewrite <- surjective_pairing.
    + apply get_insert_eq.
  - intros K s e T T' r HdT HT HrT Hnull.
    destruct (filtered_row_dated K s e T T' r HdT HT HrT) as (_ & t & Ht & _).
    congruence.
Qed.

(** C1, where the code departs from it. In a trend file whose [period]
    column holds a value that does not parse, [pd.to_datetime] raises:
    the body of the loop is left before the frame is appended, so the
    file adds no frame, and the loop yields what it yields without the
    file. The rows of the file with good periods are lost with it. *)
Theorem unparseable_period_drops_file (f : string) (df0 : DataFrame) (r : nat * row) :
  (3 ≤ length (tokens f))%nat →
  read_csv f = Ok df0 →
  has_column "period" df0 = true →
  r ∈ rows df0 →
  convert (parse_any (get "period" <$> rows df0)) (get "period" r) = ConvFail →
  (∃ ex, trend_body read_csv parse_any f = Raise ex)
  ∧ appended (trend_body read_csv parse_any) f = []
  ∧ ∀ fs1 fs2 out,
      (load_loop (trend_body read_csv parse_any) (fs1 ++ f :: fs2) out).1
      = (load_loop (trend_body read_csv parse_any) (fs1 ++ fs2) out).1.
Proof.
  intros Hlen Hr Hd Hin Hfail.
  destruct (trend_body_unparseable f df0 r Hlen Hr Hd Hin Hfail) as [ex Hex].
  assert (appended (trend_body read_csv parse_any) f = []) as Happ
    by (unfold appended; by rewrite Hex).
  split; [eauto|]. split; [exact Happ|].
  intros. by apply load_loop_skip.
Qed.

(** C6, as amended. [load_all_data] never raises, nor does any of its
    loops. A file whose name has fewer than three tokens, or on which
    the body of the loop raises (as it does when [read_csv] raises),
    adds no frame, and the loop yields the frames of the other files. A
    file that only lacks its date source column is no failure: its frame
    is appended with all its rows, the keyword set and no date added. *)
Theorem ingestion_recovers :
  (∀ out, ∃ data out',
     load_all_data script_dir glob read_csv parse_any out = (Ok data, out'))
  ∧ (∀ body files out, ∃ dfs out', load_loop body files out = (Ok dfs, out'))
  ∧ (∀ c f,
       ((length (tokens f) < 3)%nat ∨ ∃ ex, body_of read_csv parse_any c f = Raise ex) →
       ∀ fs1 fs2 out,
         (load_loop (body_of read_csv parse_any c) (fs1 ++ f :: fs2) out).1
         = (load_loop (body_of read_csv parse_any c) (fs1 ++ fs2) out).1)
  ∧ (∀ c f ex,
       (3 ≤ length (tokens f))%nat → read_csv f = Raise ex →
       body_of read_csv parse_any c f = Raise ex)
  ∧ (∀ c f df0,
       (3 ≤ length (tokens f))%nat → read_csv f = Ok df0 →
       has_column (date_source c) df0 = false →
       body_of read_csv parse_any c f = Ok (Some (tagged c f df0))
       ∧ length (rows (tagged c f df0)) = length (rows df0)).
Proof.
  split; [|split; [|split; [|split]]].
  - intros out. eexists _, _. apply load_all_data_spec.
  - intros body files out. eexists _, _. apply load_loop_spec.
  - intros c f Hf fs1 fs2 out. apply load_loop_skip. unfold appended.
    destruct Hf as [Hlen|[ex Hex]].
    + by rewrite body_short.
    + by rewrite Hex.
  - intros c f ex. apply body_unreadable.
  - intros c f df0 Hlen Hr Hd. split; [by apply body_undated|].
    unfold tagged, set_scalar. cbn [rows]. apply length_fmap.
Qed.

End IngestionTheorems.

(** C6 as stated fails for a file that lacks its date column: read from
    [Disk], the trend file without [period] adds a frame. *)
Lemma missing_column_still_contributes :
  ¬ (∀ read_csv parse_any c f df0,
       (3 ≤ length (tokens f))%nat → read_csv f = Ok df0 →
       has_column (date_source c) df0 = false →
       appended (body_of read_csv parse_any c) f = []).
Proof.
  intros H.
  specialize (H Disk.read_csv Disk.parse_column Trend Disk.trend_disney
                Disk.trend_disney_csv).
  assert (appended (body_of Disk.read_csv Disk.parse_column Trend) Disk.trend_disney
          ≠ []) as Hne by (vm_compute; discriminate).
  apply Hne, H.
  - vm_compute. lia.
  - reflexivity.
  - reflexivity.
Qed.


Lemma unparseable_period_drops_file_witness :
  let r := (1%nat, list_to_map [("period", CStr "not a date"); ("ratio", CInt 20)]) in
  (3 ≤ length (tokens Disk.trend_netflix))%nat
  ∧ Disk.read_csv Disk.trend_netflix = Ok Disk.trend_netflix_csv
  ∧ has_column "period" Disk.trend_netflix_csv = true
  ∧ r ∈ rows Disk.trend_netflix_csv
  ∧ convert (Disk.parse_column (get "period" <$> rows Disk.trend_netflix_csv))
      (get "period" r) = ConvFail
  ∧ (∃ ex, trend_body Disk.read_csv Disk.parse_column Disk.trend_netflix = Raise ex)
  ∧ appended (trend_body Disk.read_csv Disk.parse_column) Disk.trend_netflix = []
  ∧ ∀ fs1 fs2 out,
      (load_loop (trend_body Disk.read_csv Disk.parse_column)
         (fs1 ++ Disk.trend_netflix :: fs2) out).1
      = (load_loop (trend_body Disk.read_csv Disk.parse_column) (fs1 ++ fs2) out).1.
Proof.
  intros r.
  assert (3 ≤ length (tokens Disk.trend_netflix))%nat as H1 by (vm_compute; lia).
  assert (r ∈ rows Disk.trend_netflix_csv) as H4
    by (apply list_elem_of_In; right; left; reflexivity).
  assert (convert (Disk.parse_column (get "period" <$> rows Disk.trend_netflix_csv))
            (get "period" r) = ConvFail) as H5
    by (vm_compute; reflexivity).
  repeat (split; [first [exact H1 | exact H4 | exact H5 | reflexivity]|]).
  exact (unparseable_period_drops_file Disk.read_csv Disk.parse_column
           Disk.trend_netflix Disk.trend_netflix_csv r H1 eq_refl eq_refl H4 H5).
Defined.


(** ** The filter on the object store *)

Section StoreFacts.

Implicit Types (h : store) (l : ref) (v : DataFrame).

Lemma deref_live h l v : h !! l = Some v → deref l h = (Ok v, h).
Proof. unfold deref. by intros ->. Qed.

Lemma new_fresh h : h !! fresh (dom h) = None.
Proof. apply not_elem_of_dom, is_fresh. Qed.

Lemma new_extends h v : h ⊆ <[fresh (dom h) := v]> h.
Proof. apply insert_subseteq, new_fresh. Qed.

Lemma lookup_extends_None h h' l : h ⊆ h' → h' !! l = None → h !! l = None.
Proof.
  intros Hsub Hl. destruct (h !! l) as [v|] eqn:E; [|done].
  pose proof (lookup_weaken _ _ _ _ E Hsub). congruence.
Qed.

Lemma keyword_stage_refines K :
  stage_refines (keyword_stage K) (keyword_filter K) false.
Proof.
  intros h l v Hl. unfold keyword_stage, keyword_filter.
  destruct K as [|k K].
  - unfold copy, mbind, M_bind, Stmt.bind.
    rewrite (deref_live _ _ _ Hl). unfold new.
    eexists _, _. split; [reflexivity|]. split; [apply new_extends|].
    eexists. split; [reflexivity|]. rewrite lookup_insert_eq. split; [done|].
    left. by apply new_fresh.
  - unfold getitem_col, getitem_mask, copy, mbind, M_bind, Stmt.bind, Stmt.lift.
    rewrite (deref_live _ _ _ Hl). unfold result_bind, rbind.
    destruct (column "keyword" v) as [kw|ex].
    2:{ eexists _, _. split; [reflexivity|]. done. }
    rewrite (deref_live _ _ _ Hl). unfold new at 1.
    set (l1 := fresh (dom h)).
    set (h1 := <[l1 := select (isin (k :: K) <$> kw) v]> h).
    assert (h1 !! l1 = Some (select (isin (k :: K) <$> kw) v)) as Hl1
      by apply lookup_insert_eq.
    rewrite (deref_live _ _ _ Hl1). unfold new.
    eexists _, _. split; [reflexivity|]. split.
    { etrans; apply new_extends. }
    eexists. split; [reflexivity|]. rewrite lookup_insert_eq. split; [done|].
    left. eapply lookup_extends_None; [apply new_extends|]. by apply new_fresh.
Qed.

Lemma date_stage_refines lo hi :
  stage_refines (date_stage lo hi) (date_filter lo hi) true.
Proof.
  intros h l v Hl. unfold date_stage, date_filter.
  unfold getitem_col, getitem_mask, mbind, M_bind, Stmt.bind, Stmt.lift.
  rewrite (deref_live _ _ _ Hl).
  destruct (has_column "date" v).
  2:{ eexists _, _. split; [reflexivity|]. split; [done|].
      exists l. split; [done|]. split; [done|]. right. done. }
  rewrite (deref_live _ _ _ Hl). unfold new at 1. cbv beta iota zeta.
  set (l1 := fresh (dom h)). set (w := dropna "date" v).
  set (h1 := <[l1 := w]> h).
  assert (h1 !! l1 = Some w) as Hl1 by apply lookup_insert_eq.
  assert (h ⊆ h1) as Hsub by apply new_extends.
  rewrite !(deref_live _ _ _ Hl1). unfold result_bind, rbind.
  destruct (column "date" w) as [d|ex].
  2:{ eexists _, _. split; [reflexivity|]. done. }
  destruct (series_ge lo d) as [ge|ex].
  2:{ eexists _, _. split; [reflexivity|]. done. }
  rewrite ?(deref_live _ _ _ Hl1).
  destruct (series_le hi d) as [le|ex].
  2:{ eexists _, _. split; [reflexivity|]. done. }
  rewrite ?(deref_live _ _ _ Hl1). unfold new.
  eexists _, _. split; [reflexivity|]. split.
  { etrans; [exact Hsub|]. apply new_extends. }
  eexists. split; [reflexivity|]. rewrite lookup_insert_eq. split; [done|].
  left. eapply lookup_extends_None; [exact Hsub|]. by apply new_fresh.
Qed.

(** [filter_entry] computes [filter_table]: on an empty frame it returns
    the reference it was given; otherwise a reference that was not
    allocated before, holding the filtered frame. *)
Lemma filter_entry_refines K s e h l v :
  h !! l = Some v →
  ∃ res h',
    filter_entry K (Timestamp_of_date s) (Timestamp_of_date e) l h = (res, h')
    ∧ h ⊆ h'
    ∧ match filter_table K s e v with
      | Ok T' => ∃ l', res = Ok l' ∧ h' !! l' = Some T'
                       ∧ (if empty v then l' = l ∧ h' = h else h !! l' = None)
      | Raise ex => res = Raise ex
      end.
Proof.
  intros Hl. unfold filter_entry, filter_table, mbind, M_bind, Stmt.bind.
  rewrite (deref_live _ _ _ Hl).
  destruct (empty v) eqn:HE.
  { eexists _, _. split; [reflexivity|]. split; [done|]. exists l. done. }
  destruct (keyword_stage_refines K h l v Hl) as (res1 & h1 & Heq1 & Hsub1 & H1).
  rewrite Heq1. unfold result_bind, rbind.
  destruct (keyword_filter K v) as [v1|ex].
  2:{ subst res1. eexists _, _. split; [reflexivity|]. done. }
  destruct H1 as (l1 & -> & Hl1 & [Hfresh1|[? _]]); [|done].
  destruct (date_stage_refines (Timestamp_of_date s) (Timestamp_of_date e) h1 l1 v1 Hl1)
    as (res2 & h2 & Heq2 & Hsub2 & H2).
  rewrite Heq2.
  eexists _, _. split; [reflexivity|]. split; [by etrans|].
  destruct (date_filter _ _ v1) as [v2|ex]; [|done].
  destruct H2 as (l2 & -> & Hl2 & Hcase). exists l2. split; [done|]. split; [done|].
  destruct Hcase as [Hfresh2|(_ & -> & ->)]; [|done].
  by eapply lookup_extends_None.
Qed.

End StoreFacts.

Section DictFacts.

Context {V : Type}.
Implicit Types (d : dict V) (k : string) (v : V).

Lemma elem_of_dict_set d k v k' v' :
  (k', v') ∈ dict_set d k v → (k', v') = (k, v) ∨ (k', v') ∈ d.
Proof.
  induction d as [|[k0 v0] d IH]; simpl.
  - intros ->%list_elem_of_singleton. by left.
  - destruct (String.eqb_spec k0 k) as [->|Hne].
    + intros [->|H]%elem_of_cons; [by left|]. right. apply elem_of_cons. by right.
    + intros [->|H]%elem_of_cons; [right; apply elem_of_cons; by left|].
      destruct (IH H) as [?|?]; [by left|]. right. apply elem_of_cons. by right.
Qed.

Lemma dict_get_set_eq d k v : dict_get (dict_set d k v) k = Some v.
Proof.
  induction d as [|[k0 v0] d IH]; simpl.
  - by rewrite String.eqb_refl.
  - destruct (String.eqb_spec k0 k) as [->|Hne]; simpl.
    + by rewrite String.eqb_refl.
    + apply String.eqb_neq in Hne. by rewrite Hne.
Qed.

Lemma dict_get_set_is_Some d k v k' :
  is_Some (dict_get d k') → is_Some (dict_get (dict_set d k v) k').
Proof.
  induction d as [|[k0 v0] d IH]; simpl; [by intros [? ?]|].
  destruct (String.eqb_spec k0 k) as [->|Hne]; simpl.
  - by destruct (String.eqb k k').
  - destruct (String.eqb k0 k'); [done|exact IH].
Qed.

End DictFacts.

Lemma for_each_cons {S A X} (x : X) (xs : list X) (body : X → A → Stmt.M S A)
    (acc : A) (st : S) :
  Stmt.for_each (x :: xs) body acc st
  = match body x acc st with
    | (Ok a, st') => Stmt.for_each xs body a st'
    | (Raise ex, st') => (Raise ex, st')
    end.
Proof. reflexivity. Qed.

Section StoreTheorems.

Implicit Types (h : store) (l : ref) (data : dict ref) (K : list string) (s e : Date).

Lemma derived_mono K s e h0 data hf hf' key l' :
  hf ⊆ hf' → derived K s e h0 data hf key l' → derived K s e h0 data hf' key l'.
Proof.
  intros Hsub (l & v & Hin & Hl & H). exists l, v. split; [done|]. split; [done|].
  destruct (empty v); [done|]. destruct H as (Hf & T' & HT & Hl').
  split; [done|]. exists T'. split; [done|]. by eapply lookup_weaken.
Qed.

Lemma filter_loop_spec K s e h0 data_all :
  (∀ key l, (key, l) ∈ data_all → is_Some (h0 !! l)) →
  ∀ data acc h,
    (∀ x, x ∈ data → x ∈ data_all) →
    h0 ⊆ h →
    (∀ key l', (key, l') ∈ acc → derived K s e h0 data_all h key l') →
    ∃ res h',
      Stmt.for_each data
        (λ '(key, df) filtered,
           df_sub ← filter_entry K (Timestamp_of_date s) (Timestamp_of_date e) df;
           mret (dict_set filtered key df_sub))
        acc h = (res, h')
      ∧ h ⊆ h'
      ∧ ∀ filtered, res = Ok filtered →
          (∀ key l', (key, l') ∈ filtered → derived K s e h0 data_all h' key l')
          ∧ (∀ key, is_Some (dict_get acc key) ∨ key ∈ data.*1 →
                    is_Some (dict_get filtered key)).
Proof.
  intros Hlive data. set (body := λ '(key, df) filtered, _).
  induction data as [|[key l] data IH]; intros acc h Hsubl Hsub Hacc.
  - simpl. unfold Stmt.ret. eexists _, _. split; [reflexivity|]. split; [done|].
    intros filtered [= <-]. split; [exact Hacc|].
    intros key [H|H]; [done|]. by apply elem_of_nil in H.
  - rewrite for_each_cons.
    assert ((key, l) ∈ data_all) as Hin by (apply Hsubl, elem_of_cons; by left).
    destruct (Hlive key l Hin) as [v Hv0].
    assert (h !! l = Some v) as Hv by (by eapply lookup_weaken).
    destruct (filter_entry_refines K s e h l v Hv) as (res1 & h1 & Heq & Hsub1 & H1).
    assert (body (key, l) acc h
            = match res1 with
              | Ok l' => (Ok (dict_set acc key l'), h1)
              | Raise ex => (Raise ex, h1)
              end) as ->.
    { unfold body, mbind, M_bind, Stmt.bind. rewrite Heq. by destruct res1. }
    destruct (filter_table K s e v) as [T'|ex] eqn:HT.
    2:{ subst res1. eexists _, _. split; [reflexivity|]. split; [done|].
        intros filtered [=]. }
    destruct H1 as (l' & -> & Hl' & Hcase).
    destruct (IH (dict_set acc key l') h1) as (res & h' & Hloop & Hsub' & Hres).
    + intros x Hx. apply Hsubl, elem_of_cons. by right.
    + by etrans.
    + intros key' l'' [[= -> ->]|Hold]%elem_of_dict_set.
      * exists l, v. split; [done|]. split; [done|].
        destruct (empty v); [tauto|]. split; [by eapply lookup_extends_None|eauto].
      * eapply derived_mono; [exact Hsub1|]. by apply Hacc.
    + rewrite Hloop. eexists _, _. split; [reflexivity|]. split; [by etrans|].
      intros filtered Hf. destruct (Hres filtered Hf) as [Hd Hk]. split; [exact Hd|].
      intros key' [Hk'|Hk']; apply Hk.
      * left. by apply dict_get_set_is_Some.
      * rewrite fmap_cons in Hk'. apply elem_of_cons in Hk' as [->|Hk'].
        -- left. rewrite dict_get_set_eq. eauto.
        -- by right.
Qed.

(** C4, as amended. [filter_data] leaves every frame of the store as it
    was (the store only grows), whether it returns or raises. Each entry
    of the result comes from the entry of [data] with its key: for an
    empty input frame it is the very reference of the input, the same
    object; for any other it is a reference that was not allocated
    before, holding the filtered frame, so that updating the object
    behind it changes no frame that was in the store before. *)
Theorem filter_data_frame_effect data K s e h :
  (∀ key l, (key, l) ∈ data → is_Some (h !! l)) →
  ∃ res h',
    filter_data data K s e h = (res, h')
    ∧ h ⊆ h'
    ∧ ∀ filtered, res = Ok filtered →
        (∀ key, key ∈ data.*1 → is_Some (dict_get filtered key))
        ∧ ∀ key l', (key, l') ∈ filtered →
            ∃ l v, (key, l) ∈ data ∧ h !! l = Some v
                   ∧ if empty v then l' = l
                     else h !! l' = None
                          ∧ (∃ T', filter_table K s e v = Ok T' ∧ h' !! l' = Some T')
                          ∧ ∀ x l0, is_Some (h !! l0) → <[l' := x]> h' !! l0 = h !! l0.
Proof.
  intros Hlive. unfold filter_data.
  destruct (filter_loop_spec K s e h data Hlive data [] h) as (res & h' & Heq & Hsub & Hres).
  - done.
  - done.
  - intros key l' H. by apply elem_of_nil in H.
  - exists res, h'. split; [exact Heq|]. split; [exact Hsub|].
    intros filtered Hf. destruct (Hres filtered Hf) as [Hd Hk]. split.
    + intros key Hkey. apply Hk. by right.
    + intros key l' Hin. destruct (Hd key l' Hin) as (l & v & Hl & Hv & Hcase).
      exists l, v. split; [done|]. split; [done|].
      destruct (empty v); [done|]. destruct Hcase as (Hfresh & HT).
      split; [done|]. split; [done|].
      intros x l0 [w Hw]. rewrite lookup_insert_ne by congruence.
      rewrite Hw. by eapply lookup_weaken.
Qed.

End StoreTheorems.

(** C4 as stated fails for an empty table: the entry of the result is
    the reference of the input, not a copy. *)
Lemma empty_table_is_aliased :
  ¬ (∀ data K s e (h : store) filtered h' key l l',
       filter_data data K s e h = (Ok filtered, h') →
       (key, l) ∈ data → is_Some (h !! l) → (key, l') ∈ filtered → l' ≠ l).
Proof.
  intros H.
  apply (H [("news", 1%positive)] [] Examples.jan01 Examples.jan29
           {[1%positive := DataFrame_new]} [("news", 1%positive)]
           {[1%positive := DataFrame_new]} "news" 1%positive 1%positive).
  - reflexivity.
  - apply elem_of_cons. by left.
  - rewrite lookup_singleton_eq. eauto.
  - apply elem_of_cons. by left.
  - reflexivity.
Qed.

(** ** The theorems at concrete inputs *)

(** What [load_all_data] gives on [Disk]: the trend file with the bad
    period and the unreadable blog file are reported and leave no row;
    the trend file without [period] and the good one give three rows;
    the blog file gives its two rows, the second with a null date. *)
Example load_all_data_on_disk :
  ∃ trend blog,
    load_all_data Disk.script_dir Disk.glob Disk.read_csv Disk.parse_column []
    = (Ok [("trend", trend); ("blog", blog); ("news", DataFrame_new)],
       ["Error loading /app/data/datalab/trend_netflix_20240101.csv: time data could not be parsed";
        "Error loading /app/data/blog/blog_review_tving_20240101.csv: No such file or directory"])
    ∧ columns trend = ["ratio"; "keyword"; "period"; "date"]
    ∧ get "keyword" <$> rows trend = [CStr "disney"; CStr "wavve"; CStr "wavve"]
    ∧ get "date" <$> rows trend
      = [CNull; CTs (Timestamp_of_date Examples.jan01); CTs (Timestamp_of_date Examples.jan15)]
    ∧ get "postdate" <$> rows blog = [CStr "20240115"; CStr "invalid"]
    ∧ get "date" <$> rows blog = [CTs (Timestamp_of_date Examples.jan15); CNull].
Proof.
  eexists _, _. split; [vm_compute; reflexivity|].
  repeat split; vm_compute; reflexivity.
Qed.

Lemma ingestion_recovers_witness :
  (∃ data out',
     load_all_data Disk.script_dir Disk.glob Disk.read_csv Disk.parse_column []
     = (Ok data, out'))
  ∧ ((length (tokens Disk.trend_short) < 3)%nat →
     ∀ fs1 fs2 out,
       (load_loop (body_of Disk.read_csv Disk.parse_column Trend)
          (fs1 ++ Disk.trend_short :: fs2) out).1
       = (load_loop (body_of Disk.read_csv Disk.parse_column Trend) (fs1 ++ fs2) out).1)
  ∧ body_of Disk.read_csv Disk.parse_column Blog Disk.blog_gone
    = Raise (OSError "No such file or directory")
  ∧ body_of Disk.read_csv Disk.parse_column Trend Disk.trend_disney
    = Ok (Some (tagged Trend Disk.trend_disney Disk.trend_disney_csv)).
Proof.
  destruct (ingestion_recovers Disk.script_dir Disk.glob Disk.read_csv Disk.parse_column)
    as (H1 & _ & H3 & H4 & H5).
  split; [exact (H1 [])|]. split; [|split].
  - intros Hlen. apply H3. by left.
  - apply H4; [vm_compute; lia|reflexivity].
  - apply H5; [vm_compute; lia|reflexivity|reflexivity].
Defined.

Lemma ingested_rows_have_keyword_witness :
  ∃ data out',
    load_all_data Disk.script_dir Disk.glob Disk.read_csv Disk.parse_column []
    = (Ok data, out')
    ∧ ∀ key T, (key, T) ∈ data →
        (∀ r, r ∈ rows T → ∃ k, r.2 !! "keyword" = Some (CStr k))
        ∧ (rows T ≠ [] → has_column "keyword" T = true)
        ∧ (∀ K, empty T = false → ∃ T1, keyword_filter K T = Ok T1).
Proof.
  exact (ingested_rows_have_keyword Disk.script_dir Disk.glob Disk.read_csv
           Disk.parse_column []).
Defined.

Lemma blog_postdate_format_witness :
  Disk.blog_netflix ∈ files_of Disk.script_dir Disk.glob Blog
  ∧ (3 ≤ length (tokens Disk.blog_netflix))%nat
  ∧ Disk.read_csv Disk.blog_netflix = Ok Disk.blog_netflix_csv
  ∧ has_column "postdate" Disk.blog_netflix_csv = true
  ∧ coerced parse_Ymd (CStr "20240115") = CTs (Timestamp_of_date (mkDate 2024 1 15))
  ∧ coerced parse_Ymd (CStr "invalid") = CNull
  ∧ (∀ d, calendar_date d → 1678 ≤ year d ≤ 2261 →
          coerced parse_Ymd (CStr (yyyymmdd d)) = CTs (Timestamp_of_date d))
  ∧ coerced parse_Ymd (CStr "2024115") = CTs (Timestamp_of_date (mkDate 2024 11 5))
  ∧ coerced parse_Ymd (CStr "202415") = CTs (Timestamp_of_date (mkDate 2024 1 5))
  ∧ (∀ v, coerced parse_Ymd (CStr v) = CNull
          ∨ ∃ d, coerced parse_Ymd (CStr v) = CTs (Timestamp_of_date d)
                 ∧ calendar_date d
                 ∧ (6 ≤ String.length v ≤ 8)%nat
                 ∧ Forall (λ c, token_char c = true) (String.list_ascii_of_string v))
  ∧ (∀ col, to_datetime parse_Ymd ErrorsCoerce col = Ok (coerced parse_Ymd <$> col))
  ∧ (∀ out, ∃ data out' T,
       load_all_data Disk.script_dir Disk.glob Disk.read_csv Disk.parse_column out
       = (Ok data, out')
       ∧ dict_get data "blog" = Some T
       ∧ has_column "date" T = true
       ∧ ∀ r0, r0 ∈ rows Disk.blog_netflix_csv →
           ∃ r, r ∈ rows T
                ∧ get "postdate" r = get "postdate" r0
                ∧ get "date" r = coerced parse_Ymd (get "postdate" r0))
  ∧ (∀ K s e T T' r,
       has_column "date" T = true → filter_table K s e T = Ok T' →
       r ∈ rows T' → get "date" r ≠ CNull).
Proof.
  assert (Disk.blog_netflix ∈ files_of Disk.script_dir Disk.glob Blog) as H1
    by (apply list_elem_of_In; left; reflexivity).
  assert (3 ≤ length (tokens Disk.blog_netflix))%nat as H2 by (vm_compute; lia).
  split; [exact H1|]. split; [exact H2|]. split; [reflexivity|]. split; [reflexivity|].
  exact (blog_postdate_format Disk.script_dir Disk.glob Disk.read_csv Disk.parse_column
           Disk.blog_netflix Disk.blog_netflix_csv H1 H2 eq_refl eq_refl).
Defined.

(** C8 as stated fails: the format is not strict. A post date of seven
    characters, "2024115", is not turned into a null date: the row of
    the blog table is dated 5 November 2024. *)
Lemma short_postdate_is_read :
  ¬ (∀ script_dir glob read_csv parse_any f df0 out data out' T r v,
       f ∈ files_of script_dir glob Blog →
       read_csv f = Ok df0 →
       load_all_data script_dir glob read_csv parse_any out = (Ok data, out') →
       dict_get data "blog" = Some T →
       r ∈ rows T →
       get "postdate" r = CStr v →
       String.length v ≠ 8%nat →
       get "date" r = CNull).
Proof.
  intros H.
  pose (r := (1%nat, list_to_map [("postdate", CStr "2024115"); ("title", CStr "seven");
                                  ("keyword", CStr "disney");
                                  ("date", CTs (Timestamp_of_date (mkDate 2024 11 5)))])
             : nat * row).
  assert (get "date" r = CNull) as Hnull.
  { eapply (H Archive.script_dir Archive.glob Archive.read_csv Archive.parse_column
              Archive.blog_short_dates Archive.blog_short_dates_csv [] _ _ _ r "2024115").
    - apply list_elem_of_In. right. left. reflexivity.
    - reflexivity.
    - vm_compute. reflexivity.
    - vm_compute. reflexivity.
    - apply list_elem_of_In. right. left. reflexivity.
    - reflexivity.
    - discriminate. }
  vm_compute in Hnull. discriminate Hnull.
Qed.

Lemma filter_data_frame_effect_witness :
  let data := [("trend", 1%positive); ("news", 2%positive)] in
  let h : store := {[1%positive := Examples.trend_table; 2%positive := DataFrame_new]} in
  (∀ key l, (key, l) ∈ data → is_Some (h !! l))
  ∧ ∃ res h',
      filter_data data ["A"] Examples.jan01 Examples.jan29 h = (res, h')
      ∧ h ⊆ h'
      ∧ ∀ filtered, res = Ok filtered →
          (∀ key, key ∈ data.*1 → is_Some (dict_get filtered key))
          ∧ ∀ key l', (key, l') ∈ filtered →
              ∃ l v, (key, l) ∈ data ∧ h !! l = Some v
                     ∧ if empty v then l' = l
                       else h !! l' = None
                            ∧ (∃ T', filter_table ["A"] Examples.jan01 Examples.jan29 v = Ok T'
                                     ∧ h' !! l' = Some T')
                            ∧ ∀ x l0, is_Some (h !! l0) → <[l' := x]> h' !! l0 = h !! l0.
Proof.
  intros data h.
  assert (∀ key l, (key, l) ∈ data → is_Some (h !! l)) as Hlive.
  { intros key l Hin. unfold data in Hin.
    repeat (apply elem_of_cons in Hin as [Hin|Hin]; [injection Hin as -> ->; by eexists|]).
    by apply elem_of_nil in Hin. }
  split; [exact Hlive|].
  exact (filter_data_frame_effect data ["A"] Examples.jan01 Examples.jan29 h Hlive).
Defined.

(** * Further properties *)

(** ** Order of dates and timestamps *)

Section OrderFacts.

Implicit Types (a b c : Date) (t u v : Timestamp).

Lemma date_compare_spec a b :
  CompareSpec (date_same a b) (date_lt a b) (date_lt b a) (date_compare a b).
Proof.
  unfold date_compare, date_same, date_lt.
  destruct (Z.compare_spec (year a) (year b));
    [destruct (Z.compare_spec (month a) (month b));
       [destruct (Z.compare_spec (day a) (day b))|..]|..];
    constructor; lia.
Qed.

Lemma date_leb_iff a b : date_leb a b = true ↔ date_lt a b ∨ date_same a b.
Proof.
  unfold date_leb. destruct (date_compare_spec a b) as [H|H|H];
    unfold date_lt, date_same in *; split; (discriminate || lia || tauto).
Qed.

Lemma date_leb_false_iff a b : date_leb a b = false ↔ date_lt b a.
Proof.
  unfold date_leb. destruct (date_compare_spec a b) as [H|H|H];
    unfold date_lt, date_same in *; split; (discriminate || lia || tauto).
Qed.

Lemma ts_leb_iff t u :
  ts_leb t u = true ↔
  date_lt (ts_date t) (ts_date u)
  ∨ (date_same (ts_date t) (ts_date u) ∧ ts_nanos t ≤ ts_nanos u).
Proof.
  unfold ts_leb, ts_compare.
  destruct (date_compare_spec (ts_date t) (ts_date u)) as [H|H|H];
    [destruct (Z.compare_spec (ts_nanos t) (ts_nanos u))|..];
    unfold date_lt, date_same in *; split; (discriminate || lia || tauto).
Qed.

Lemma ts_leb_trans t u v :
  ts_leb t u = true → ts_leb u v = true → ts_leb t v = true.
Proof. rewrite !ts_leb_iff. unfold date_lt, date_same. lia. Qed.

Lemma midnight_leb s e :
  ts_leb (Timestamp_of_date s) (Timestamp_of_date e) = date_leb s e.
Proof.
  unfold ts_leb, ts_compare, date_leb. simpl.
  by destruct (date_compare s e).
Qed.

Lemma midnight_leb_l s t :
  ts_nanos t = 0 → ts_leb (Timestamp_of_date s) t = date_leb s (ts_date t).
Proof.
  intros Hn. unfold ts_leb, ts_compare, date_leb. simpl. rewrite Hn.
  by destruct (date_compare s (ts_date t)).
Qed.

Lemma midnight_leb_r t e :
  ts_nanos t = 0 → ts_leb t (Timestamp_of_date e) = date_leb (ts_date t) e.
Proof.
  intros Hn. unfold ts_leb, ts_compare, date_leb. simpl. rewrite Hn.
  by destruct (date_compare (ts_date t) e).
Qed.

End OrderFacts.

(** ** More on the filter *)

Section FilterMore.

Implicit Types (K : list string) (T : DataFrame) (r : nat * row) (s e : Date).

Lemma sublist_List_filter {X} (p : X → bool) (l : list X) :
  sublist (List.filter p l) l.
Proof.
  induction l as [|x l IH]; simpl; [constructor|].
  destruct (p x); by constructor.
Qed.

Lemma series_cmp_Raise op ts cs ex :
  series_map (cmp_cell op ts) cs = Raise ex → ∃ msg, ex = TypeError msg.
Proof.
  induction cs as [|c cs IH]; simpl; [discriminate|]. unfold_result.
  destruct (cmp_cell op ts c) as [b|ex'] eqn:Hc.
  - destruct (series_map (cmp_cell op ts) cs); [discriminate|].
    intros [= <-]. by apply IH.
  - intros [= <-]. unfold cmp_cell in Hc.
    destruct c as [| | |t]; try discriminate; try (injection Hc as <-; eauto).
    destruct (ts_tz t); [injection Hc as <-; eauto|discriminate].
Qed.

Lemma eta_rows T l : rows T = l → {| columns := columns T; rows := l |} = T.
Proof. intros <-. apply frame_eta. Qed.

(** Filtering neither adds nor reorders nor rewrites: the result has the
    columns of the table and a sublist of its rows, index labels
    included. *)
Theorem filter_table_keeps_shape K s e T T' :
  filter_table K s e T = Ok T' →
  columns T' = columns T ∧ sublist (rows T') (rows T).
Proof.
  intros H. destruct (empty T) eqn:HT.
  - rewrite filter_table_empty in H by exact HT. by injection H as <-.
  - apply filter_table_Ok in H as [_ ->]; [|exact HT]. cbn [rows columns].
    split; [reflexivity|apply sublist_List_filter].
Qed.

Lemma filter_table_Raise K s e T ex :
  filter_table K s e T = Raise ex →
  (ex = KeyError "keyword" ∧ K ≠ [] ∧ has_column "keyword" T = false)
  ∨ ∃ msg, ex = TypeError msg.
Proof.
  unfold filter_table. destruct (empty T); [discriminate|].
  unfold_result. destruct (keyword_filter K T) as [T1|ex1] eqn:H1.
  - unfold date_filter. destruct (has_column "date" T1) eqn:Hd; [|discriminate].
    rewrite (column_dropna _ _ Hd). unfold_result.
    destruct (series_ge _ _) as [ge|ex2] eqn:Hge.
    + destruct (series_le _ _) as [le|ex3] eqn:Hle; [discriminate|].
      intros [= <-]. right. by eapply series_cmp_Raise.
    + intros [= <-]. right. by eapply series_cmp_Raise.
  - intros [= <-]. left. unfold keyword_filter, column in H1.
    destruct K; [discriminate|].
    destruct (has_column "keyword" T); [discriminate|]. by injection H1 as <-.
Qed.

(** What [filter_table] raises, and tables on which it returns. It
    raises nothing but [KeyError('keyword')] and [TypeError]: the first
    on a table with rows that lacks the keyword column when keywords
    are given, the second where a row that passes the keyword test has
    a date that is neither null nor a naive timestamp (a string, a
    number, a timestamp with an offset). It returns on a table that has
    the keyword column (if keywords are given) and either no [date]
    column, or dates that are all null or naive timestamps and hold at
    least one timestamp. *)
Theorem filter_table_raises_only K s e T :
  (∀ ex, filter_table K s e T = Raise ex →
       ex = KeyError "keyword" ∨ ∃ msg, ex = TypeError msg)
  ∧ (empty T = false → K ≠ [] → has_column "keyword" T = false →
     filter_table K s e T = Raise (KeyError "keyword"))
  ∧ (empty T = false → (K ≠ [] → has_column "keyword" T = true) →
     has_column "date" T = true →
     (∃ r, r ∈ rows T ∧ kw_pass K r = true ∧ comparable (get "date" r) = false) →
     ∃ msg, filter_table K s e T = Raise (TypeError msg))
  ∧ ((K ≠ [] → has_column "keyword" T = true) →
     has_column "date" T = false
     ∨ (dates_comparable (rows T) ∧ ∃ r t, r ∈ rows T ∧ get "date" r = CTs t) →
     ∃ T', filter_table K s e T = Ok T').
Proof.
  split; [|split; [|split]].
  - intros ex [(-> & _)|H]%filter_table_Raise; [by left|by right].
  - intros HT HK Hc. unfold filter_table, keyword_filter, column.
    rewrite HT, Hc. by destruct K.
  - intros HT HK Hd (r & Hr & Hkw & Hcmp).
    destruct (filter_table K s e T) as [T'|ex] eqn:H.
    + apply filter_table_Ok in H as [[_ Hc] _]; [|exact HT].
      specialize (Hc Hd). unfold dates_comparable in Hc.
      rewrite Forall_forall in Hc.
      rewrite Hc in Hcmp; [discriminate|].
      apply list_elem_of_In, filter_In. split; [by apply list_elem_of_In|exact Hkw].
    + apply filter_table_Raise in H as [(_ & HK' & Hk)|[msg ->]]; [|by exists msg].
      rewrite (HK HK') in Hk. discriminate.
  - intros HK Hdates.
    destruct (empty T) eqn:HT; [exists T; by apply filter_table_empty|].
    eexists. apply filter_table_total; [exact HT|]. split; [exact HK|].
    intros Hd. destruct Hdates as [Hnd|[Hc _]]; [congruence|].
    unfold dates_comparable in *. rewrite Forall_forall in Hc.
    apply Forall_forall. intros r [Hr _]%list_elem_of_In%filter_In.
    by apply Hc, list_elem_of_In.
Qed.

(** Widening the date interval keeps every row that was kept, and does
    not change whether [filter_table] returns. *)
Theorem filter_table_interval_mono K s e s' e' T T' :
  date_leb s' s = true → date_leb e e' = true →
  filter_table K s e T = Ok T' →
  ∃ T'', filter_table K s' e' T = Ok T'' ∧ ∀ r, r ∈ rows T' → r ∈ rows T''.
Proof.
  intros Hs He H. destruct (empty T) eqn:HT.
  { rewrite filter_table_empty in H |- * by exact HT. injection H as <-. eauto. }
  apply filter_table_Ok in H as [HF ->]; [|exact HT].
  rewrite (filter_table_total _ s' e' _ HT HF). eexists. split; [reflexivity|].
  cbn [rows]. intros r. rewrite !list_elem_of_In, !filter_In.
  intros [Hr Hp]. split; [exact Hr|].
  unfold row_pass in *. apply andb_true_iff in Hp as [Hkw Hin].
  rewrite Hkw. simpl. destruct (has_column "date" T); [|done].
  apply in_range_inv in Hin as (t & -> & Hlo & Hhi). simpl.
  rewrite <- midnight_leb in Hs, He.
  by rewrite (ts_leb_trans _ _ _ Hs Hlo), (ts_leb_trans _ _ _ Hhi He).
Qed.

(** An interval whose end lies before its start keeps no row of a table
    with a [date] column. *)
Theorem filter_table_inverted_interval K s e T T' :
  date_leb s e = false →
  has_column "date" T = true →
  filter_table K s e T = Ok T' →
  rows T' = [].
Proof.
  intros Hse Hd H. destruct (rows T') as [|r l] eqn:Hrows; [reflexivity|].
  destruct (filtered_row_dated K s e T T' r Hd H) as (_ & t & _ & _ & Hlo & Hhi).
  { rewrite Hrows. apply elem_of_cons. by left. }
  pose proof (ts_leb_trans _ _ _ Hlo Hhi) as Hle.
  rewrite midnight_leb in Hle. congruence.
Qed.

Lemma isin_mono K K' c :
  (∀ k, k ∈ K → k ∈ K') → isin K c = true → isin K' c = true.
Proof.
  intros Hsub. destruct c as [|k| |]; simpl; try discriminate.
  intros (k' & Hin & Heq)%existsb_exists. apply existsb_exists.
  exists k'. split; [|exact Heq]. by apply list_elem_of_In, Hsub, list_elem_of_In.
Qed.

(** Selecting more keywords keeps every row that was kept. *)
Theorem filter_table_keyword_mono K K' s e T T' T'' :
  K ≠ [] → (∀ k, k ∈ K → k ∈ K') →
  filter_table K s e T = Ok T' →
  filter_table K' s e T = Ok T'' →
  ∀ r, r ∈ rows T' → r ∈ rows T''.
Proof.
  intros HK Hsub H H'. destruct (empty T) eqn:HT.
  { rewrite filter_table_empty in H, H' by exact HT. congruence. }
  apply filter_table_Ok in H as [_ ->]; [|exact HT].
  apply filter_table_Ok in H' as [_ ->]; [|exact HT].
  cbn [rows]. intros r. rewrite !list_elem_of_In, !filter_In.
  intros [Hr Hp]. split; [exact Hr|].
  unfold row_pass in *. apply andb_true_iff in Hp as [Hkw ->].
  rewrite andb_true_r. destruct K as [|k0 K0]; [done|].
  destruct K' as [|k1 K1].
  { specialize (Hsub k0). rewrite elem_of_cons in Hsub.
    exfalso. eapply elem_of_nil, Hsub. by left. }
  unfold kw_pass in *. by eapply isin_mono.
Qed.

(** On a table whose dates are null or naive timestamps at midnight, as
    the blog loop and daily trend files give them, and hold at least
    one timestamp (so that the column is a column of timestamps, not of
    numbers), the date test is the test by calendar date, inclusive at
    both ends: [filter_table] returns, and keeps exactly the rows that
    pass the keyword test and whose day lies between the start day and
    the end day. *)
Theorem filter_table_midnight_inclusive K s e T :
  has_column "date" T = true →
  (K ≠ [] → has_column "keyword" T = true) →
  Forall (λ r, midnight_or_null (get "date" r) = true) (rows T) →
  (∃ r t, r ∈ rows T ∧ get "date" r = CTs t) →
  filter_table K s e T
  = Ok {| columns := columns T;
          rows := List.filter (λ r, kw_pass K r && date_in s e (get "date" r))
                    (rows T) |}.
Proof.
  intros Hd HK Hmid (r1 & t1 & Hr1 & _). destruct (empty T) eqn:HT.
  { rewrite (empty_with_column _ _ HT Hd) in Hr1. by apply elem_of_nil in Hr1. }
  rewrite filter_table_total; [|exact HT|].
  - f_equal. f_equal. rewrite Hd. apply filter_ext_in.
    intros r Hr. unfold row_pass. f_equal. rewrite Forall_forall in Hmid.
    specialize (Hmid r ltac:(by apply list_elem_of_In)).
    unfold in_range, date_in. destruct (get "date" r) as [| | |t]; try done.
    simpl in Hmid. destruct (ts_tz t); [discriminate|].
    apply Z.eqb_eq in Hmid.
    by rewrite (midnight_leb_l _ _ Hmid), (midnight_leb_r _ _ Hmid).
  - split; [exact HK|]. intros _. unfold dates_comparable.
    apply Forall_forall. intros r [Hr _]%list_elem_of_In%filter_In.
    rewrite Forall_forall in Hmid.
    specialize (Hmid r ltac:(by apply list_elem_of_In)).
    unfold comparable. destruct (get "date" r) as [| | |t]; try done.
    simpl in Hmid. by destruct (ts_tz t).
Qed.

End FilterMore.

(** ** More on [filter_data] *)

Section StoreMore.

Implicit Types (h : store) (l : ref) (data : dict ref) (K : list string) (s e : Date).

Lemma dict_set_new_key {V} (d : dict V) (k : string) (v : V) :
  k ∉ d.*1 → (dict_set d k v).*1 = (d.*1 ++ [k])%list.
Proof.
  induction d as [|[k0 v0] d IH]; simpl; [reflexivity|].
  intros Hk. apply not_elem_of_cons in Hk as [Hne Hk].
  destruct (String.eqb_spec k0 k) as [->|_]; [done|].
  simpl. f_equal. by apply IH.
Qed.

Lemma filter_body_step K s e key l (acc : dict ref) h :
  (let '(key, df) := (key, l) in
   λ filtered : dict ref,
     df_sub ← filter_entry K (Timestamp_of_date s) (Timestamp_of_date e) df;
     mret (dict_set filtered key df_sub)) acc h
  = match filter_entry K (Timestamp_of_date s) (Timestamp_of_date e) l h with
    | (Ok l', h1) => (Ok (dict_set acc key l'), h1)
    | (Raise ex, h1) => (Raise ex, h1)
    end.
Proof.
  unfold mbind, M_bind, Stmt.bind.
  by destruct (filter_entry _ _ _ l h) as [[l'|ex] h1].
Qed.

Lemma filter_loop_keys K s e data :
  ∀ (acc : dict ref) h filtered h',
    NoDup (acc.*1 ++ data.*1)%list →
    Stmt.for_each data
      (λ '(key, df) filtered,
         df_sub ← filter_entry K (Timestamp_of_date s) (Timestamp_of_date e) df;
         mret (dict_set filtered key df_sub))
      acc h = (Ok filtered, h') →
    filtered.*1 = (acc.*1 ++ data.*1)%list.
Proof.
  induction data as [|[key l] data IH]; intros acc h filtered h' Hnd H.
  - simpl in H. injection H as <- <-. simpl. by rewrite app_nil_r.
  - rewrite for_each_cons, filter_body_step in H.
    destruct (filter_entry _ _ _ l h) as [[l'|ex] h1]; [|discriminate].
    rewrite fmap_cons in Hnd. cbn [fst] in Hnd.
    assert (key ∉ acc.*1) as Hkey.
    { apply NoDup_app in Hnd as (_ & Hdis & _). intros Hin.
      apply (Hdis key Hin). apply elem_of_cons. by left. }
    apply IH in H.
    + rewrite H, dict_set_new_key by exact Hkey.
      rewrite fmap_cons. cbn [fst]. by rewrite <- app_assoc.
    + rewrite dict_set_new_key by exact Hkey. rewrite <- app_assoc. exact Hnd.
Qed.

(** The result of [filter_data] has the keys of [data], in the same
    order: one filtered table for each table given, so reading
    ['trend'], ['blog'] and ['news'] back from it cannot fail. *)
Theorem filter_data_keeps_keys data K s e h filtered h' :
  NoDup data.*1 →
  filter_data data K s e h = (Ok filtered, h') →
  filtered.*1 = data.*1
  ∧ ∀ key, key ∈ data.*1 → ∃ l', dict_getitem filtered key = Ok l'.
Proof.
  intros Hnd H. unfold filter_data in H.
  apply (filter_loop_keys K s e data [] h filtered h' Hnd) in H. simpl in H.
  split; [exact H|]. intros key Hkey. rewrite <- H in Hkey. clear H.
  unfold dict_getitem. induction filtered as [|[k0 v0] d IH]; simpl.
  - by apply elem_of_nil in Hkey.
  - destruct (String.eqb_spec k0 key) as [->|Hne]; [eauto|].
    apply IH. rewrite fmap_cons in Hkey.
    apply elem_of_cons in Hkey as [Hk|Hk]; [|exact Hk]. simpl in Hk. congruence.
Qed.

Lemma filter_loop_returns K s e h0 data :
  ∀ (acc : dict ref) h,
    h0 ⊆ h →
    (∀ key l, (key, l) ∈ data → is_Some (h0 !! l)) →
    ((∃ filtered h',
        Stmt.for_each data
          (λ '(key, df) filtered,
             df_sub ← filter_entry K (Timestamp_of_date s) (Timestamp_of_date e) df;
             mret (dict_set filtered key df_sub))
          acc h = (Ok filtered, h'))
     ↔ ∀ key l v, (key, l) ∈ data → h0 !! l = Some v →
                  ∃ T', filter_table K s e v = Ok T').
Proof.
  induction data as [|[key l] data IH]; intros acc h Hsub Hlive.
  - split; [|simpl; eauto]. intros _ key l v Hin. by apply elem_of_nil in Hin.
  - destruct (Hlive key l) as [v Hv0]; [apply elem_of_cons; by left|].
    assert (h !! l = Some v) as Hv by (by eapply lookup_weaken).
    destruct (filter_entry_refines K s e h l v Hv) as (res1 & h1 & Heq & Hsub1 & H1).
    rewrite for_each_cons, filter_body_step, Heq.
    assert (∀ key' l', (key', l') ∈ data → is_Some (h0 !! l')) as Hlive'
      by (intros key' l' Hin'; apply (Hlive key' l'), elem_of_cons; by right).
    destruct (filter_table K s e v) as [T'|ex] eqn:HT.
    + destruct H1 as (l' & -> & _).
      rewrite (IH (dict_set acc key l') h1 ltac:(by etrans) Hlive').
      split.
      * intros Hall key' l'' v' [[= -> ->]|Hin]%elem_of_cons Hv'.
        -- rewrite Hv0 in Hv'. injection Hv' as <-. eauto.
        -- by eapply Hall.
      * intros Hall key' l'' v' Hin. apply (Hall key' l'' v'), elem_of_cons. by right.
    + subst res1. split.
      * intros (filtered & h' & [=]).
      * intros Hall. destruct (Hall key l v) as [T' HT']; [apply elem_of_cons; by left|done|].
        congruence.
Qed.

(** [filter_data] is all or nothing: it returns exactly when
    [filter_table] returns on every table of [data]; one table on which
    the filter raises leaves the caller without any filtered table. *)
Theorem filter_data_all_or_nothing data K s e h :
  (∀ key l, (key, l) ∈ data → is_Some (h !! l)) →
  ((∃ filtered h', filter_data data K s e h = (Ok filtered, h'))
   ↔ ∀ key l v, (key, l) ∈ data → h !! l = Some v →
                ∃ T', filter_table K s e v = Ok T').
Proof.
  intros Hlive. unfold filter_data.
  by apply (filter_loop_returns K s e h data [] h).
Qed.

End StoreMore.

(** ** More on the loader *)

Section LoaderMore.

Variable script_dir : string.
Variable glob : string → list string.
Variable read_csv : string → result DataFrame.
Variable parse_any : list cell → cell → conv.

Lemma table_of_category (c : category) (out : stdout) :
  ∃ data out',
    load_all_data script_dir glob read_csv parse_any out = (Ok data, out')
    ∧ dict_get data (key_of c)
      = Some (merged (frames_of script_dir glob read_csv parse_any c))
    ∧ out' = (out ++ errors_of script_dir glob read_csv parse_any Trend
                  ++ errors_of script_dir glob read_csv parse_any Blog
                  ++ errors_of script_dir glob read_csv parse_any News)%list.
Proof.
  eexists _, _. split; [apply load_all_data_spec|]. split; [|reflexivity].
  by destruct c.
Qed.

Lemma get_index_irrelevant col (i : nat) (m : row) :
  get col (i, m) = default CNull (m !! col).
Proof. reflexivity. Qed.

Lemma merged_column_values dfs col :
  get col <$> rows (merged dfs) = flat_map (λ df, get col <$> rows df) dfs.
Proof.
  destruct dfs as [|df0 dfs0] eqn:E; [reflexivity|]. rewrite <- E.
  unfold merged. rewrite concat_Ok by (subst; discriminate). cbn [rows].
  generalize (union_columns dfs). intros cols. clear E.
  set (rs := flat_map _ dfs).
  transitivity ((λ m : row, default CNull (m !! col)) <$> (zip (seq 0 (length rs)) rs).*2).
  { rewrite <- list_fmap_compose. apply list_fmap_ext. by intros _ [i m] _. }
  rewrite snd_zip by (by rewrite length_seq). unfold rs. clear rs.
  induction dfs as [|df dfs IH]; [reflexivity|].
  cbn [flat_map]. rewrite fmap_app, IH. f_equal.
  rewrite <- list_fmap_compose. apply list_fmap_ext. intros _ [j m] _. simpl.
  apply (get_reindex cols m 0 j col).
Qed.

Lemma merged_index dfs :
  (rows (merged dfs)).*1 = seq 0 (length (rows (merged dfs))).
Proof.
  destruct dfs as [|df0 dfs0] eqn:E; [reflexivity|]. rewrite <- E.
  unfold merged. rewrite concat_Ok by (subst; discriminate). cbn [rows].
  set (rs := flat_map _ dfs).
  rewrite length_zip_with, length_seq, Nat.min_id.
  apply fst_zip. by rewrite length_seq.
Qed.

(** The table of a category is the row-wise concatenation of the frames
    of its files, in the order [glob] lists them: every column reads,
    top to bottom, as the columns of the frames one after the other
    (null where a frame lacks the column), and the index runs from 0. *)
Theorem table_is_concatenation (c : category) (out : stdout) :
  ∃ data out' T,
    load_all_data script_dir glob read_csv parse_any out = (Ok data, out')
    ∧ dict_get data (key_of c) = Some T
    ∧ (∀ col, get col <$> rows T
              = flat_map (λ df, get col <$> rows df)
                  (frames_of script_dir glob read_csv parse_any c))
    ∧ (rows T).*1 = seq 0 (length (rows T)).
Proof.
  destruct (table_of_category c out) as (data & out' & H & HT & _).
  exists data, out', (merged (frames_of script_dir glob read_csv parse_any c)).
  split; [exact H|]. split; [exact HT|]. split.
  - intros col. apply merged_column_values.
  - apply merged_index.
Qed.

(** A category none of whose files yields a frame (no file at all, or
    only files that are skipped or fail) gets the empty frame
    [pd.DataFrame()], without columns. *)
Theorem no_frame_empty_table (c : category) (out : stdout) :
  (∀ f, f ∈ files_of script_dir glob c →
        appended (body_of read_csv parse_any c) f = []) →
  ∃ data out',
    load_all_data script_dir glob read_csv parse_any out = (Ok data, out')
    ∧ dict_get data (key_of c) = Some DataFrame_new.
Proof.
  intros Hnone.
  destruct (table_of_category c out) as (data & out' & H & HT & _).
  exists data, out'. split; [exact H|]. rewrite HT. f_equal.
  unfold frames_of.
  assert (flat_map (appended (body_of read_csv parse_any c)) (files_of script_dir glob c)
          = []) as ->; [|reflexivity].
  induction (files_of script_dir glob c) as [|f fs IH]; [reflexivity|].
  cbn [flat_map]. rewrite Hnone by (apply elem_of_cons; by left).
  apply IH. intros f' Hf'. apply Hnone, elem_of_cons. by right.
Qed.

Lemma printed_line (body : string → result (option DataFrame)) fs line :
  line ∈ flat_map (printed body) fs ↔
  ∃ f ex, f ∈ fs ∧ body f = Raise ex
          ∧ line = "Error loading " +:+ f +:+ ": " +:+ exn_str ex.
Proof.
  rewrite list_elem_of_In, in_flat_map. split.
  - intros (f & Hf & Hl). exists f. unfold printed in Hl.
    destruct (body f) as [[df|]|ex]; try (by destruct Hl).
    destruct Hl as [<-|[]]. exists ex. split; [by apply list_elem_of_In|done].
  - intros (f & ex & Hf & Hb & ->). exists f. split; [by apply list_elem_of_In|].
    unfold printed. rewrite Hb. by left.
Qed.

(** What [load_all_data] prints: the lines already there stay first, and
    a line is added exactly for each file on which the body of its loop
    raises, naming the file and the exception; files skipped for their
    name add nothing. *)
Theorem load_all_data_prints_failures (out : stdout) :
  ∃ data out' added,
    load_all_data script_dir glob read_csv parse_any out = (Ok data, out')
    ∧ out' = (out ++ added)%list
    ∧ ∀ line, line ∈ added ↔
        ∃ c f ex, f ∈ files_of script_dir glob c
                  ∧ body_of read_csv parse_any c f = Raise ex
                  ∧ line = "Error loading " +:+ f +:+ ": " +:+ exn_str ex.
Proof.
  destruct (table_of_category Trend out) as (data & out' & H & _ & Hout).
  eexists data, out', _. split; [exact H|]. split; [exact Hout|].
  intros line. rewrite !elem_of_app. unfold errors_of. rewrite !printed_line.
  split.
  - intros [(f & ex & ?)|[(f & ex & ?)|(f & ex & ?)]];
      [exists Trend|exists Blog|exists News]; eauto.
  - intros ([] & f & ex & ?); eauto 6.
Qed.

End LoaderMore.

(** ** File names and keywords *)

Section NameFacts.

Implicit Types (a sep : ascii) (s t : string).

Lemma split_nonempty sep s : split sep s ≠ [].
Proof.
  destruct s as [|c s]; simpl; [done|].
  destruct (Ascii.eqb c sep); [done|]. by destruct (split sep s).
Qed.

Lemma split_keeps_absent a sep s t :
  has_char a s = false → t ∈ split sep s → has_char a t = false.
Proof.
  revert t. induction s as [|c s IH]; intros t Ha; simpl.
  - by intros ->%list_elem_of_singleton.
  - simpl in Ha. apply orb_false_iff in Ha as [Hc Hs].
    destruct (Ascii.eqb c sep).
    + intros [->|Ht]%elem_of_cons; [done|]. by apply IH.
    + destruct (split sep s) as [|h tl] eqn:E; [by destruct (split_nonempty sep s)|].
      intros [->|Ht]%elem_of_cons.
      * simpl. rewrite Hc. simpl. apply IH; [done|]. apply elem_of_cons. by left.
      * apply IH; [done|]. apply elem_of_cons. by right.
Qed.

Lemma split_no_sep sep s t : t ∈ split sep s → has_char sep t = false.
Proof.
  revert t. induction s as [|c s IH]; intros t; simpl.
  - by intros ->%list_elem_of_singleton.
  - destruct (Ascii.eqb c sep) eqn:Hc.
    + intros [->|Ht]%elem_of_cons; [done|]. by apply IH.
    + destruct (split sep s) as [|h tl] eqn:E; [by destruct (split_nonempty sep s)|].
      intros [->|Ht]%elem_of_cons.
      * simpl. rewrite Hc. simpl. apply IH. apply elem_of_cons. by left.
      * apply IH. apply elem_of_cons. by right.
Qed.

Lemma last_elem_of {X} (l : list X) d : l ≠ [] → List.last l d ∈ l.
Proof.
  induction l as [|x l IH]; [done|]. intros _. destruct l as [|y l].
  - apply elem_of_cons. by left.
  - apply elem_of_cons. right. by apply IH.
Qed.

Lemma basename_no_slash p : has_char "/" (basename p) = false.
Proof.
  unfold basename. eapply split_no_sep, last_elem_of, split_nonempty.
Qed.

Lemma nth_elem_or_default {X} (l : list X) i d : nth i l d ∈ l ∨ nth i l d = d.
Proof.
  revert i. induction l as [|x l IH]; intros [|i]; simpl; try (by right).
  - left. apply elem_of_cons. by left.
  - destruct (IH i) as [?|?]; [left|by right]. apply elem_of_cons. by right.
Qed.

Lemma keyword_of_no_separator c f :
  has_char "_" (keyword_of c f) = false ∧ has_char "/" (keyword_of c f) = false.
Proof.
  unfold keyword_of, tokens.
  destruct (nth_elem_or_default (split "_" (basename f)) (keyword_index c) "")
    as [Hin| ->]; [|done].
  split.
  - by eapply split_no_sep.
  - eapply split_keeps_absent; [apply basename_no_slash|exact Hin].
Qed.

Lemma has_char_app a s t :
  has_char a (s +:+ t) = has_char a s || has_char a t.
Proof.
  induction s as [|c s IH]; simpl; [reflexivity|]. by rewrite IH, orb_assoc.
Qed.

Lemma split_absent sep t : has_char sep t = false → split sep t = [t].
Proof.
  induction t as [|c t IH]; simpl; [reflexivity|].
  intros [Hc Ht]%orb_false_iff. rewrite Hc, (IH Ht). reflexivity.
Qed.

(** Appending a piece without separator extends the last token. *)
Lemma split_app_last sep s t :
  has_char sep t = false →
  length (split sep (s +:+ t)) = length (split sep s)
  ∧ List.last (split sep (s +:+ t)) "" = List.last (split sep s) "" +:+ t.
Proof.
  intros Ht. induction s as [|c s [IHl IHr]].
  2: simpl.
  - change ("" +:+ t) with t. rewrite (split_absent _ _ Ht). done.
  - destruct (Ascii.eqb c sep).
    + split; [simpl; by rewrite IHl|].
      destruct (split sep (s +:+ t)) as [|h tl] eqn:E;
        [by destruct (split_nonempty sep (s +:+ t))|].
      destruct (split sep s) as [|h' tl'] eqn:E';
        [by destruct (split_nonempty sep s)|].
      exact IHr.
    + destruct (split sep (s +:+ t)) as [|h tl] eqn:E;
        [by destruct (split_nonempty sep (s +:+ t))|].
      destruct (split sep s) as [|h' tl'] eqn:E';
        [by destruct (split_nonempty sep s)|].
      split; [exact IHl|]. simpl in IHl.
      destruct tl as [|x tl], tl' as [|x' tl']; try discriminate.
      * simpl in *. by rewrite IHr.
      * exact IHr.
Qed.

End NameFacts.

Section FrameDates.

Variable script_dir : string.
Variable glob : string → list string.
Variable read_csv : string → result DataFrame.
Variable parse_any : list cell → cell → conv.

Lemma merged_row_origin dfs r :
  r ∈ rows (merged dfs) →
  ∃ df r0, df ∈ dfs ∧ r0 ∈ rows df
           ∧ (∀ c, get c r = get c r0)
           ∧ (∀ c v, r0.2 !! c = Some v → r.2 !! c = Some v).
Proof.
  intros Hr. unfold merged in Hr.
  destruct (concat dfs) as [T|] eqn:HT; [|by apply elem_of_nil in Hr].
  destruct (concat_rows _ _ _ HT Hr) as (df & r0 & Hdf & Hr0 & Heq).
  exists df, r0. split; [done|]. split; [done|]. split.
  - intros c. destruct r as [i m], r0 as [j m0]. simpl in Heq. subst m.
    apply get_reindex.
  - intros c v Hv. rewrite Heq. by apply reindex_lookup_Some.
Qed.

Lemma frame_of_category c df :
  df ∈ frames_of script_dir glob read_csv parse_any c →
  ∃ f, f ∈ files_of script_dir glob c
       ∧ body_of read_csv parse_any c f = Ok (Some df).
Proof.
  unfold frames_of. intros (f & Hf & Hdf)%list_elem_of_In%in_flat_map.
  exists f. split; [by apply list_elem_of_In|].
  by apply appended_inv, list_elem_of_In.
Qed.

Lemma table_in_data (out : stdout) :
  ∃ data out',
    load_all_data script_dir glob read_csv parse_any out = (Ok data, out')
    ∧ ∀ key T, (key, T) ∈ data →
        ∃ c, key = key_of c
             ∧ T = merged (frames_of script_dir glob read_csv parse_any c).
Proof.
  eexists _, _. split; [apply load_all_data_spec|]. intros key T HT.
  repeat (apply elem_of_cons in HT as [HT|HT];
          [injection HT as -> ->;
           first [by exists Trend | by exists Blog | by exists News]|]).
  by apply elem_of_nil in HT.
Qed.

(** No keyword contains an underscore or a slash: a keyword is one
    token of the base name of its file, so a search term written with
    an underscore in the name of the file is cut at the underscore. *)
Theorem keyword_has_no_separator (out : stdout) :
  ∃ data out',
    load_all_data script_dir glob read_csv parse_any out = (Ok data, out')
    ∧ ∀ key T r, (key, T) ∈ data → r ∈ rows T →
        ∃ k, r.2 !! "keyword" = Some (CStr k)
             ∧ has_char "_" k = false ∧ has_char "/" k = false.
Proof.
  destruct (table_in_data out) as (data & out' & H & Hdata).
  exists data, out'. split; [exact H|]. intros key T r HT Hr.
  destruct (Hdata key T HT) as (c & _ & ->).
  apply merged_row_origin in Hr as (df & r0 & Hdf & Hr0 & _ & Hlook).
  apply frame_of_category in Hdf as (f & _ & Hb).
  exists (keyword_of c f). split.
  - apply Hlook. by eapply body_rows_keyword.
  - apply keyword_of_no_separator.
Qed.

(** A blog or news file whose name has exactly three tokens (the
    subtype or the date stamp is missing) is not skipped: its keyword is
    the last token, file extension included. *)
Theorem three_token_name_keeps_extension (c : category) (f p : string) (df : DataFrame) :
  c ≠ Trend →
  basename f = p +:+ ".csv" →
  length (tokens f) = 3%nat →
  body_of read_csv parse_any c f = Ok (Some df) →
  ∃ k, ∀ r, r ∈ rows df → r.2 !! "keyword" = Some (CStr (k +:+ ".csv")).
Proof.
  intros Hc Hp Hlen Hb. exists (List.last (split "_" p) "").
  intros r Hr. rewrite (body_rows_keyword _ _ _ _ _ _ Hb Hr). do 2 f_equal.
  unfold keyword_of. unfold tokens in *. rewrite Hp in *.
  destruct (split_app_last "_" p ".csv" eq_refl) as [_ <-].
  destruct c; [done| |]; simpl;
    destruct (split "_" (p +:+ ".csv")) as [|x1 [|x2 [|x3 [|x4 l]]]];
    simpl in Hlen; try discriminate; reflexivity.
Qed.

Lemma body_dated_inv c f df df0 :
  body_of read_csv parse_any c f = Ok (Some df) →
  read_csv f = Ok df0 →
  has_column (date_source c) df0 = true →
  ∃ vs, df = set_series "date" vs (tagged c f df0)
        ∧ match c with
          | Trend => to_datetime (parse_any (get "period" <$> rows df0)) ErrorsRaise
                       (get "period" <$> rows df0) = Ok vs
          | Blog => vs = coerced parse_Ymd <$> (get "postdate" <$> rows df0)
          | News => vs = strip_tz <$> (coerced (parse_any (get "pubDate" <$> rows df0))
                                         <$> (get "pubDate" <$> rows df0))
          end.
Proof.
  intros H Hr Hd.
  destruct (body_Some _ _ _ _ _ H) as (df0' & Hlen & Hr' & _).
  apply Nat.leb_le in Hlen. unfold tokens in Hlen.
  rewrite <- (has_source_tagged c f) in Hd.
  destruct c; unfold body_of, trend_body, blog_body, news_body in H;
    rewrite Hlen, Hr in H; unfold_result; unfold column in H;
    unfold tagged, keyword_of, tokens, keyword_index, date_source in Hd |- *;
    rewrite !Hd in H; rewrite column_values_set_scalar in H by discriminate.
  - destruct (to_datetime _ _ _) as [vs|]; [|discriminate]. injection H as <-. eauto.
  - rewrite to_datetime_coerce in H. injection H as <-. eauto.
  - rewrite to_datetime_coerce in H. unfold dt_tz_localize_None in H.
    destruct (datetimelike _); [|discriminate]. injection H as <-. eauto.
Qed.

Lemma body_frame_inv c f df :
  body_of read_csv parse_any c f = Ok (Some df) →
  ∃ df0, read_csv f = Ok df0
    ∧ ((has_column (date_source c) df0 = false ∧ df = tagged c f df0)
       ∨ (has_column (date_source c) df0 = true
          ∧ ∃ vs, df = set_series "date" vs (tagged c f df0)
              ∧ match c with
                | Trend => to_datetime (parse_any (get "period" <$> rows df0)) ErrorsRaise
                             (get "period" <$> rows df0)
                           = Ok vs
                | Blog => vs = coerced parse_Ymd <$> (get "postdate" <$> rows df0)
                | News => vs = strip_tz
                               <$> (coerced (parse_any (get "pubDate" <$> rows df0))
                                      <$> (get "pubDate" <$> rows df0))
                end)).
Proof.
  intros H. destruct (body_Some _ _ _ _ _ H) as (df0 & Hlen & Hr & _).
  exists df0. split; [exact Hr|].
  destruct (has_column (date_source c) df0) eqn:Hd.
  - right. split; [reflexivity|]. by apply body_dated_inv.
  - left. split; [reflexivity|].
    rewrite (body_undated _ _ _ _ _ Hlen Hr Hd) in H. by injection H as <-.
Qed.

Lemma set_series_date_cell vs df r :
  r ∈ rows (set_series "date" vs df) → get "date" r ∈ vs.
Proof.
  intros (r0 & v & _ & Hv & ->)%rows_set_series. by rewrite get_insert_eq.
Qed.

Lemma coerced_null_or_ts parse c :
  coerced parse c = CNull ∨ ∃ t, coerced parse c = CTs t.
Proof. unfold coerced. destruct (convert parse c); eauto. Qed.

(** In the frame of a news file with a [pubDate] column every date is
    null or a timezone-naive timestamp: the offset of the publication
    date is dropped, the wall-clock time kept. *)
Theorem news_dates_are_naive (f : string) (df df0 : DataFrame) :
  news_body read_csv parse_any f = Ok (Some df) →
  read_csv f = Ok df0 →
  has_column "pubDate" df0 = true →
  ∀ r, r ∈ rows df →
       get "date" r = CNull ∨ ∃ t, get "date" r = CTs t ∧ ts_tz t = None.
Proof.
  intros H Hr Hd r Hin.
  destruct (body_dated_inv News f df df0 H Hr Hd) as (vs & -> & ->).
  apply set_series_date_cell in Hin.
  apply list_elem_of_fmap in Hin as (c & -> & Hc).
  apply list_elem_of_fmap in Hc as (c0 & -> & _).
  destruct (coerced_null_or_ts (parse_any (get "pubDate" <$> rows df0)) c0) as [->|[t ->]]; [by left|].
  right. simpl. eauto.
Qed.

End FrameDates.

Section RawFrames.

Variable script_dir : string.
Variable glob : string → list string.
Variable read_csv : string → result DataFrame.
Variable parse_any : list cell → cell → conv.

(** Every frame read is as [pd.read_csv] delivers it from a file
    without a [date] column. *)
Hypothesis read_raw : ∀ f df0, read_csv f = Ok df0 → raw_frame df0.

Lemma raw_cell df0 r c t : raw_frame df0 → r ∈ rows df0 → get c r ≠ CTs t.
Proof.
  intros Hraw Hr. destruct (Hraw r Hr) as [_ Hts]. unfold get.
  destruct (r.2 !! c) as [v|] eqn:E; simpl; [|done].
  intros ->. by apply (Hts c t).
Qed.

Lemma raw_no_date df0 r : raw_frame df0 → r ∈ rows df0 → get "date" r = CNull.
Proof.
  intros Hraw Hr. destruct (Hraw r Hr) as [Hd _]. unfold get. by rewrite Hd.
Qed.

Lemma parse_Ymd_midnight c :
  (∀ t, c ≠ CTs t) → midnight_or_null (coerced parse_Ymd c) = true.
Proof.
  intros Hc. unfold coerced. destruct c as [|s|n|t]; simpl.
  - done.
  - by destruct (strptime_Ymd s).
  - by destruct (strptime_Ymd (pretty n)).
  - by destruct (Hc t).
Qed.

Lemma tagged_date c f df0 r :
  raw_frame df0 → r ∈ rows (tagged c f df0) → get "date" r = CNull.
Proof.
  intros Hraw (r0 & Hr0 & ->)%rows_set_scalar.
  rewrite (get_insert_ne "date" "keyword" _ _ r0.1) by discriminate.
  rewrite <- surjective_pairing. by apply raw_no_date with df0.
Qed.

Lemma blog_frame_midnight f df r :
  blog_body read_csv f = Ok (Some df) → r ∈ rows df →
  midnight_or_null (get "date" r) = true.
Proof.
  intros H Hr.
  destruct (body_frame_inv read_csv parse_any Blog f df H)
    as (df0 & Hread & [[_ ->]|(_ & vs & -> & ->)]);
    pose proof (read_raw f df0 Hread) as Hraw.
  - by rewrite (tagged_date Blog f df0 r Hraw Hr).
  - apply set_series_date_cell in Hr.
    apply list_elem_of_fmap in Hr as (c & -> & Hc).
    apply list_elem_of_fmap in Hc as (r0 & -> & Hr0).
    apply parse_Ymd_midnight. intros t. by apply raw_cell with df0.
Qed.

(** The period values of the trend files are read as naive timestamps
    (a day such as 2024-01-15 carries no UTC offset). *)
Hypothesis period_naive : ∀ f df0 r t,
  f ∈ files_of script_dir glob Trend → read_csv f = Ok df0 → r ∈ rows df0 →
  parse_any (get "period" <$> rows df0) (get "period" r) = Conv t →
  ts_tz t = None.



End RawFrames.

Section BlogDates.

Variable script_dir : string.
Variable glob : string → list string.
Variable read_csv : string → result DataFrame.
Variable parse_any : list cell → cell → conv.

(** On files as [pd.read_csv] delivers them, every date of the blog
    table is null or a naive timestamp at midnight: a post has a day and
    no time of day. *)
Theorem blog_table_dates_at_midnight (out : stdout) :
  (∀ f df0, read_csv f = Ok df0 → raw_frame df0) →
  ∃ data out' T,
    load_all_data script_dir glob read_csv parse_any out = (Ok data, out')
    ∧ dict_get data "blog" = Some T
    ∧ ∀ r, r ∈ rows T → midnight_or_null (get "date" r) = true.
Proof.
  intros Hraw.
  destruct (table_of_category script_dir glob read_csv parse_any Blog out)
    as (data & out' & H & HT & _).
  eexists data, out', _. split; [exact H|]. split; [exact HT|].
  intros r Hr.
  apply merged_row_origin in Hr as (df & r0 & Hdf & Hr0 & Hget & _).
  apply frame_of_category in Hdf as (f & _ & Hb).
  rewrite Hget. by eapply blog_frame_midnight.
Qed.

End BlogDates.

(** ** The keyword selector *)

Section SelectorFacts.

Variable aware_lt : Timestamp → Timestamp → bool.
Variable sorted_with_null : list cell → result (list cell).

Lemma strings_not_null (l : list string) : existsb is_null (CStr <$> l) = false.
Proof. induction l as [|x l IH]; [reflexivity|exact IH]. Qed.

Lemma insert_sorted_strings x l :
  insert_sorted aware_lt (CStr x) (CStr <$> l) = Ok (CStr <$> insert_string x l).
Proof.
  induction l as [|y l IH]; simpl in *; [reflexivity|]. unfold_result.
  destruct (String.ltb x y); [reflexivity|].
  change (list_fmap string cell CStr l) with (CStr <$> l). by rewrite IH.
Qed.

Lemma sort_into_strings acc l :
  sort_into aware_lt (CStr <$> acc) (CStr <$> l)
  = Ok (CStr <$> sort_strings_into acc l).
Proof.
  revert acc. induction l as [|x l IH]; intros acc; [reflexivity|].
  change (CStr <$> x :: l) with (CStr x :: (CStr <$> l)).
  cbn [sort_into]. unfold_result. rewrite insert_sorted_strings. apply IH.
Qed.

Lemma insert_string_perm x l : insert_string x l ≡ₚ x :: l.
Proof.
  induction l as [|y l IH]; simpl; [reflexivity|].
  destruct (String.ltb x y); [reflexivity|].
  rewrite IH. apply Permutation_swap.
Qed.

Lemma sort_strings_perm acc l : sort_strings_into acc l ≡ₚ acc ++ l.
Proof.
  revert acc. unfold sort_strings_into.
  induction l as [|x l IH]; intros acc; simpl; [by rewrite app_nil_r|].
  rewrite IH, insert_string_perm. simpl. apply Permutation_middle.
Qed.

Lemma ltb_leb x y : String.ltb x y = true → string_le x y.
Proof. unfold String.ltb, string_le, String.leb. by destruct (String.compare x y). Qed.

Lemma not_ltb_leb x y : String.ltb x y = false → string_le y x.
Proof.
  unfold String.ltb, string_le, String.leb. rewrite (String.compare_antisym x y).
  by destruct (String.compare y x).
Qed.

Lemma insert_string_hd y x l :
  string_le y x → HdRel string_le y l → HdRel string_le y (insert_string x l).
Proof.
  intros Hyx Hl. destruct l as [|z l]; simpl; [by constructor|].
  destruct (String.ltb x z); constructor; [exact Hyx|]. by inversion Hl.
Qed.

Lemma insert_string_sorted x l :
  Sorted string_le l → Sorted string_le (insert_string x l).
Proof.
  induction 1 as [|y l Hl IH Hhd]; simpl; [by repeat constructor|].
  destruct (String.ltb x y) eqn:E.
  - constructor; [by constructor|]. constructor. by apply ltb_leb.
  - constructor; [exact IH|]. apply insert_string_hd; [|exact Hhd].
    by apply not_ltb_leb.
Qed.

Lemma sort_strings_sorted acc l :
  Sorted string_le acc → Sorted string_le (sort_strings_into acc l).
Proof.
  revert acc. unfold sort_strings_into.
  induction l as [|x l IH]; intros acc Hacc; simpl; [exact Hacc|].
  by apply IH, insert_string_sorted.
Qed.

Lemma elem_of_unique l c : c ∈ unique l ↔ c ∈ l.
Proof.
  induction l as [|x l IH]; simpl; [reflexivity|].
  rewrite !elem_of_cons, list_elem_of_In, filter_In, <- list_elem_of_In, IH.
  rewrite negb_true_iff, bool_decide_eq_false.
  destruct (decide (c = x)); tauto.
Qed.

Lemma unique_NoDup l : NoDup (unique l).
Proof.
  induction l as [|x l IH]; simpl; [constructor|]. constructor.
  - rewrite list_elem_of_In, filter_In, negb_true_iff, bool_decide_eq_false.
    tauto.
  - clear -IH. induction IH as [|y l' Hy _ IH']; simpl; [constructor|].
    destruct (negb (bool_decide (y = x))); [|exact IH'].
    constructor; [|exact IH'].
    rewrite list_elem_of_In, filter_In, <- list_elem_of_In. tauto.
Qed.

Lemma all_strings (l : list cell) :
  (∀ c, c ∈ l → ∃ k, c = CStr k) → ∃ ks, l = CStr <$> ks.
Proof.
  induction l as [|c l IH]; intros H; [by exists []|].
  destruct (H c) as [k ->]; [apply elem_of_cons; by left|].
  destruct IH as [ks ->]; [intros c Hc; apply H, elem_of_cons; by right|].
  by exists (k :: ks).
Qed.

(** What the selector computes from a keyword column of strings. *)
Lemma sorted_unique_strings (col : list cell) :
  (∀ c, c ∈ col → ∃ k, c = CStr k) →
  ∃ l, py_sorted aware_lt sorted_with_null (unique col) = Ok (CStr <$> l)
       ∧ Sorted string_le l ∧ NoDup l
       ∧ ∀ k, k ∈ l ↔ CStr k ∈ col.
Proof.
  intros Hcol.
  destruct (all_strings (unique col)) as [ks Hks].
  { intros c Hc. by apply Hcol, elem_of_unique. }
  exists (sort_strings_into [] ks). split; [|split; [|split]].
  - unfold py_sorted. rewrite Hks, strings_not_null. apply (sort_into_strings []).
  - apply sort_strings_sorted. constructor.
  - rewrite sort_strings_perm. simpl.
    apply (NoDup_fmap_1 CStr). rewrite <- Hks. apply unique_NoDup.
  - intros k. rewrite sort_strings_perm. simpl.
    rewrite <- (elem_of_unique col), Hks.
    rewrite list_elem_of_fmap. split; [eauto|]. by intros (k' & [= ->] & ?).
Qed.

(** The options of the keyword selector, when the trend table has rows
    and its keywords are strings: the keywords of the table, each once,
    in ascending order. *)
Theorem available_keywords_sorted_unique (data_all : dict DataFrame) (T : DataFrame) :
  dict_get data_all "trend" = Some T →
  empty T = false →
  has_column "keyword" T = true →
  (∀ r, r ∈ rows T → ∃ k, get "keyword" r = CStr k) →
  ∃ l, available_keywords aware_lt sorted_with_null data_all = Ok (CStr <$> l)
       ∧ Sorted string_le l ∧ NoDup l
       ∧ ∀ k, k ∈ l ↔ ∃ r, r ∈ rows T ∧ get "keyword" r = CStr k.
Proof.
  intros HT HE Hcol Hstr.
  destruct (sorted_unique_strings (get "keyword" <$> rows T)) as (l & Hl & Hs & Hn & Hm).
  { intros c (r & -> & Hr)%list_elem_of_fmap. by apply Hstr. }
  exists l. split; [|split; [exact Hs|split; [exact Hn|]]].
  - unfold available_keywords, dict_getitem, column. rewrite HT. unfold_result.
    by rewrite HE, Hcol.
  - intros k. rewrite Hm, list_elem_of_fmap.
    split; intros (r & ? & ?); exists r; done.
Qed.

End SelectorFacts.

Section SelectorOfLoaded.

Variable script_dir : string.
Variable glob : string → list string.
Variable read_csv : string → result DataFrame.
Variable parse_any : list cell → cell → conv.
Variable aware_lt : Timestamp → Timestamp → bool.
Variable sorted_with_null : list cell → result (list cell).

Lemma loaded_keyword_column c :
  let T := merged (frames_of script_dir glob read_csv parse_any c) in
  (∀ r, r ∈ rows T → ∃ k, get "keyword" r = CStr k)
  ∧ (empty T = false → has_column "keyword" T = true)
  ∧ (empty T = true → rows T = []).
Proof.
  intros T. unfold T. set (dfs := frames_of _ _ _ _ c).
  assert (∀ df, df ∈ dfs → has_column "keyword" df = true) as Hkw.
  { intros df (f & _ & Hb)%frame_of_category. by eapply body_has_keyword. }
  assert (dfs ≠ [] → has_column "keyword" (merged dfs) = true) as Hcol
    by (by apply merged_has_column).
  split; [|split].
  - intros r (df & r0 & Hdf & Hr0 & Hget & _)%merged_row_origin.
    apply frame_of_category in Hdf as (f & _ & Hb).
    exists (keyword_of c f). rewrite Hget. unfold get.
    by rewrite (body_rows_keyword _ _ _ _ _ _ Hb Hr0).
  - intros HE. apply Hcol. intros E. by rewrite E in HE.
  - intros HE. destruct (decide (dfs = [])) as [E|E]; [by rewrite E|].
    specialize (Hcol E). unfold empty, has_column in *.
    destruct (rows (merged dfs)); [reflexivity|].
    destruct (columns (merged dfs)); discriminate.
Qed.

Lemma options_from_table (data_all : dict DataFrame) T :
  (∀ r, r ∈ rows T → ∃ k, get "keyword" r = CStr k) →
  has_column "keyword" T = true →
  ∃ l, (kw ← column "keyword" T; py_sorted aware_lt sorted_with_null (unique kw)) = Ok (CStr <$> l)
       ∧ Sorted string_le l ∧ NoDup l
       ∧ ∀ k, k ∈ l ↔ ∃ r, r ∈ rows T ∧ get "keyword" r = CStr k.
Proof.
  intros Hstr Hcol.
  destruct (sorted_unique_strings aware_lt sorted_with_null (get "keyword" <$> rows T))
    as (l & Hl & Hs & Hn & Hm).
  { intros c (r & -> & Hr)%list_elem_of_fmap. by apply Hstr. }
  exists l. split; [|split; [exact Hs|split; [exact Hn|]]].
  - unfold column. rewrite Hcol. exact Hl.
  - intros k. rewrite Hm, list_elem_of_fmap.
    split; intros (r & ? & ?); exists r; done.
Qed.

(** The options of the keyword selector on the tables of
    [load_all_data]: computing them never raises; they are the keywords
    of the trend table or, when that table is empty, of the blog table,
    each once, in ascending order. The news table is not looked at:
    keywords that only news files have are never offered. *)
Theorem selector_options_of_loaded (out : stdout) :
  ∃ data out' trend blog l,
    load_all_data script_dir glob read_csv parse_any out = (Ok data, out')
    ∧ dict_get data "trend" = Some trend
    ∧ dict_get data "blog" = Some blog
    ∧ available_keywords aware_lt sorted_with_null data = Ok (CStr <$> l)
    ∧ Sorted string_le l ∧ NoDup l
    ∧ ∀ k, k ∈ l ↔
        ∃ r, r ∈ rows (if empty trend then blog else trend)
             ∧ get "keyword" r = CStr k.
Proof.
  set (trend := merged (frames_of script_dir glob read_csv parse_any Trend)).
  set (blog := merged (frames_of script_dir glob read_csv parse_any Blog)).
  destruct (loaded_keyword_column Trend) as (Hts & Htc & _).
  destruct (loaded_keyword_column Blog) as (Hbs & Hbc & Hbe).
  fold trend in Hts, Htc. fold blog in Hbs, Hbc, Hbe.
  assert (∃ l, available_keywords aware_lt sorted_with_null
                 [("trend", trend); ("blog", blog);
                  ("news", merged (frames_of script_dir glob read_csv parse_any News))]
               = Ok (CStr <$> l)
               ∧ Sorted string_le l ∧ NoDup l
               ∧ ∀ k, k ∈ l ↔
                   ∃ r, r ∈ rows (if empty trend then blog else trend)
                        ∧ get "keyword" r = CStr k) as (l & Hl).
  { unfold available_keywords, dict_getitem. cbn [dict_get String.eqb Ascii.eqb Bool.eqb].
    change (mbind ?f (Ok ?x)) with (f x). cbv beta.
    destruct (empty trend) eqn:HEt; cbn [negb].
    - change (mbind ?f (Ok ?x)) with (f x). cbv beta.
      destruct (empty blog) eqn:HEb; cbn [negb].
      + exists []. split; [reflexivity|]. split; [constructor|]. split; [constructor|].
        intros k. rewrite (Hbe eq_refl). split.
        * by intros ?%elem_of_nil.
        * by intros (r & ?%elem_of_nil & _).
      + apply (options_from_table []); [exact Hbs|by apply Hbc].
    - apply (options_from_table []); [exact Hts|by apply Htc]. }
  exists [("trend", trend); ("blog", blog);
          ("news", merged (frames_of script_dir glob read_csv parse_any News))].
  eexists. exists trend, blog, l.
  split; [apply load_all_data_spec|]. split; [reflexivity|]. split; [reflexivity|].
  exact Hl.
Qed.

End SelectorOfLoaded.

(** * The further properties on the example inputs *)

Lemma frame_is_raw cols rs :
  Forall (Forall (λ kv : string * cell,
                    kv.1 ≠ "date" ∧ ∀ t, kv.2 ≠ CTs t)) rs →
  raw_frame (Examples.frame cols rs).
Proof.
  intros Hrs r Hr. unfold Examples.frame in Hr. cbn [rows] in Hr.
  apply elem_of_lookup_imap in Hr as (i & kvs & -> & Hi).
  apply list_elem_of_lookup_2 in Hi.
  rewrite Forall_forall in Hrs. specialize (Hrs kvs Hi).
  rewrite Forall_forall in Hrs. cbn [snd]. split.
  - apply not_elem_of_list_to_map_1. intros (kv & Hk & Hin)%list_elem_of_fmap.
    destruct (Hrs kv Hin) as [Hne _]. by apply Hne.
  - intros c t Hl. apply elem_of_list_to_map_2 in Hl.
    destruct (Hrs _ Hl) as [_ Hnt]. by apply (Hnt t).
Qed.

Lemma disk_read_raw f df0 : Disk.read_csv f = Ok df0 → raw_frame df0.
Proof.
  unfold Disk.read_csv. intros H.
  repeat (destruct (String.eqb f _);
          [injection H as <-; apply frame_is_raw;
           repeat (constructor; try (cbn; split; [discriminate|intros; discriminate]))|]).
  discriminate H.
Qed.



Lemma filter_table_keeps_shape_witness :
  let kept := [(0%nat, list_to_map [("period", CStr "2024-01-01"); ("ratio", CInt 10);
                                    ("keyword", CStr "A");
                                    ("date", CTs (Timestamp_of_date Examples.jan01))])] in
  filter_table ["A"] Examples.jan01 Examples.jan29 Examples.trend_table
  = Ok {| columns := columns Examples.trend_table; rows := kept |}
  ∧ columns {| columns := columns Examples.trend_table; rows := kept |}
    = columns Examples.trend_table
  ∧ sublist kept (rows Examples.trend_table).
Proof.
  intros kept.
  assert (filter_table ["A"] Examples.jan01 Examples.jan29 Examples.trend_table
          = Ok {| columns := columns Examples.trend_table; rows := kept |}) as H
    by (vm_compute; reflexivity).
  split; [exact H|].
  exact (filter_table_keeps_shape _ _ _ _ _ H).
Defined.

Lemma filter_table_raises_only_witness :
  let texts := Examples.frame ["date"; "keyword"]
                 [[("date", CStr "2024-01-01"); ("keyword", CStr "A")]] in
  empty Disk.trend_disney_csv = false
  ∧ has_column "keyword" Disk.trend_disney_csv = false
  ∧ filter_table ["A"] Examples.jan01 Examples.jan29 Disk.trend_disney_csv
    = Raise (KeyError "keyword")
  ∧ (∃ msg, filter_table ["A"] Examples.jan01 Examples.jan29 texts
            = Raise (TypeError msg))
  ∧ (∃ T', filter_table ["A"] Examples.jan01 Examples.jan29 Examples.trend_table = Ok T').
Proof.
  intros texts.
  assert (empty Disk.trend_disney_csv = false) as HE by reflexivity.
  assert (has_column "keyword" Disk.trend_disney_csv = false) as Hc by reflexivity.
  split; [exact HE|]. split; [exact Hc|]. split; [|split].
  - apply (filter_table_raises_only ["A"] Examples.jan01 Examples.jan29
             Disk.trend_disney_csv); [exact HE|discriminate|exact Hc].
  - apply (filter_table_raises_only ["A"] Examples.jan01 Examples.jan29 texts);
      [reflexivity|reflexivity|reflexivity|].
    exists (0%nat, list_to_map [("date", CStr "2024-01-01"); ("keyword", CStr "A")]).
    split; [apply list_elem_of_In; left; reflexivity|]. split; reflexivity.
  - apply (filter_table_raises_only ["A"] Examples.jan01 Examples.jan29
             Examples.trend_table); [reflexivity|].
    right. split.
    + repeat constructor.
    + exists (0%nat, list_to_map [("period", CStr "2024-01-01"); ("ratio", CInt 10);
                                  ("keyword", CStr "A");
                                  ("date", CTs (Timestamp_of_date Examples.jan01))]),
             (Timestamp_of_date Examples.jan01).
      split; [apply list_elem_of_In; left; reflexivity|reflexivity].
Defined.

Lemma filter_table_interval_mono_witness :
  let r := (1%nat, list_to_map [("period", CStr "2024-01-15"); ("ratio", CInt 20);
                                ("keyword", CStr "B");
                                ("date", CTs (Timestamp_of_date Examples.jan15))]) in
  date_leb Examples.jan01 Examples.jan15 = true
  ∧ date_leb Examples.jan15 Examples.jan29 = true
  ∧ filter_table [] Examples.jan15 Examples.jan15 Examples.trend_table
    = Ok {| columns := columns Examples.trend_table; rows := [r] |}
  ∧ ∃ T'', filter_table [] Examples.jan01 Examples.jan29 Examples.trend_table = Ok T''
           ∧ ∀ r', r' ∈ [r] → r' ∈ rows T''.
Proof.
  intros r.
  assert (date_leb Examples.jan01 Examples.jan15 = true) as Hs by reflexivity.
  assert (date_leb Examples.jan15 Examples.jan29 = true) as He by reflexivity.
  assert (filter_table [] Examples.jan15 Examples.jan15 Examples.trend_table
          = Ok {| columns := columns Examples.trend_table; rows := [r] |}) as H
    by (vm_compute; reflexivity).
  split; [exact Hs|]. split; [exact He|]. split; [exact H|].
  exact (filter_table_interval_mono _ _ _ _ _ _ _ Hs He H).
Defined.

Lemma filter_table_inverted_interval_witness :
  date_leb Examples.jan29 Examples.jan01 = false
  ∧ has_column "date" Examples.trend_table = true
  ∧ filter_table [] Examples.jan29 Examples.jan01 Examples.trend_table
    = Ok {| columns := columns Examples.trend_table; rows := [] |}
  ∧ rows {| columns := columns Examples.trend_table; rows := [] |} = [].
Proof.
  assert (date_leb Examples.jan29 Examples.jan01 = false) as Hse by reflexivity.
  assert (has_column "date" Examples.trend_table = true) as Hd by reflexivity.
  assert (filter_table [] Examples.jan29 Examples.jan01 Examples.trend_table
          = Ok {| columns := columns Examples.trend_table; rows := [] |}) as H
    by (vm_compute; reflexivity).
  split; [exact Hse|]. split; [exact Hd|]. split; [exact H|].
  exact (filter_table_inverted_interval _ _ _ _ _ Hse Hd H).
Defined.

Lemma filter_table_keyword_mono_witness :
  let r := (0%nat, list_to_map [("period", CStr "2024-01-01"); ("ratio", CInt 10);
                                ("keyword", CStr "A");
                                ("date", CTs (Timestamp_of_date Examples.jan01))]) in
  let r' := (1%nat, list_to_map [("period", CStr "2024-01-15"); ("ratio", CInt 20);
                                 ("keyword", CStr "B");
                                 ("date", CTs (Timestamp_of_date Examples.jan15))]) in
  ["A"] ≠ []
  ∧ (∀ k : string, k ∈ ["A"] → k ∈ ["A"; "B"])
  ∧ filter_table ["A"] Examples.jan01 Examples.jan29 Examples.trend_table
    = Ok {| columns := columns Examples.trend_table; rows := [r] |}
  ∧ filter_table ["A"; "B"] Examples.jan01 Examples.jan29 Examples.trend_table
    = Ok {| columns := columns Examples.trend_table; rows := [r; r'] |}
  ∧ ∀ r0, r0 ∈ [r] → r0 ∈ [r; r'].
Proof.
  intros r r'.
  assert (["A"] ≠ @nil string) as HK by discriminate.
  assert (∀ k : string, k ∈ ["A"] → k ∈ ["A"; "B"]) as Hsub.
  { intros k ->%list_elem_of_singleton. apply elem_of_cons. by left. }
  assert (filter_table ["A"] Examples.jan01 Examples.jan29 Examples.trend_table
          = Ok {| columns := columns Examples.trend_table; rows := [r] |}) as H
    by (vm_compute; reflexivity).
  assert (filter_table ["A"; "B"] Examples.jan01 Examples.jan29 Examples.trend_table
          = Ok {| columns := columns Examples.trend_table; rows := [r; r'] |}) as H'
    by (vm_compute; reflexivity).
  split; [exact HK|]. split; [exact Hsub|]. split; [exact H|]. split; [exact H'|].
  exact (filter_table_keyword_mono _ _ _ _ _ _ _ HK Hsub H H').
Defined.

Lemma filter_table_midnight_inclusive_witness :
  has_column "date" Examples.blog_table = true
  ∧ Forall (λ r, midnight_or_null (get "date" r) = true) (rows Examples.blog_table)
  ∧ (∃ r t, r ∈ rows Examples.blog_table ∧ get "date" r = CTs t)
  ∧ filter_table [] Examples.jan01 Examples.jan29 Examples.blog_table
    = Ok {| columns := columns Examples.blog_table;
            rows := List.filter
                      (λ r, kw_pass [] r && date_in Examples.jan01 Examples.jan29 (get "date" r))
                      (rows Examples.blog_table) |}
  ∧ List.filter (λ r, kw_pass [] r && date_in Examples.jan01 Examples.jan29 (get "date" r))
      (rows Examples.blog_table)
    = rows Examples.blog_table.
Proof.
  assert (has_column "date" Examples.blog_table = true) as Hd by reflexivity.
  assert (Forall (λ r, midnight_or_null (get "date" r) = true)
            (rows Examples.blog_table)) as Hm.
  { repeat constructor. }
  assert (∃ r t, r ∈ rows Examples.blog_table ∧ get "date" r = CTs t) as Ht.
  { exists (0%nat, list_to_map [("postdate", CStr "20240129"); ("title", CStr "review");
                                ("keyword", CStr "netflix");
                                ("date", CTs (Timestamp_of_date Examples.jan29))]),
           (Timestamp_of_date Examples.jan29).
    split; [apply list_elem_of_In; left; reflexivity|reflexivity]. }
  split; [exact Hd|]. split; [exact Hm|]. split; [exact Ht|]. split.
  - apply (filter_table_midnight_inclusive [] Examples.jan01 Examples.jan29
             Examples.blog_table Hd); [|exact Hm|exact Ht].
    intros HK. by destruct HK.
  - vm_compute. reflexivity.
Defined.

Lemma filter_data_keeps_keys_witness :
  NoDup Archive.data.*1
  ∧ ∃ filtered h',
      filter_data Archive.data ["A"] Examples.jan01 Examples.jan29 Archive.heap
      = (Ok filtered, h')
      ∧ filtered.*1 = ["trend"; "blog"; "news"]
      ∧ ∀ key, key ∈ Archive.data.*1 → ∃ l', dict_getitem filtered key = Ok l'.
Proof.
  assert (NoDup Archive.data.*1) as Hnd.
  { apply (bool_decide_unpack (NoDup Archive.data.*1)). vm_compute. exact I. }
  split; [exact Hnd|].
  destruct (filter_data Archive.data ["A"] Examples.jan01 Examples.jan29 Archive.heap)
    as [[filtered|ex] h'] eqn:H; [|vm_compute in H; discriminate H].
  exists filtered, h'. split; [reflexivity|].
  exact (filter_data_keeps_keys _ _ _ _ _ _ _ Hnd H).
Defined.

Lemma filter_data_all_or_nothing_witness :
  let data := [("trend", 1%positive); ("news", 2%positive)] in
  let h : store := {[1%positive := Examples.trend_table; 2%positive := Disk.trend_disney_csv]} in
  (∀ key l, (key, l) ∈ data → is_Some (h !! l))
  ∧ filter_table ["A"] Examples.jan01 Examples.jan29 Disk.trend_disney_csv
    = Raise (KeyError "keyword")
  ∧ (filter_data data ["A"] Examples.jan01 Examples.jan29 h).1 = Raise (KeyError "keyword")
  ∧ ((∃ filtered h', filter_data data ["A"] Examples.jan01 Examples.jan29 h
                     = (Ok filtered, h'))
     ↔ ∀ key l v, (key, l) ∈ data → h !! l = Some v →
                  ∃ T', filter_table ["A"] Examples.jan01 Examples.jan29 v = Ok T').
Proof.
  intros data h.
  assert (∀ key l, (key, l) ∈ data → is_Some (h !! l)) as Hlive.
  { intros key l Hin. unfold data in Hin.
    repeat (apply elem_of_cons in Hin as [Hin|Hin]; [injection Hin as -> ->; by eexists|]).
    by apply elem_of_nil in Hin. }
  split; [exact Hlive|]. split; [vm_compute; reflexivity|].
  split; [vm_compute; reflexivity|].
  exact (filter_data_all_or_nothing data ["A"] Examples.jan01 Examples.jan29 h Hlive).
Defined.

Lemma no_frame_empty_table_witness :
  files_of Disk.script_dir Disk.glob News = []
  ∧ ∃ data out',
      load_all_data Disk.script_dir Disk.glob Disk.read_csv Disk.parse_column []
      = (Ok data, out')
      ∧ dict_get data "news" = Some DataFrame_new.
Proof.
  assert (files_of Disk.script_dir Disk.glob News = []) as Hf by (vm_compute; reflexivity).
  split; [exact Hf|].
  apply (no_frame_empty_table Disk.script_dir Disk.glob Disk.read_csv
           Disk.parse_column News []).
  intros f Hin. rewrite Hf in Hin. by apply elem_of_nil in Hin.
Defined.

Lemma three_token_name_keeps_extension_witness :
  Blog ≠ Trend
  ∧ basename Archive.blog_undated = "blog_review_netflix" +:+ ".csv"
  ∧ length (tokens Archive.blog_undated) = 3%nat
  ∧ ∃ df, body_of Archive.read_csv Archive.parse_column Blog Archive.blog_undated
          = Ok (Some df)
          ∧ rows df ≠ []
          ∧ keyword_of Blog Archive.blog_undated = "netflix.csv"
          ∧ ∃ k, ∀ r, r ∈ rows df → r.2 !! "keyword" = Some (CStr (k +:+ ".csv")).
Proof.
  assert (Blog ≠ Trend) as Hc by discriminate.
  assert (basename Archive.blog_undated = "blog_review_netflix" +:+ ".csv") as Hb
    by (vm_compute; reflexivity).
  assert (length (tokens Archive.blog_undated) = 3%nat) as Hl by (vm_compute; reflexivity).
  split; [exact Hc|]. split; [exact Hb|]. split; [exact Hl|].
  destruct (body_of Archive.read_csv Archive.parse_column Blog Archive.blog_undated)
    as [[df|]|] eqn:H; [|vm_compute in H; discriminate H..].
  exists df. split; [reflexivity|]. split.
  { vm_compute in H. injection H as <-. discriminate. }
  split; [vm_compute; reflexivity|].
  exact (three_token_name_keeps_extension Archive.read_csv Archive.parse_column
           Blog Archive.blog_undated "blog_review_netflix" df Hc Hb Hl H).
Defined.

Lemma news_dates_are_naive_witness :
  Archive.read_csv Archive.news_netflix = Ok Archive.news_netflix_csv
  ∧ has_column "pubDate" Archive.news_netflix_csv = true
  ∧ convert (Archive.parse_column (get "pubDate" <$> rows Archive.news_netflix_csv))
      (CStr "Mon, 29 Jan 2024 10:30:00 +0900")
    = Conv Archive.jan29_1030_kst
  ∧ ∃ df, news_body Archive.read_csv Archive.parse_column Archive.news_netflix
          = Ok (Some df)
          ∧ (get "date" <$> rows df) = [CTs Examples.jan29_1030; CNull]
          ∧ ∀ r, r ∈ rows df →
                 get "date" r = CNull ∨ ∃ t, get "date" r = CTs t ∧ ts_tz t = None.
Proof.
  assert (Archive.read_csv Archive.news_netflix = Ok Archive.news_netflix_csv) as Hr
    by (vm_compute; reflexivity).
  assert (has_column "pubDate" Archive.news_netflix_csv = true) as Hp by reflexivity.
  split; [exact Hr|]. split; [exact Hp|]. split; [vm_compute; reflexivity|].
  destruct (news_body Archive.read_csv Archive.parse_column Archive.news_netflix)
    as [[df|]|] eqn:H; [|vm_compute in H; discriminate H..].
  exists df. split; [reflexivity|]. split.
  { vm_compute in H. injection H as <-. vm_compute. reflexivity. }
  exact (news_dates_are_naive Archive.read_csv Archive.parse_column
           Archive.news_netflix df Archive.news_netflix_csv H Hr Hp).
Defined.


Lemma blog_table_dates_at_midnight_witness :
  (∀ f df0, Disk.read_csv f = Ok df0 → raw_frame df0)
  ∧ ∃ data out' T,
      load_all_data Disk.script_dir Disk.glob Disk.read_csv Disk.parse_column []
      = (Ok data, out')
      ∧ dict_get data "blog" = Some T
      ∧ ∀ r, r ∈ rows T → midnight_or_null (get "date" r) = true.
Proof.
  split; [exact disk_read_raw|].
  exact (blog_table_dates_at_midnight Disk.script_dir Disk.glob Disk.read_csv
           Disk.parse_column [] disk_read_raw).
Defined.

Lemma available_keywords_sorted_unique_witness :
  dict_get Archive.tables "trend" = Some Examples.trend_table
  ∧ empty Examples.trend_table = false
  ∧ has_column "keyword" Examples.trend_table = true
  ∧ (∀ r, r ∈ rows Examples.trend_table → ∃ k, get "keyword" r = CStr k)
  ∧ available_keywords (λ _ _, false) Ok Archive.tables = Ok [CStr "A"; CStr "B"]
  ∧ default_selection [CStr "A"; CStr "B"] = Some [CStr "A"; CStr "B"]
  ∧ ∃ l, available_keywords (λ _ _, false) Ok Archive.tables = Ok (CStr <$> l)
         ∧ Sorted string_le l ∧ NoDup l
         ∧ ∀ k, k ∈ l ↔ ∃ r, r ∈ rows Examples.trend_table ∧ get "keyword" r = CStr k.
Proof.
  assert (dict_get Archive.tables "trend" = Some Examples.trend_table) as Ht by reflexivity.
  assert (empty Examples.trend_table = false) as HE by reflexivity.
  assert (has_column "keyword" Examples.trend_table = true) as Hk by reflexivity.
  assert (∀ r, r ∈ rows Examples.trend_table → ∃ k, get "keyword" r = CStr k) as Hs.
  { intros r Hin.
    repeat (apply elem_of_cons in Hin as [->|Hin]; [by eexists|]).
    by apply elem_of_nil in Hin. }
  split; [exact Ht|]. split; [exact HE|]. split; [exact Hk|]. split; [exact Hs|].
  split; [vm_compute; reflexivity|]. split; [reflexivity|].
  exact (available_keywords_sorted_unique (λ _ _, false) Ok Archive.tables
           Examples.trend_table Ht HE Hk Hs).
Defined.
